(** * siasync: a shallow embedding of the synchronisation engine

    The development follows [siafolder.go] and [utils.go].  A [SiaFolder]
    is a record, the Sia node behind [sf.client] is an abstract transition
    system, and every handler is a function in a small state monad that
    also records the remote calls it issues.  A Go [panic] is a separate
    outcome of the monad.  Log lines, [Close] and the channel loop of
    [eventWatcher] are not modelled; the handlers that loop dispatches to
    are. *)

From Stdlib Require Import ZArith Ascii String List Bool Lia.
From Stdlib Require Import Floats.SpecFloat.
From stdpp Require Import gmap strings list pretty.

Local Open Scope string_scope.
Local Open Scope Z_scope.

(** ** Values shared with the Go runtime and the Sia packages *)

(** A Go [error]: [None] is [nil], [Some msg] carries [err.Error()]. *)
Definition error : Type := option string.

(** The pair [(T, error)] returned by a library call. *)
Inductive result (A : Type) : Type :=
| Ok (a : A)
| Err (msg : string).
Arguments Ok {A} a.
Arguments Err {A} msg.

(** [modules.SiaPath]: a struct with the single field [Path]. *)
Record SiaPath : Type := mkSiaPath { Path : string }.

#[global] Instance SiaPath_eq_dec : EqDecision SiaPath.
Proof. solve_decision. Defined.

(** [sp.Equals(other)] compares the two [Path] fields. *)
Definition Equals (sp other : SiaPath) : bool :=
  bool_decide (Path sp = Path other).

(** [strings.HasPrefix(s, prefix)]. *)
Definition HasPrefix (s pre : string) : bool := String.prefix pre s.

(** [strings.Contains(s, substr)]. *)
Fixpoint Contains (s substr : string) : bool :=
  String.prefix substr s ||
  match s with
  | EmptyString => false
  | String _ s' => Contains s' substr
  end.

(** [strconv.FormatInt(i, 10)]. *)
Definition FormatInt (i : Z) : string := pretty i.

(** The conversion [int64(x)] of a [uint64]: two's complement wrap-around. *)
Definition int64_of_uint64 (x : Z) : Z :=
  if x <? 2 ^ 63 then x else x - 2 ^ 64.

(** [os.FileInfo], reduced to the two methods the program calls. *)
Record FileInfo : Type := mkFileInfo { Size : Z; IsDir : bool }.

(** [float64] values are IEEE 754 values; [float64_one] is the constant [1]
    of the comparison in the promotion loop. *)
Definition float64 : Type := spec_float.
Definition float64_one : float64 := S754_finite false 4503599627370496 (-52).

(** [modules.DirectoryInfo] and [modules.FileInfo] as the program reads them. *)
Record DirectoryInfo : Type := mkDirectoryInfo {
  AggregateMinRedundancy : float64;
  DirSiaPath : SiaPath }.

Record SiaFileInfo : Type := mkSiaFileInfo {
  Filesize : Z;
  FileSiaPath : SiaPath }.

(** [api.RenterDirectory], [api.RenterFiles] and [api.RenterFile]. *)
Record RenterDirectory : Type := mkRenterDirectory {
  Directories : list DirectoryInfo;
  DirFiles : list SiaFileInfo }.

Record RenterFiles : Type := mkRenterFiles { Files : list SiaFileInfo }.

Record RenterFile : Type := mkRenterFile { File : SiaFileInfo }.

(** One callback of [filepath.Walk]: the arguments [walkpath], [f], [err]. *)
Record WalkEntry : Type := mkWalkEntry {
  walkpath : string;
  walkinfo : FileInfo;
  walkerr : error }.

(** ** The constants and flags of [siasync.go] *)

(** [archive] is a constant of the build ([true] in the source); the
    handlers are modelled for either value.  The three others are flags. *)
Class Globals : Type := {
  archive : bool;
  dryRun : bool;
  siaStagingDir : string;
  siaProdDir : string }.

Definition dataPieces : Z := 10.
Definition parityPieces : Z := 30.
Definition movieDir : string := "movies".
Definition tvDir : string := "tv".

(** A run that mirrors into [fuse/staging] and promotes to [fuse/prod],
    the defaults of the two flags. *)
Definition flags (archive_ dryRun_ : bool) : Globals := {|
  archive := archive_;
  dryRun := dryRun_;
  siaStagingDir := "fuse/staging";
  siaProdDir := "fuse/prod" |}.

(** The values of the source when no flag is passed. *)
Definition defaultGlobals : Globals := flags true false.

(** ** The host: [path/filepath], [os], [fsnotify] and [modules.SiaPath]

    These functions are not part of the repository.  They are taken as an
    interface; [os_Stat] and [filepath_Walk] stand for the local file tree,
    which the program only reads. *)
Class Host : Type := {
  filepath_Abs : string -> result string;
  filepath_Rel : string -> string -> result string;
  filepath_Join : string -> string -> string;
  NewSiaPath : string -> result SiaPath;
  Rebase : SiaPath -> SiaPath -> SiaPath -> result SiaPath;
  os_Stat : string -> result FileInfo;
  filepath_Walk : string -> list WalkEntry;
  fsnotify_NewWatcher : error;
  watcher_Add : string -> error;
  range_order : nat -> gmap string string -> list string }.

(** [range_order n m] is the order in which the [n]-th [range] loop of a
    run visits the keys of [m]; Go leaves it unspecified, and promises only
    that every key is visited once. *)
Definition range_visits_keys {H : Host} : Prop :=
  forall n (m : gmap string string), range_order n m ≡ₚ (map_to_list m).*1.

(** ** The Sia node behind [sf.client]

    A node is a state of type [R]; every API call returns its answer and
    the next state. *)
Class Client (R : Type) : Type := {
  node_RenterGetDir : SiaPath -> R -> result RenterDirectory * R;
  node_RenterRenamePost : SiaPath -> SiaPath -> R -> error * R;
  node_RenterFileGet : SiaPath -> R -> result RenterFile * R;
  node_RenterFilesGet : bool -> R -> result RenterFiles * R;
  node_RenterUploadPost : string -> SiaPath -> Z -> Z -> R -> error * R;
  node_RenterDeletePost : SiaPath -> R -> error * R }.

(** The remote calls a run issues, in the order it issues them. *)
Inductive Call : Type :=
| CGetDir (siaPath : SiaPath)
| CRename (siaPathOld siaPathNew : SiaPath)
| CFileGet (siaPath : SiaPath)
| CFilesGet (cached : bool)
| CUpload (path : string) (siaPath : SiaPath) (dp pp : Z)
| CDelete (siaPath : SiaPath).

#[global] Instance Call_eq_dec : EqDecision Call.
Proof. solve_decision. Defined.

Definition is_upload (c : Call) : bool :=
  match c with CUpload _ _ _ _ => true | _ => false end.

Definition is_delete (c : Call) : bool :=
  match c with CDelete _ => true | _ => false end.

(** ** The [SiaFolder] struct *)

Module SiaFolder.
(** [watcher] is the watch set of the [fsnotify.Watcher], in the order
    the paths were added; [closeChan] and [client] have no content here. *)
Record t : Type := mk {
  path : string;
  archive : bool;
  siaStagingDir : string;
  siaProdDir : string;
  watcher : list string;
  files : gmap string string;
  dirs : gmap string bool }.

Definition empty : t := mk "" false "" "" [] ∅ ∅.

Definition set_files (f : gmap string string -> gmap string string) (sf : t) : t :=
  mk (path sf) (archive sf) (siaStagingDir sf) (siaProdDir sf)
     (watcher sf) (f (files sf)) (dirs sf).

Definition set_dirs (f : gmap string bool -> gmap string bool) (sf : t) : t :=
  mk (path sf) (archive sf) (siaStagingDir sf) (siaProdDir sf)
     (watcher sf) (files sf) (f (dirs sf)).

Definition set_watcher (f : list string -> list string) (sf : t) : t :=
  mk (path sf) (archive sf) (siaStagingDir sf) (siaProdDir sf)
     (f (watcher sf)) (files sf) (dirs sf).
End SiaFolder.

(** ** The state monad *)

(** The folder, the node and the calls issued so far. *)
Record World (R : Type) : Type := mkWorld {
  folder : SiaFolder.t;
  remote : R;
  calls : list Call }.
Arguments mkWorld {R} folder remote calls.
Arguments folder {R} w.
Arguments remote {R} w.
Arguments calls {R} w.

(** A computation either returns or panics; both leave a world behind. *)
Inductive outcome (R A : Type) : Type :=
| Done (a : A) (w : World R)
| Panic (msg : string) (w : World R).
Arguments Done {R A} a w.
Arguments Panic {R A} msg w.

Definition M (R A : Type) : Type := World R -> outcome R A.

Definition ret {R A} (a : A) : M R A := fun w => Done a w.

Definition bind {R A B} (m : M R A) (k : A -> M R B) : M R B :=
  fun w => match m w with
           | Done a w' => k a w'
           | Panic msg w' => Panic msg w'
           end.

Definition panic {R A} (msg : string) : M R A := fun w => Panic msg w.

Definition get_folder {R} : M R SiaFolder.t := fun w => Done (folder w) w.

Definition modify_folder {R} (f : SiaFolder.t -> SiaFolder.t) : M R unit :=
  fun w => Done tt (mkWorld (f (folder w)) (remote w) (calls w)).

(** Runs one API call on the node and records it. *)
Definition invoke {R A} (c : Call) (f : R -> A * R) : M R A :=
  fun w => let '(a, r) := f (remote w) in
           Done a (mkWorld (folder w) r (calls w ++ [c])%list).

(** The world after one API call. *)
Definition called {R} (w : World R) (c : Call) (node : R) : World R :=
  mkWorld (folder w) node (calls w ++ [c])%list.

Definition world_of {R A} (o : outcome R A) : World R :=
  match o with Done _ w => w | Panic _ w => w end.

Declare Scope go_scope.
Delimit Scope go_scope with go.
Notation "x <- m ;; k" := (bind m (fun x => k))
  (at level 100, m at next level, right associativity) : go_scope.
Notation "m ;;; k" := (bind m (fun _ => k))
  (at level 100, right associativity) : go_scope.
Local Open Scope go_scope.

(** ** [utils.go] and [siafolder.go] *)

Section Engine.
Context {G : Globals} {H : Host} {R : Type} {C : Client R}.

(** The six methods of [sf.client] the program calls. *)
Definition RenterGetDir (siaPath : SiaPath) : M R (result RenterDirectory) :=
  invoke (CGetDir siaPath) (node_RenterGetDir siaPath).

Definition RenterRenamePost (siaPathOld siaPathNew : SiaPath) : M R error :=
  invoke (CRename siaPathOld siaPathNew) (node_RenterRenamePost siaPathOld siaPathNew).

Definition RenterFileGet (siaPath : SiaPath) : M R (result RenterFile) :=
  invoke (CFileGet siaPath) (node_RenterFileGet siaPath).

Definition RenterFilesGet (cached : bool) : M R (result RenterFiles) :=
  invoke (CFilesGet cached) (node_RenterFilesGet cached).

Definition RenterUploadPost (path : string) (siaPath : SiaPath) (dp pp : Z) : M R error :=
  invoke (CUpload path siaPath dp pp) (node_RenterUploadPost path siaPath dp pp).

Definition RenterDeletePost (siaPath : SiaPath) : M R error :=
  invoke (CDelete siaPath) (node_RenterDeletePost siaPath).

(** [sizeFile]: the size of the file as a decimal string. *)
Definition sizeFile (path : string) : result string :=
  match os_Stat path with
  | Err e => Err e
  | Ok stat => Ok (FormatInt (Size stat))
  end.

(** [checksumFile]. *)
Definition checksumFile (path : string) : result string :=
  match sizeFile path with
  | Err e => Err e
  | Ok checksum => Ok checksum
  end.

(** [newSiaPath]: panics when [modules.NewSiaPath] refuses the path. *)
Definition newSiaPath (path : string) : M R SiaPath :=
  match NewSiaPath path with
  | Err e => panic e
  | Ok siaPath => ret siaPath
  end.

(** [getSiaPath]: the path under the staging directory. *)
Definition getSiaPath (relpath : string) : M R SiaPath :=
  newSiaPath (filepath_Join siaStagingDir relpath).

(** [fmt.Errorf] with one or two [%v] verbs. *)
Definition Errorf1 (pre : string) (e : string) : error := Some (pre ++ e).
Definition Errorf2 (pre file mid e : string) : error := Some (pre ++ file ++ mid ++ e).

(** [sf.isFile]. *)
Definition isFile (file : string) : M R (bool * error) :=
  sf <- get_folder ;;
  match filepath_Rel (SiaFolder.path sf) file with
  | Err e => ret (false, Errorf1 "error getting relative path: " e)
  | Ok relpath =>
      siaPath <- newSiaPath relpath ;;
      r <- RenterFileGet siaPath ;;
      let exists_ :=
        match r with
        | Err e => if Contains e "no file known" then false else true
        | Ok _ => true
        end in
      ret (exists_, None)
  end.

(** [sf.handleCreate].  The log line evaluates [getSiaPath(relpath)] before
    the dry-run test. *)
Definition handleCreate (file : string) : M R error :=
  match filepath_Abs file with
  | Err e => ret (Errorf1 "error getting absolute path to upload: " e)
  | Ok abspath =>
      sf <- get_folder ;;
      match filepath_Rel (SiaFolder.path sf) file with
      | Err e => ret (Errorf1 "error getting relative path to upload: " e)
      | Ok relpath =>
          _logged <- getSiaPath relpath ;;
          err <- (if dryRun then ret None
                  else siaPath <- getSiaPath relpath ;;
                       RenterUploadPost abspath siaPath dataPieces parityPieces) ;;
          match err with
          | Some e => ret (Errorf2 "error uploading " file ": " e)
          | None =>
              match checksumFile file with
              | Err e => ret (Some e)
              | Ok checksum =>
                  modify_folder (SiaFolder.set_files (insert file checksum)) ;;;
                  ret None
              end
          end
      end
  end.

(** [sf.handleRemove]. *)
Definition handleRemove (file : string) : M R error :=
  sf <- get_folder ;;
  match filepath_Rel (SiaFolder.path sf) file with
  | Err e => ret (Errorf1 "error getting relative path to remove: " e)
  | Ok relpath =>
      err <- (if dryRun then ret None
              else siaPath <- getSiaPath relpath ;;
                   RenterDeletePost siaPath) ;;
      match err with
      | Some e => ret (Errorf2 "error removing " file ": " e)
      | None =>
          modify_folder (SiaFolder.set_files (delete file)) ;;;
          ret None
      end
  end.

(** [sf.handleFileWrite]. *)
Definition handleFileWrite (file : string) : M R error :=
  match checksumFile file with
  | Err e => ret (Some e)
  | Ok checksum =>
      sf <- get_folder ;;
      match SiaFolder.files sf !! file with
      | Some oldChecksum =>
          if bool_decide (oldChecksum <> checksum) then
            modify_folder (SiaFolder.set_files (insert file checksum)) ;;;
            err <- (if SiaFolder.archive sf then ret None else handleRemove file) ;;
            match err with
            | Some e => ret (Some e)
            | None => handleCreate file
            end
          else ret None
      | None => ret None
      end
  end.

(** [uploadRetry].  Errors of the second attempt are logged, not returned. *)
Definition uploadRetry (filename : string) : M R unit :=
  err <- handleCreate filename ;;
  match err with
  | None => ret tt
  | Some _ =>
      r <- isFile filename ;;
      (if fst r && negb archive then _ <- handleRemove filename ;; ret tt
       else ret tt) ;;;
      _ <- handleCreate filename ;;
      ret tt
  end.

(** [sf.getSiaFiles]: the loop appends to [rf.Files]. *)
Definition getSiaFiles : M R (result RenterFiles) :=
  r <- RenterFilesGet true ;;
  match r with
  | Err e => ret (Err e)
  | Ok renterFiles =>
      ret (Ok (mkRenterFiles
        (fold_left
           (fun rf siafile =>
              let staging := negb (HasPrefix (Path (FileSiaPath siafile)) (siaStagingDir ++ "/")) in
              let production := negb (HasPrefix (Path (FileSiaPath siafile)) (siaProdDir ++ "/")) in
              if staging || production then (rf ++ [siafile])%list else rf)
           (Files renterFiles) [])))
  end.

(** [sf.getStagingSiaFiles]. *)
Definition getStagingSiaFiles : M R (result RenterFiles) :=
  r <- RenterFilesGet true ;;
  match r with
  | Err e => ret (Err e)
  | Ok renterFiles =>
      ret (Ok (mkRenterFiles
        (fold_left
           (fun rf siafile =>
              let staging := negb (HasPrefix (Path (FileSiaPath siafile)) (siaStagingDir ++ "/")) in
              if staging then (rf ++ [siafile])%list else rf)
           (Files renterFiles) [])))
  end.

(** The inner loop of [uploadNonExisting]: [getSiaPath(relpath)] is
    evaluated once per listed file, up to the first match. *)
Fixpoint existsOnSia (relpath : string) (siafiles : list SiaFileInfo) : M R bool :=
  match siafiles with
  | [] => ret false
  | siafile :: rest =>
      siaPath <- getSiaPath relpath ;;
      if Equals (FileSiaPath siafile) siaPath then ret true
      else existsOnSia relpath rest
  end.

(** The body of the outer loop of [uploadNonExisting] for one key. *)
Definition uploadNonExistingFile (renterFiles : RenterFiles) (file : string) : M R error :=
  sf <- get_folder ;;
  match filepath_Rel (SiaFolder.path sf) file with
  | Err e => ret (Some e)
  | Ok relpath =>
      exists_ <- existsOnSia relpath (Files renterFiles) ;;
      if exists_ then ret None else handleCreate file
  end.

(** A [for] loop whose body returns from the function on an error. *)
Fixpoint forEach {A} (body : A -> M R error) (l : list A) : M R error :=
  match l with
  | [] => ret None
  | x :: rest =>
      err <- body x ;;
      match err with
      | Some e => ret (Some e)
      | None => forEach body rest
      end
  end.

(** [sf.uploadNonExisting]. *)
Definition uploadNonExisting : M R error :=
  r <- getSiaFiles ;;
  match r with
  | Err e => ret (Some e)
  | Ok renterFiles =>
      sf <- get_folder ;;
      forEach (uploadNonExistingFile renterFiles) (range_order 0 (SiaFolder.files sf))
  end.

(** The inner loop of [uploadChanged]. *)
Fixpoint uploadChangedIn (file relpath : string) (siafiles : list SiaFileInfo) : M R error :=
  match siafiles with
  | [] => ret None
  | siafile :: rest =>
      siaPath <- getSiaPath relpath ;;
      if Equals (FileSiaPath siafile) siaPath then
        modify_folder (SiaFolder.set_files
          (insert file (FormatInt (int64_of_uint64 (Filesize siafile))))) ;;;
        handleFileWrite file
      else uploadChangedIn file relpath rest
  end.

Definition uploadChangedFile (renterFiles : RenterFiles) (file : string) : M R error :=
  sf <- get_folder ;;
  match filepath_Rel (SiaFolder.path sf) file with
  | Err e => ret (Some e)
  | Ok relpath => uploadChangedIn file relpath (Files renterFiles)
  end.

(** [sf.uploadChanged].  The loop visits the keys the map holds when it
    starts, each once.  The body deletes and re-creates the entry of the
    key it is visiting; Go may then produce that key a second time, which
    the model leaves out. *)
Definition uploadChanged : M R error :=
  r <- getStagingSiaFiles ;;
  match r with
  | Err e => ret (Some e)
  | Ok renterFiles =>
      sf <- get_folder ;;
      forEach (uploadChangedFile renterFiles) (range_order 1 (SiaFolder.files sf))
  end.

(** [sf.getStagingSiaDir]: the argument [subdir] is not used by the body. *)
Definition getStagingSiaDir (subdir : string) : M R (result RenterDirectory) :=
  sf <- get_folder ;;
  siaPath <- getSiaPath (filepath_Join (SiaFolder.siaStagingDir sf) movieDir) ;;
  RenterGetDir siaPath.

(** [sf.moveToProduction]. *)
Definition moveToProduction (dir : SiaPath) : M R error :=
  oldBase <- getSiaPath siaStagingDir ;;
  newBase <- getSiaPath siaProdDir ;;
  match Rebase dir oldBase newBase with
  | Err e => ret (Some e)
  | Ok newSiaPath => RenterRenamePost dir newSiaPath
  end.

(** The [for i, dir := range ...Directories] loop of
    [moveToProductionLoop], from index [i] on.  The source writes the loop
    twice, once per category, with the same body. *)
Fixpoint promoteFrom (i : nat) (directories : list DirectoryInfo) : M R unit :=
  match directories with
  | [] => ret tt
  | dir :: rest =>
      (if Nat.eqb i 0 then ret tt
       else if SFleb (AggregateMinRedundancy dir) float64_one then ret tt
       else _ <- moveToProduction (DirSiaPath dir) ;; ret tt) ;;;
      promoteFrom (S i) rest
  end.

(** One firing of the timer in [moveToProductionLoop]. *)
Definition moveToProductionTick : M R unit :=
  r <- getStagingSiaDir movieDir ;;
  match r with
  | Err _ => ret tt
  | Ok stagingMoviesDir =>
      promoteFrom 0 (Directories stagingMoviesDir) ;;;
      r' <- getStagingSiaDir tvDir ;;
      match r' with
      | Err _ => ret tt
      | Ok stagingTVDir => promoteFrom 0 (Directories stagingTVDir)
      end
  end.

(** [sf.moveToProductionLoop], closed after [ticks] firings of the timer. *)
Fixpoint moveToProductionLoop (ticks : nat) : M R unit :=
  match ticks with
  | O => ret tt
  | S n => moveToProductionTick ;;; moveToProductionLoop n
  end.

(** The callback [NewSiafolder] passes to [filepath.Walk]; [path] is the
    argument of [NewSiafolder], not [abspath].  The result of
    [sf.watcher.Add] is dropped. *)
Definition walkFn (path : string) (e : WalkEntry) : M R error :=
  match walkerr e with
  | Some err => ret (Some err)
  | None =>
      if bool_decide (walkpath e = path) then ret None
      else if IsDir (walkinfo e) then
        (match watcher_Add (walkpath e) with
         | None => modify_folder (SiaFolder.set_watcher (fun ws => (ws ++ [walkpath e])%list))
         | Some _ => ret tt
         end) ;;;
        modify_folder (SiaFolder.set_dirs (insert (walkpath e) false)) ;;;
        ret None
      else
        match checksumFile (walkpath e) with
        | Err err => ret (Some err)
        | Ok checksum =>
            modify_folder (SiaFolder.set_files (insert (walkpath e) checksum)) ;;;
            ret None
        end
  end.

(** [NewSiafolder], up to the two [go] statements.  The folder under
    construction is the folder of the world; on an error the source
    returns [nil] in its place. *)
Definition NewSiafolder (path : string) : M R error :=
  match filepath_Abs path with
  | Err e => ret (Some e)
  | Ok abspath =>
      modify_folder (fun _ =>
        SiaFolder.mk abspath archive siaStagingDir siaProdDir [] ∅ ∅) ;;;
      match fsnotify_NewWatcher with
      | Some e => ret (Some e)
      | None =>
          match watcher_Add abspath with
          | Some e => ret (Some e)
          | None =>
              modify_folder (SiaFolder.set_watcher (fun ws => (ws ++ [abspath])%list)) ;;;
              err <- forEach (walkFn path) (filepath_Walk abspath) ;;
              match err with
              | Some e => ret (Some e)
              | None =>
                  err <- uploadNonExisting ;;
                  match err with
                  | Some e => ret (Some e)
                  | None => uploadChanged
                  end
              end
          end
      end
  end.

End Engine.

(** ** The rest of [utils.go] and [siafolder.go] *)

(** [contains]. *)
Fixpoint contains (a : list string) (x : string) : bool :=
  match a with
  | [] => false
  | n :: rest => if bool_decide (x = n) then true else contains rest x
  end.

(** [fsnotify.Event] and the bits of [fsnotify.Op], as the package
    declares them ([Create Op = 1 << iota], then [Write], [Remove],
    [Rename], [Chmod]). *)
Module fsnotify.
Record Event : Type := mkEvent { Name : string; Op : Z }.
Definition Create : Z := 1.
Definition Write : Z := 2.
Definition Remove : Z := 4.
Definition Rename : Z := 8.
Definition Chmod : Z := 16.
End fsnotify.

(** The test [event.Op&flag == flag]. *)
Definition has_op (op flag : Z) : bool := Z.land op flag =? flag.

Section Dispatcher.
Context {G : Globals} {H : Host} {R : Type} {C : Client R}.

(** [filepath.Clean], which the host class does not carry. *)
Variable filepath_Clean : string -> string.

(** The body of [case event := <-sf.watcher.Events] in [eventWatcher].
    A path that is a directory is watched and registered, and the event
    ends there; otherwise a write bit runs [handleFileWrite], whose error
    is logged, and a create bit runs [uploadRetry]. *)
Definition handleEvent (event : fsnotify.Event) : M R unit :=
  let filename := filepath_Clean (fsnotify.Name event) in
  let onFile : M R unit :=
    (if has_op (fsnotify.Op event) fsnotify.Write
     then _ <- handleFileWrite filename ;; ret tt
     else ret tt) ;;;
    (if has_op (fsnotify.Op event) fsnotify.Create
     then uploadRetry filename
     else ret tt) in
  let onDirectory : M R unit :=
    (match watcher_Add filename with
     | None => modify_folder (SiaFolder.set_watcher (fun ws => (ws ++ [filename])%list))
     | Some _ => ret tt
     end) ;;;
    sf <- get_folder ;;
    match SiaFolder.dirs sf !! filename with
    | Some _ => ret tt
    | None => modify_folder (SiaFolder.set_dirs (insert filename false))
    end in
  match os_Stat filename with
  | Ok f => if IsDir f then onDirectory else onFile
  | Err _ => onFile
  end.

(** [sf.eventWatcher] over the events it receives before [closeChan] is
    closed.  Messages of the error channel are logged only.  The guard
    [sf.watcher == nil] never fires on a folder [NewSiafolder] returned,
    which is the only one the loop is started on. *)
Fixpoint eventWatcher (events : list fsnotify.Event) : M R unit :=
  match events with
  | [] => ret tt
  | event :: rest => handleEvent event ;;; eventWatcher rest
  end.

End Dispatcher.

(** ** A reference host and a reference node

    The theorems below hold for every host and every node.  The instances
    of this section are used to run the program on concrete inputs: a Unix
    host restricted to clean paths, and a node that stores its files and
    directories in two lists. *)

Module Unix.

(** The working directory of the process. *)
Definition cwd : string := "/home/eddie".

(** [s] without its first [n] characters. *)
Definition drop_string (n : nat) (s : string) : string :=
  String.substring n (String.length s - n) s.

(** [filepath.Abs] on a clean path. *)
Definition Abs (path : string) : result string :=
  if String.prefix "/" path then Ok path else Ok (cwd ++ "/" ++ path).

(** [strings.Split(s, "/")]. *)
Fixpoint split_slash (s : string) : list string :=
  match s with
  | EmptyString => [""]
  | String c rest =>
      if bool_decide (c = "/"%char) then "" :: split_slash rest
      else match split_slash rest with
           | e :: es => String c e :: es
           | [] => [String c ""]
           end
  end.

(** The elements of a clean path; the root [/] has the one element the
    leading separator leaves, and [.] has none. *)
Definition path_elements (path : string) : list string :=
  if bool_decide (path = "/") then [""]
  else if bool_decide (path = ".") then []
  else split_slash path.

(** The elements of [base] and [targ] past their common prefix. *)
Fixpoint past_common (base targ : list string) : list string * list string :=
  match base, targ with
  | b :: base', t :: targ' =>
      if bool_decide (b = t) then past_common base' targ' else (base, targ)
  | _, _ => (base, targ)
  end.

(** [filepath.Rel] on clean paths.  The result is lexical: a target
    outside the base is reached through [..] elements, with no error. *)
Definition Rel (basepath targpath : string) : result string :=
  let cannot := Err ("Rel: can't make " ++ targpath ++ " relative to " ++ basepath) in
  if bool_decide (targpath = basepath) then Ok "."
  else if negb (Bool.eqb (String.prefix "/" basepath) (String.prefix "/" targpath))
  then cannot
  else
    let rest := past_common (path_elements basepath) (path_elements targpath) in
    match rest.1 with
    | ".." :: _ => cannot
    | up => Ok (String.concat "/" (List.map (fun _ => "..") up ++ rest.2))
    end.

(** [filepath.Join] of two clean elements. *)
Definition Join (a b : string) : string :=
  if bool_decide (a = "") then b
  else if bool_decide (b = "") then a
  else a ++ "/" ++ b.

(** [strings.TrimPrefix(s, "/")] and [strings.TrimSuffix(s, "/")]. *)
Definition trim_prefix_slash (s : string) : string :=
  if String.prefix "/" s then drop_string 1 s else s.

Fixpoint trim_suffix_slash (s : string) : string :=
  match s with
  | EmptyString => ""
  | String c rest =>
      if bool_decide (rest = "") then (if bool_decide (c = "/"%char) then "" else s)
      else String c (trim_suffix_slash rest)
  end.

(** The loop of [SiaPath.validate] over the elements of the path. *)
Fixpoint check_elements (prevElem : string) (elems : list string) : error :=
  match elems with
  | [] => None
  | pathElem :: rest =>
      if bool_decide (pathElem = ".") || bool_decide (pathElem = "..")
      then Some "siapath cannot contain . or .. elements"
      else if negb (bool_decide (prevElem = "")) && bool_decide (pathElem = "")
      then Some "path must be a nonempty string"
      else check_elements pathElem rest
  end.

(** [modules.NewSiaPath]: the path is trimmed of one leading and one
    trailing slash and validated; the empty path, [.], [..], a path that
    still begins with a slash and a path with an element [.], [..] or an
    empty element are refused. *)
Definition NewSiaPath (s : string) : result SiaPath :=
  let path := trim_suffix_slash (trim_prefix_slash s) in
  if bool_decide (path = "") then Err "path must be a nonempty string"
  else if bool_decide (path = "..") then Err "siapath cannot be '..'"
  else if bool_decide (path = ".") then Err "siapath cannot be '.'"
  else if String.prefix "/" path then Err "siapath cannot begin with /"
  else if String.prefix "../" path then Err "siapath cannot begin with ../"
  else if String.prefix "./" path then Err "siapath connot begin with ./"
  else match check_elements "" (split_slash path) with
       | Some e => Err e
       | None => Ok (mkSiaPath path)
       end.

(** [sp.Rebase(oldBase, newBase)]. *)
Definition Rebase (sp oldBase newBase : SiaPath) : result SiaPath :=
  if String.prefix (Path oldBase) (Path sp) then
    let relPath := drop_string (String.length (Path oldBase)) (Path sp) in
    let cleaned := if String.prefix "/" relPath then drop_string 1 relPath else relPath in
    if bool_decide (cleaned = "") then Ok newBase
    else Ok (mkSiaPath (Path newBase ++ "/" ++ cleaned))
  else Err ("'" ++ Path oldBase ++ "' isn't the base of '" ++ Path sp ++ "'").

(** The local tree is a list of paths with their [os.FileInfo], in the
    order [filepath.Walk] visits them. *)
Definition tree_lookup {A} (tree : list (string * A)) (path : string) : option A :=
  snd <$> List.find (fun e => bool_decide (fst e = path)) tree.

Definition Stat (tree : list (string * FileInfo)) (path : string) : result FileInfo :=
  match tree_lookup tree path with
  | Some info => Ok info
  | None => Err ("stat " ++ path ++ ": no such file or directory")
  end.

(** [filepath.Walk]: when [os.Lstat] fails on the root, the callback is
    called once, with the error and no [FileInfo] (a zero one here). *)
Definition Walk (tree : list (string * FileInfo)) (root : string) : list WalkEntry :=
  match tree_lookup tree root with
  | None =>
      [ mkWalkEntry root (mkFileInfo 0 false)
          (Some ("lstat " ++ root ++ ": no such file or directory")) ]
  | Some _ =>
      List.map (fun e => mkWalkEntry (fst e) (snd e) None)
        (List.filter (fun e => bool_decide (fst e = root) || String.prefix (root ++ "/") (fst e))
           tree)
  end.

(** [watcher.Add]: a path that does not exist cannot be watched. *)
Definition Add (tree : list (string * FileInfo)) (path : string) : error :=
  match tree_lookup tree path with
  | Some _ => None
  | None => Some "no such file or directory"
  end.

(** The host over a local tree: a [range] loop visits the keys in the
    order of [map_to_list]. *)
Definition host (tree : list (string * FileInfo)) : Host :=
  Build_Host Abs Rel Join NewSiaPath Rebase (Stat tree) (Walk tree)
             None (Add tree) (fun _ m => (map_to_list m).*1).

End Unix.

Module Node.

(** The files and the directories of the node; a node that is not
    [online] refuses every call. *)
Record t : Type := mk {
  online : bool;
  files : list SiaFileInfo;
  dirs : list DirectoryInfo }.

Definition has_file (siaPath : SiaPath) (n : t) : bool :=
  existsb (fun f => Equals (FileSiaPath f) siaPath) (files n).

Definition under (base : SiaPath) (p : SiaPath) : bool :=
  String.prefix (Path base ++ "/") (Path p).

Definition no_file : string := "no file known with that path".
Definition refused : string := "dial tcp 127.0.0.1:9980: connect: connection refused".

Definition GetDir (siaPath : SiaPath) (n : t) : result RenterDirectory * t :=
  if negb (online n) then (Err refused, n) else
  match List.find (fun d => Equals (DirSiaPath d) siaPath) (dirs n) with
  | None => (Err "no such directory", n)
  | Some d =>
      (Ok (mkRenterDirectory
             (d :: List.filter (fun d' => under siaPath (DirSiaPath d')) (dirs n))
             (List.filter (fun f => under siaPath (FileSiaPath f)) (files n))), n)
  end.

Definition repath (old new p : SiaPath) : SiaPath :=
  if Equals p old then new
  else if under old p
       then mkSiaPath (Path new ++ Unix.drop_string (String.length (Path old)) (Path p))
       else p.

Definition RenamePost (old new : SiaPath) (n : t) : error * t :=
  if negb (online n) then (Some refused, n) else
  if existsb (fun d => Equals (DirSiaPath d) old) (dirs n) then
    (None,
     mk true
        (List.map (fun f => mkSiaFileInfo (Filesize f) (repath old new (FileSiaPath f))) (files n))
        (List.map (fun d => mkDirectoryInfo (AggregateMinRedundancy d)
                                            (repath old new (DirSiaPath d))) (dirs n)))
  else (Some "no such directory", n).

Definition FileGet (siaPath : SiaPath) (n : t) : result RenterFile * t :=
  if negb (online n) then (Err refused, n) else
  match List.find (fun f => Equals (FileSiaPath f) siaPath) (files n) with
  | Some f => (Ok (mkRenterFile f), n)
  | None => (Err no_file, n)
  end.

Definition FilesGet (cached : bool) (n : t) : result RenterFiles * t :=
  if negb (online n) then (Err refused, n) else
  (Ok (mkRenterFiles (files n)), n).

(** The node reads the local file at [path] when it accepts an upload. *)
Definition UploadPost {H : Host} (path : string) (siaPath : SiaPath) (dp pp : Z) (n : t)
  : error * t :=
  if negb (online n) then (Some refused, n) else
  if has_file siaPath n then (Some "upload failed: a file already exists at that location", n)
  else match os_Stat path with
       | Err e => (Some e, n)
       | Ok info => (None, mk true (files n ++ [mkSiaFileInfo (Size info) siaPath]) (dirs n))
       end.

Definition DeletePost (siaPath : SiaPath) (n : t) : error * t :=
  if negb (online n) then (Some refused, n) else
  if has_file siaPath n
  then (None, mk true (List.filter (fun f => negb (Equals (FileSiaPath f) siaPath)) (files n))
                 (dirs n))
  else (Some no_file, n).

Definition client {H : Host} : Client t := {|
  node_RenterGetDir := GetDir;
  node_RenterRenamePost := RenamePost;
  node_RenterFileGet := FileGet;
  node_RenterFilesGet := FilesGet;
  node_RenterUploadPost := UploadPost;
  node_RenterDeletePost := DeletePost |}.

Definition empty : t := mk true [] [].
Definition offline : t := mk false [] [].

End Node.

(** A folder [/home/eddie/sync] with [a.txt] (10 bytes) and [sub/b.txt]
    (5 bytes). *)
Definition sync_tree : list (string * FileInfo) :=
  [ ("/home/eddie/sync", mkFileInfo 4096 true);
    ("/home/eddie/sync/a.txt", mkFileInfo 10 false);
    ("/home/eddie/sync/sub", mkFileInfo 4096 true);
    ("/home/eddie/sync/sub/b.txt", mkFileInfo 5 false) ].

(** The same folder after [a.txt] was rewritten to 20 bytes. *)
Definition sync_tree_rewritten : list (string * FileInfo) :=
  [ ("/home/eddie/sync", mkFileInfo 4096 true);
    ("/home/eddie/sync/a.txt", mkFileInfo 20 false);
    ("/home/eddie/sync/sub", mkFileInfo 4096 true);
    ("/home/eddie/sync/sub/b.txt", mkFileInfo 5 false) ].

(** A world before [NewSiafolder] has run. *)
Definition boot {R} (node : R) : World R := mkWorld SiaFolder.empty node [].

(** The folder of [sync_tree] once its two files are indexed, over a node. *)
Definition synced_folder (archive_ : bool) : SiaFolder.t :=
  SiaFolder.mk "/home/eddie/sync" archive_ "fuse/staging" "fuse/prod"
    ["/home/eddie/sync"; "/home/eddie/sync/sub"]
    {[ "/home/eddie/sync/a.txt" := "10"; "/home/eddie/sync/sub/b.txt" := "5" ]}
    {[ "/home/eddie/sync/sub" := false ]}.

(** The node after both files were uploaded to the staging directory. *)
Definition synced_node : Node.t :=
  Node.mk true
    [ mkSiaFileInfo 10 (mkSiaPath "fuse/staging/a.txt");
      mkSiaFileInfo 5 (mkSiaPath "fuse/staging/sub/b.txt") ]
    [].

(** The hosts of the two trees, and the reference node seen from them. *)
Definition sync_host : Host := Unix.host sync_tree.
Definition rewritten_host : Host := Unix.host sync_tree_rewritten.
Definition sync_client : Client Node.t := @Node.client sync_host.
Definition rewritten_client : Client Node.t := @Node.client rewritten_host.

(** A node with two categories under the directory [getSiaPath] gives for
    the staging directory.  The movies directory itself reports 3.0, its
    children [Alien] 1.5 and [Brazil] 1.0; the tv directory has one child,
    [Lost], at 2.0. *)
Definition staged (suffix : string) : SiaPath :=
  mkSiaPath ("fuse/staging/fuse/staging/" ++ suffix).

Definition movies_listing : list DirectoryInfo :=
  [ mkDirectoryInfo (S754_finite false 6755399441055744 (-51)) (staged "movies");
    mkDirectoryInfo (S754_finite false 6755399441055744 (-52)) (staged "movies/Alien");
    mkDirectoryInfo (S754_finite false 4503599627370496 (-52)) (staged "movies/Brazil") ].

Definition media_node : Node.t :=
  Node.mk true []
    (movies_listing ++
     [ mkDirectoryInfo (S754_finite false 6755399441055744 (-51)) (staged "tv");
       mkDirectoryInfo (S754_finite false 4503599627370496 (-51)) (staged "tv/Lost") ]).

(** The two bases [moveToProduction] passes to [Rebase] under [flags]. *)
Definition staging_base : SiaPath := mkSiaPath "fuse/staging/fuse/staging".
Definition production_base : SiaPath := mkSiaPath "fuse/staging/fuse/prod".

Definition rebased (dir : SiaPath) : SiaPath :=
  match Unix.Rebase dir staging_base production_base with
  | Ok newSiaPath => newSiaPath
  | Err _ => dir
  end.

(** A node that holds one file in the staging directory, one in the
    production directory and one in neither. *)
Definition mixed_node : Node.t :=
  Node.mk true
    [ mkSiaFileInfo 10 (mkSiaPath "fuse/staging/a.txt");
      mkSiaFileInfo 5 (mkSiaPath "fuse/prod/sub/b.txt");
      mkSiaFileInfo 99 (mkSiaPath "backups/old.tar") ]
    [].

(** Flags that name one directory for both staging and production. *)
Definition coinciding : Globals := {|
  archive := true;
  dryRun := false;
  siaStagingDir := "fuse/staging";
  siaProdDir := "fuse/staging" |}.

(** The reference node seen from a machine on which the local files
    cannot be read: it refuses every upload. *)
Definition blind_client : Client Node.t := @Node.client (Unix.host []).

(** Flags whose production directory contains the staging directory. *)
Definition nested : Globals := {|
  archive := true;
  dryRun := false;
  siaStagingDir := "fuse/staging";
  siaProdDir := "fuse" |}.

(** The world the first startup over [sync_tree] leaves on an empty node. *)
Definition first_run_world : World Node.t :=
  world_of (NewSiafolder (G := flags true false) (H := sync_host) (C := sync_client)
              "/home/eddie/sync" (boot Node.empty)).

(** [filepath.Clean] on a path that is clean already. *)
Definition clean_path (path : string) : string := path.

(** The folder of [sync_tree] as [NewSiafolder] has it before the walk. *)
Definition fresh_folder : SiaFolder.t :=
  SiaFolder.mk "/home/eddie/sync" true "fuse/staging" "fuse/prod"
    ["/home/eddie/sync"] ∅ ∅.

(** The walk of [sync_tree] when [sub] cannot be read: [filepath.Walk]
    passes the error to the callback with the path of [sub]. *)
Definition locked_walk (root : string) : list WalkEntry :=
  [ mkWalkEntry root (mkFileInfo 4096 true) None;
    mkWalkEntry (root ++ "/a.txt") (mkFileInfo 10 false) None;
    mkWalkEntry (root ++ "/sub") (mkFileInfo 4096 true)
      (Some ("open " ++ root ++ "/sub: permission denied")) ].

(** [sync_host] with that walk. *)

Definition locked_host : Host :=
  Build_Host Unix.Abs Unix.Rel Unix.Join Unix.NewSiaPath Unix.Rebase
             (Unix.Stat sync_tree) locked_walk
             None (Unix.Add sync_tree) (fun _ m => (map_to_list m).*1).

(** The events of a removal of [old.txt] and a mode change of [a.txt]. *)
Definition other_events : list fsnotify.Event :=
  [ fsnotify.mkEvent "/home/eddie/sync/old.txt" fsnotify.Remove;
    fsnotify.mkEvent "/home/eddie/sync/a.txt" fsnotify.Chmod ].

(** ** Specifications the theorems refer to *)

(** The test [getSiaFiles] applies to a listed file, and the one
    [getStagingSiaFiles] applies. *)
Definition kept_by_getSiaFiles {G : Globals} (siafile : SiaFileInfo) : bool :=
  negb (HasPrefix (Path (FileSiaPath siafile)) (siaStagingDir ++ "/"))
  || negb (HasPrefix (Path (FileSiaPath siafile)) (siaProdDir ++ "/")).

Definition kept_by_getStagingSiaFiles {G : Globals} (siafile : SiaFileInfo) : bool :=
  negb (HasPrefix (Path (FileSiaPath siafile)) (siaStagingDir ++ "/")).

(** [siaPath] is in the listing the node returns. *)
Definition listed {R} {C : Client R} (node : R) (siaPath : SiaPath) : Prop :=
  exists renterFiles node',
    node_RenterFilesGet true node = (Ok renterFiles, node') /\
    exists siafile, siafile ∈ Files renterFiles /\
                    Path (FileSiaPath siafile) = Path siaPath.

(** A node remembers its uploads: listing the files forgets none, and an
    upload that returned no error is listed next to the files listed
    before it. *)
Definition node_remembers_uploads {R} {C : Client R} : Prop :=
  (forall node siaPath,
     listed node siaPath -> listed (node_RenterFilesGet true node).2 siaPath) /\
  (forall path siaPath dp pp node,
     (node_RenterUploadPost path siaPath dp pp node).1 = None ->
     listed (node_RenterUploadPost path siaPath dp pp node).2 siaPath /\
     forall siaPath', listed node siaPath' ->
                      listed (node_RenterUploadPost path siaPath dp pp node).2 siaPath').

(** Every regular file the walk of [root] visits is given a Sia path below
    the staging directory. *)
Definition walk_maps_below_staging {G : Globals} {H : Host} (root : string) : Prop :=
  forall e relpath siaPath,
    e ∈ filepath_Walk root ->
    IsDir (walkinfo e) = false ->
    filepath_Rel root (walkpath e) = Ok relpath ->
    NewSiaPath (filepath_Join siaStagingDir relpath) = Ok siaPath ->
    HasPrefix (Path siaPath) (siaStagingDir ++ "/") = true.

(** From [w] to [w'] the program issued further calls, none an upload. *)
Definition adds_no_upload {R} (w w' : World R) : Prop :=
  exists cs, calls w' = (calls w ++ cs)%list /\ List.filter is_upload cs = [].

(** No path lies below both the staging and the production directory. *)
Definition namespaces_disjoint {G : Globals} : Prop :=
  forall s, HasPrefix s (siaStagingDir ++ "/") = true ->
            HasPrefix s (siaProdDir ++ "/") = false.

(** The renames that promote the entries of [directories] whose aggregate
    minimum redundancy is greater than 1.0, [target] giving the new path. *)
Definition renames (target : SiaPath -> SiaPath) (directories : list DirectoryInfo)
  : list Call :=
  List.map (fun dir => CRename (DirSiaPath dir) (target (DirSiaPath dir)))
    (List.filter (fun dir => SFltb float64_one (AggregateMinRedundancy dir)) directories).

(** [sf'] differs from [sf] at most in the fingerprint of [file]. *)
Definition touches_only (file : string) (sf sf' : SiaFolder.t) : Prop :=
  SiaFolder.path sf' = SiaFolder.path sf /\
  SiaFolder.archive sf' = SiaFolder.archive sf /\
  SiaFolder.siaStagingDir sf' = SiaFolder.siaStagingDir sf /\
  SiaFolder.siaProdDir sf' = SiaFolder.siaProdDir sf /\
  SiaFolder.watcher sf' = SiaFolder.watcher sf /\
  SiaFolder.dirs sf' = SiaFolder.dirs sf /\
  forall k, k <> file -> SiaFolder.files sf' !! k = SiaFolder.files sf !! k.

(** From [w] to [w'] the program issued further calls, all of them passing
    the test [allowed]. *)
Definition issues_only {R} (allowed : Call -> bool) (w w' : World R) : Prop :=
  exists cs, calls w' = (calls w ++ cs)%list /\ forallb allowed cs = true.

(** An upload with the erasure coding of the program: [dataPieces] data
    and [parityPieces] parity pieces. *)
Definition standard_upload (c : Call) : bool :=
  match c with
  | CUpload _ _ dp pp => (dp =? dataPieces) && (pp =? parityPieces)
  | _ => false
  end.

(** The calls a handler may issue on files in a given mode: listings and
    file queries always, an upload with the erasure coding of the program
    outside dry-run mode, a delete outside dry-run mode and archive mode;
    never a directory query or a rename. *)
Definition mode_allows (archive_ dryRun_ : bool) (c : Call) : bool :=
  match c with
  | CFilesGet _ | CFileGet _ => true
  | CUpload _ _ _ _ => negb dryRun_ && standard_upload c
  | CDelete _ => negb dryRun_ && negb archive_
  | CGetDir _ | CRename _ _ => false
  end.

(** The calls of the promotion loop. *)
Definition is_query_or_rename (c : Call) : bool :=
  match c with CGetDir _ | CRename _ _ => true | _ => false end.

(** Every fingerprint of the index is the one [checksumFile] computes now. *)
Definition index_is_fresh {H : Host} (sf : SiaFolder.t) : Prop :=
  forall file checksum,
    SiaFolder.files sf !! file = Some checksum -> checksumFile file = Ok checksum.

(** [sf'] has the settings of [sf]: the fields [NewSiafolder] fills in
    from its argument and from the flags. *)
Definition keeps_settings (sf sf' : SiaFolder.t) : Prop :=
  SiaFolder.path sf' = SiaFolder.path sf /\
  SiaFolder.archive sf' = SiaFolder.archive sf /\
  SiaFolder.siaStagingDir sf' = SiaFolder.siaStagingDir sf /\
  SiaFolder.siaProdDir sf' = SiaFolder.siaProdDir sf.

(** [sf'] differs from [sf] at most in its index. *)
Definition only_files (sf sf' : SiaFolder.t) : Prop :=
  keeps_settings sf sf' /\
  SiaFolder.watcher sf' = SiaFolder.watcher sf /\
  SiaFolder.dirs sf' = SiaFolder.dirs sf.

(** No directory of [sf.dirs] is marked as being on Sia. *)
Definition dirs_all_false (sf : SiaFolder.t) : Prop :=
  forall dir onSia, SiaFolder.dirs sf !! dir = Some onSia -> onSia = false.

(** The test [err == nil && f.IsDir()] of [eventWatcher]. *)
Definition is_directory {H : Host} (filename : string) : bool :=
  match os_Stat filename with
  | Ok f => IsDir f
  | Err _ => false
  end.

(** From [w] to [w'] the settings were kept and every call issued was one
    the mode allows; a delete is allowed when [sf.archive] or the flag
    [archive] is off. *)
Definition within_mode {G : Globals} {R} (w w' : World R) : Prop :=
  keeps_settings (folder w) (folder w') /\
  issues_only (mode_allows (SiaFolder.archive (folder w) && archive) dryRun) w w'.

(** From [w] to [w'] the folder was left alone and every call issued was
    a directory query or a rename. *)
Definition only_promotes {R} (w w' : World R) : Prop :=
  folder w' = folder w /\ issues_only is_query_or_rename w w'.

(** The node after the renames of [renames target directories], each
    issued on the node the one before it left. *)
Definition after_renames {R} {C : Client R} (target : SiaPath -> SiaPath)
    (directories : list DirectoryInfo) (node : R) : R :=
  fold_left
    (fun node dir =>
       (node_RenterRenamePost (DirSiaPath dir) (target (DirSiaPath dir)) node).2)
    (List.filter (fun dir => SFltb float64_one (AggregateMinRedundancy dir)) directories)
    node.

(** The entries of a listing past index 0 carry a redundancy that is a
    number and a path that [Rebase] takes to [target]. *)
Definition promotable {H : Host} (target : SiaPath -> SiaPath) (oldBase newBase : SiaPath)
    (listing : RenterDirectory) : Prop :=
  Forall (fun dir => AggregateMinRedundancy dir <> S754_nan) (tail (Directories listing)) /\
  Forall (fun dir => Rebase (DirSiaPath dir) oldBase newBase = Ok (target (DirSiaPath dir)))
         (tail (Directories listing)).

(** The calls of one tick whose directory query goes to [siaPath]: the
    query, the renames of its listing, the query once more and the
    renames of the second listing; a failed query ends the tick. *)
Definition tick_calls {R} {C : Client R} (target : SiaPath -> SiaPath) (siaPath : SiaPath)
    (node : R) : list Call :=
  let movies := node_RenterGetDir siaPath node in
  match movies.1 with
  | Err _ => [CGetDir siaPath]
  | Ok stagingMoviesDir =>
      let children := tail (Directories stagingMoviesDir) in
      let tv := node_RenterGetDir siaPath (after_renames target children movies.2) in
      (CGetDir siaPath :: renames target children) ++
      CGetDir siaPath ::
      match tv.1 with
      | Err _ => []
      | Ok stagingTVDir => renames target (tail (Directories stagingTVDir))
      end
  end%list.

Definition is_rename (c : Call) : bool :=
  match c with CRename _ _ => true | _ => false end.

(** ** Properties of the handlers *)

Section Handlers.
Context {G : Globals} {H : Host} {R : Type} {C : Client R}.

(** [handleRemove] once its paths resolve. *)
Lemma handleRemove_run (file relpath : string) (siaPath : SiaPath) (w : World R) :
  filepath_Rel (SiaFolder.path (folder w)) file = Ok relpath ->
  NewSiaPath (filepath_Join siaStagingDir relpath) = Ok siaPath ->
  handleRemove file w =
    if dryRun
    then Done None (mkWorld (SiaFolder.set_files (delete file) (folder w)) (remote w) (calls w))
    else
      let answer := node_RenterDeletePost siaPath (remote w) in
      match answer.1 with
      | Some e => Done (Errorf2 "error removing " file ": " e) (called w (CDelete siaPath) answer.2)
      | None =>
          Done None (mkWorld (SiaFolder.set_files (delete file) (folder w)) answer.2
                             (calls w ++ [CDelete siaPath]))
      end.
Proof.
  intros Hrel Hsp. unfold handleRemove, bind, get_folder, getSiaPath, newSiaPath.
  rewrite Hrel. destruct dryRun; [reflexivity|]. rewrite Hsp.
  unfold ret, RenterDeletePost, invoke. cbn.
  destruct (node_RenterDeletePost siaPath (remote w)) as [[e|] node]; reflexivity.
Qed.

(** [handleCreate] once its paths resolve. *)
Lemma handleCreate_run (file abspath relpath : string) (siaPath : SiaPath) (w : World R) :
  filepath_Abs file = Ok abspath ->
  filepath_Rel (SiaFolder.path (folder w)) file = Ok relpath ->
  NewSiaPath (filepath_Join siaStagingDir relpath) = Ok siaPath ->
  handleCreate file w =
    let record (w1 : World R) :=
      match checksumFile file with
      | Err e => Done (Some e) w1
      | Ok checksum =>
          Done None (mkWorld (SiaFolder.set_files (insert file checksum) (folder w1))
                             (remote w1) (calls w1))
      end in
    if dryRun then record w
    else
      let upload := CUpload abspath siaPath dataPieces parityPieces in
      let answer := node_RenterUploadPost abspath siaPath dataPieces parityPieces (remote w) in
      match answer.1 with
      | Some e => Done (Errorf2 "error uploading " file ": " e) (called w upload answer.2)
      | None => record (called w upload answer.2)
      end.
Proof.
  intros Habs Hrel Hsp. unfold handleCreate, bind, get_folder, getSiaPath, newSiaPath.
  rewrite Habs, Hrel, Hsp. cbn.
  destruct dryRun; cbn.
  - destruct (checksumFile file); reflexivity.
  - unfold RenterUploadPost, invoke.
    destruct (node_RenterUploadPost abspath siaPath dataPieces parityPieces (remote w))
      as [[e|] node]; cbn; [reflexivity|].
    destruct (checksumFile file); reflexivity.
Qed.

#[local] Arguments handleRemove : simpl never.
#[local] Arguments handleCreate : simpl never.
#[local] Arguments isFile : simpl never.

(** [isFile] once the relative path resolves. *)
Lemma isFile_run (file relpath : string) (w : World R) :
  filepath_Rel (SiaFolder.path (folder w)) file = Ok relpath ->
  match NewSiaPath relpath with
  | Err e => isFile file w = Panic e w
  | Ok siaPath =>
      let answer := node_RenterFileGet siaPath (remote w) in
      isFile file w =
        Done (match answer.1 with
              | Ok _ => true
              | Err e => negb (Contains e "no file known")
              end, None)
             (mkWorld (folder w) answer.2 (calls w ++ [CFileGet siaPath]))
  end.
Proof.
  intros Hrel. unfold isFile, bind, get_folder, newSiaPath. rewrite Hrel.
  destruct (NewSiaPath relpath) as [siaPath|e]; [|reflexivity].
  unfold ret, RenterFileGet, invoke. cbn.
  destruct (node_RenterFileGet siaPath (remote w)) as [[rf|e] node]; cbn; [reflexivity|].
  destruct (Contains e "no file known"); reflexivity.
Qed.

(** C10, amended.  When the relative path resolves, [isFile] panics if
    that path is no valid Sia path, and otherwise issues one file query and
    returns a nil error whatever the query answered.  The file is reported
    as missing only when the query failed with an error that contains "no
    file known": after any other failure of the query it is reported as
    existing, just as after a query that found it. *)
Theorem isFile_hides_query_failure (file relpath : string) (w : World R) :
  filepath_Rel (SiaFolder.path (folder w)) file = Ok relpath ->
  match NewSiaPath relpath with
  | Err e => isFile file w = Panic e w
  | Ok siaPath =>
      let answer := node_RenterFileGet siaPath (remote w) in
      exists exists_,
        isFile file w = Done (exists_, None) (called w (CFileGet siaPath) answer.2) /\
        (exists_ = false <->
         exists e, answer.1 = Err e /\ Contains e "no file known" = true)
  end.
Proof.
  intros Hrel. pose proof (isFile_run file relpath w Hrel) as Hrun.
  destruct (NewSiaPath relpath) as [siaPath|e]; [|exact Hrun].
  cbn zeta in *. eexists. split; [exact Hrun|].
  destruct (node_RenterFileGet siaPath (remote w)).1 as [renterFile|e].
  - split; [discriminate|]. intros (e & Herr & _). discriminate.
  - destruct (Contains e "no file known") eqn:Hknown; cbn.
    + split; [intros _; exists e; auto|reflexivity].
    + split; [discriminate|]. intros (e' & [= <-] & Hknown'). congruence.
Qed.

(** C7, amended.  Once the paths resolve, [handleRemove] drops the entry
    of the file without a remote call in dry-run mode; otherwise it issues
    the remote delete on the staging path first and drops the entry only if
    that delete returned no error: after a failed delete the index is left
    as it was and the error is returned. *)
Theorem handleRemove_drops_entry_unless_delete_fails
    (file relpath : string) (siaPath : SiaPath) (w : World R) :
  filepath_Rel (SiaFolder.path (folder w)) file = Ok relpath ->
  NewSiaPath (filepath_Join siaStagingDir relpath) = Ok siaPath ->
  exists err w',
    handleRemove file w = Done err w' /\
    calls w' = (calls w ++ if dryRun then [] else [CDelete siaPath])%list /\
    (err = None <->
       dryRun = true \/ (node_RenterDeletePost siaPath (remote w)).1 = None) /\
    SiaFolder.files (folder w') =
      match err with
      | None => delete file (SiaFolder.files (folder w))
      | Some _ => SiaFolder.files (folder w)
      end.
Proof.
  intros Hrel Hsp. rewrite (handleRemove_run _ _ _ _ Hrel Hsp).
  destruct dryRun.
  - do 2 eexists. split; [reflexivity|]. cbn. rewrite app_nil_r. intuition.
  - cbn. unfold Errorf2.
    destruct (node_RenterDeletePost siaPath (remote w)) as [[e|] node]; cbn;
      do 2 eexists; (split; [reflexivity|]); cbn; intuition congruence.
Qed.

(** C5, amended.  For a file that is indexed with a fingerprint other than
    its fresh one, with the paths resolving.  In dry-run mode
    [handleFileWrite] issues no call and returns no error.  Otherwise, in
    archive mode, it issues exactly one upload and no delete; with archive
    mode off it issues exactly one delete of the staging path, followed by
    exactly one upload when the delete succeeded and by nothing when it
    failed.  The error returned is that of the call that failed, if one
    did.  Afterwards the index holds the fresh fingerprint, except when
    the delete succeeded and the upload failed: then the file is no longer
    in the index. *)
Theorem handleFileWrite_reuploads_changed_file
    (file abspath relpath checksum oldChecksum : string) (siaPath : SiaPath) (w : World R) :
  checksumFile file = Ok checksum ->
  SiaFolder.files (folder w) !! file = Some oldChecksum ->
  oldChecksum <> checksum ->
  filepath_Abs file = Ok abspath ->
  filepath_Rel (SiaFolder.path (folder w)) file = Ok relpath ->
  NewSiaPath (filepath_Join siaStagingDir relpath) = Ok siaPath ->
  let upload := CUpload abspath siaPath dataPieces parityPieces in
  let uploaded (node : R) :=
    node_RenterUploadPost abspath siaPath dataPieces parityPieces node in
  let upload_error (node : R) : error :=
    match (uploaded node).1 with
    | Some e => Errorf2 "error uploading " file ": " e
    | None => None
    end in
  exists err w',
    handleFileWrite file w = Done err w' /\
    if dryRun then
      err = None /\ calls w' = calls w /\ remote w' = remote w /\
      SiaFolder.files (folder w') !! file = Some checksum
    else if SiaFolder.archive (folder w) then
      err = upload_error (remote w) /\
      calls w' = (calls w ++ [upload])%list /\
      remote w' = (uploaded (remote w)).2 /\
      SiaFolder.files (folder w') !! file = Some checksum
    else
      let deleted := node_RenterDeletePost siaPath (remote w) in
      match deleted.1 with
      | Some e =>
          err = Errorf2 "error removing " file ": " e /\
          calls w' = (calls w ++ [CDelete siaPath])%list /\
          remote w' = deleted.2 /\
          SiaFolder.files (folder w') !! file = Some checksum
      | None =>
          err = upload_error deleted.2 /\
          calls w' = (calls w ++ [CDelete siaPath; upload])%list /\
          remote w' = (uploaded deleted.2).2 /\
          SiaFolder.files (folder w') !! file =
            match (uploaded deleted.2).1 with
            | None => Some checksum
            | Some _ => None
            end
      end.
Proof.
  intros Hsum Hold Hne Habs Hrel Hsp upload uploaded upload_error.
  subst upload uploaded upload_error. cbn beta.
  unfold handleFileWrite, bind, get_folder. rewrite Hsum, Hold.
  rewrite bool_decide_true by done. cbn.
  destruct (SiaFolder.archive (folder w)) eqn:Harch; cbn.
  - erewrite handleCreate_run by (cbn; eassumption). rewrite Hsum.
    destruct dryRun; cbn.
    + do 2 eexists. split; [reflexivity|]. cbn.
      repeat (split; [reflexivity|]). apply lookup_insert_eq.
    + destruct (node_RenterUploadPost abspath siaPath dataPieces parityPieces (remote w))
        as [[e|] node]; cbn; do 2 eexists; (split; [reflexivity|]); cbn;
        repeat (split; [reflexivity|]); apply lookup_insert_eq.
  - erewrite handleRemove_run by (cbn; eassumption).
    destruct dryRun eqn:Hdry; cbn.
    + erewrite handleCreate_run by (cbn; eassumption). rewrite Hdry, Hsum. cbn.
      do 2 eexists. split; [reflexivity|]. cbn.
      repeat (split; [reflexivity|]). apply lookup_insert_eq.
    + destruct (node_RenterDeletePost siaPath (remote w)) as [[e|] node]; cbn.
      * do 2 eexists. split; [reflexivity|]. cbn.
        repeat (split; [reflexivity|]). apply lookup_insert_eq.
      * erewrite handleCreate_run by (cbn; eassumption). rewrite Hdry, Hsum. cbn.
        destruct (node_RenterUploadPost abspath siaPath dataPieces parityPieces node)
          as [[e|] node']; cbn; do 2 eexists; (split; [reflexivity|]); cbn;
          rewrite <- app_assoc; repeat (split; [reflexivity|]).
        -- rewrite lookup_delete_eq. reflexivity.
        -- apply lookup_insert_eq.
Qed.

(** The calls of [uploadRetry] outside dry-run mode, once the paths
    resolve: a create whose first [handleCreate] failed is followed by
    exactly one query on the relative path, then, if the file is reported
    as existing and archive mode is off, by exactly one delete of the
    staging path, then by exactly one more upload.  A query that itself
    failed counts as existing unless its error contains "no file known". *)
Lemma uploadRetry_retries_once
    (filename abspath relpath e : string) (siaPath relSiaPath : SiaPath) (w w1 : World R) :
  dryRun = false ->
  filepath_Abs filename = Ok abspath ->
  filepath_Rel (SiaFolder.path (folder w)) filename = Ok relpath ->
  NewSiaPath relpath = Ok relSiaPath ->
  NewSiaPath (filepath_Join siaStagingDir relpath) = Ok siaPath ->
  handleCreate filename w = Done (Some e) w1 ->
  let exists_ :=
    match (node_RenterFileGet relSiaPath (remote w1)).1 with
    | Ok _ => true
    | Err m => negb (Contains m "no file known")
    end in
  exists w',
    uploadRetry filename w = Done tt w' /\
    calls w' =
      (calls w1 ++ [CFileGet relSiaPath]
               ++ (if exists_ && negb archive then [CDelete siaPath] else [])
               ++ [CUpload abspath siaPath dataPieces parityPieces])%list.
Proof.
  intros Hdry Habs Hrel Hrsp Hsp Hfirst exists_.
  assert (Hpath : SiaFolder.path (folder w1) = SiaFolder.path (folder w)).
  { rewrite (handleCreate_run _ _ _ _ _ Habs Hrel Hsp), Hdry in Hfirst. cbn in Hfirst.
    destruct (node_RenterUploadPost abspath siaPath dataPieces parityPieces (remote w))
      as [[m|] node]; cbn in Hfirst.
    - injection Hfirst as _ <-. reflexivity.
    - destruct (checksumFile filename);
        [discriminate | injection Hfirst as _ <-; reflexivity]. }
  unfold uploadRetry, bind at 1. rewrite Hfirst. unfold bind at 1.
  assert (Hrel1 : filepath_Rel (SiaFolder.path (folder w1)) filename = Ok relpath)
    by (rewrite Hpath; exact Hrel).
  pose proof (isFile_run filename relpath w1 Hrel1) as Hcheck.
  rewrite Hrsp in Hcheck. cbn in Hcheck. rewrite Hcheck. clear Hcheck.
  subst exists_.
  set (answer := node_RenterFileGet relSiaPath (remote w1)).
  set (ex := match answer.1 with Ok _ => true | Err m => negb (Contains m "no file known") end).
  set (w2 := mkWorld (folder w1) answer.2 (calls w1 ++ [CFileGet relSiaPath])).
  cbn [fst]. unfold bind.
  destruct (ex && negb archive) eqn:Hdel.
  - assert (Hrel2 : filepath_Rel (SiaFolder.path (folder w2)) filename = Ok relpath)
      by exact Hrel1.
    rewrite (handleRemove_run _ _ _ _ Hrel2 Hsp), Hdry. cbn.
    destruct (node_RenterDeletePost siaPath answer.2) as [[m|] node]; cbn;
      (erewrite handleCreate_run by (cbn; eassumption)); rewrite Hdry; cbn;
      (destruct (node_RenterUploadPost abspath siaPath dataPieces parityPieces node)
         as [[m'|] node']); cbn; try destruct (checksumFile filename); cbn;
      eexists; (split; [reflexivity|]); cbn; rewrite <- !app_assoc; reflexivity.
  - cbn. erewrite handleCreate_run by (cbn; eassumption). rewrite Hdry. cbn.
    destruct (node_RenterUploadPost abspath siaPath dataPieces parityPieces answer.2)
      as [[m'|] node']; cbn; try destruct (checksumFile filename); cbn;
      eexists; (split; [reflexivity|]); cbn; rewrite <- !app_assoc; reflexivity.
Qed.

(** When the relative path does not resolve, the existence check itself
    fails; [uploadRetry] goes on to the second [handleCreate] all the same,
    and no remote call is issued. *)
Lemma uploadRetry_unresolved_path (filename abspath e : string) (w : World R) :
  filepath_Abs filename = Ok abspath ->
  filepath_Rel (SiaFolder.path (folder w)) filename = Err e ->
  isFile filename w = Done (false, Errorf1 "error getting relative path: " e) w /\
  uploadRetry filename w = Done tt w.
Proof.
  intros Habs Hrel.
  assert (Hcreate : handleCreate filename w
                    = Done (Errorf1 "error getting relative path to upload: " e) w).
  { unfold handleCreate, bind, get_folder. rewrite Habs, Hrel. reflexivity. }
  assert (Hcheck : isFile filename w
                   = Done (false, Errorf1 "error getting relative path: " e) w).
  { unfold isFile, bind, get_folder. rewrite Hrel. reflexivity. }
  split; [exact Hcheck|].
  unfold uploadRetry, bind. rewrite Hcreate. unfold Errorf1 at 1.
  rewrite Hcheck. cbn [fst andb ret]. rewrite Hcreate. reflexivity.
Qed.

End Handlers.

(** C10, amended, on a node that cannot be reached: the query fails,
    [isFile] answers [true] with a nil error. *)
Lemma isFile_hides_query_failure_witness :
  let w := mkWorld (synced_folder true) Node.offline [] in
  filepath_Rel (Host := sync_host) "/home/eddie/sync" "/home/eddie/sync/a.txt" = Ok "a.txt" /\
  exists exists_,
    isFile (H := sync_host) (C := sync_client) "/home/eddie/sync/a.txt" w
      = Done (exists_, None)
             (mkWorld (synced_folder true) Node.offline [CFileGet (mkSiaPath "a.txt")]) /\
    (exists_ = false <->
     exists e, Err Node.refused = Err (A := RenterFile) e /\ Contains e "no file known" = true).
Proof.
  split; [reflexivity|].
  exact (isFile_hides_query_failure (H := sync_host) (C := sync_client)
           "/home/eddie/sync/a.txt" "a.txt"
           (mkWorld (synced_folder true) Node.offline []) eq_refl).
Defined.

(** C10, as stated, fails on the root of the folder and on a path outside
    it: [filepath.Rel] succeeds on both, the relative path is no valid Sia
    path, and [isFile] panics before any query instead of returning. *)
Lemma isFile_panics_on_the_root :
  let w := mkWorld (synced_folder true) synced_node [] in
  filepath_Rel (Host := sync_host) (SiaFolder.path (folder w)) "/home/eddie/sync" = Ok "." /\
  isFile (H := sync_host) (C := sync_client) "/home/eddie/sync" w
    = Panic "siapath cannot be '.'" w /\
  filepath_Rel (Host := sync_host) (SiaFolder.path (folder w)) "/home/eddie/notes.txt"
    = Ok "../notes.txt" /\
  isFile (H := sync_host) (C := sync_client) "/home/eddie/notes.txt" w
    = Panic "siapath cannot begin with ../" w /\
  forall r w', isFile (H := sync_host) (C := sync_client) "/home/eddie/sync" w <> Done r w'.
Proof.
  cbn zeta. repeat split; try (vm_compute; reflexivity).
  intros r w' Hrun. vm_compute in Hrun. discriminate.
Qed.

(** C7, as stated, fails when the node refuses the delete: the entry of
    [a.txt] is still in the index after [handleRemove]. *)
Lemma handleRemove_keeps_entry_after_failed_delete :
  let w := mkWorld (synced_folder false) Node.offline [] in
  let file := "/home/eddie/sync/a.txt" in
  SiaFolder.files (folder w) !! file = Some "10" /\
  exists e w',
    handleRemove (G := flags false false) (H := sync_host) (C := sync_client) file w
      = Done (Some e) w' /\
    calls w' = [CDelete (mkSiaPath "fuse/staging/a.txt")] /\
    SiaFolder.files (folder w') !! file = Some "10".
Proof.
  cbn zeta. split; [reflexivity|]. do 2 eexists.
  split; [vm_compute; reflexivity|]. split; reflexivity.
Qed.

(** C7, amended, on a node that holds [a.txt]: the delete succeeds and
    the entry is dropped. *)
Lemma handleRemove_drops_entry_witness :
  let w := mkWorld (synced_folder false) synced_node [] in
  let file := "/home/eddie/sync/a.txt" in
  filepath_Rel (Host := sync_host) (SiaFolder.path (folder w)) file = Ok "a.txt" /\
  NewSiaPath (Host := sync_host) (filepath_Join (Host := sync_host) "fuse/staging" "a.txt")
    = Ok (mkSiaPath "fuse/staging/a.txt") /\
  exists err w',
    handleRemove (G := flags false false) (H := sync_host) (C := sync_client) file w
      = Done err w' /\
    calls w' = [CDelete (mkSiaPath "fuse/staging/a.txt")] /\
    (err = None <->
       false = true \/
       (node_RenterDeletePost (Client := sync_client)
          (mkSiaPath "fuse/staging/a.txt") synced_node).1 = None) /\
    SiaFolder.files (folder w') =
      match err with
      | None => delete file (SiaFolder.files (folder w))
      | Some _ => SiaFolder.files (folder w)
      end.
Proof.
  cbn zeta. split; [reflexivity|]. split; [reflexivity|].
  exact (handleRemove_drops_entry_unless_delete_fails
           (G := flags false false) (H := sync_host) (C := sync_client)
           "/home/eddie/sync/a.txt" "a.txt" (mkSiaPath "fuse/staging/a.txt")
           (mkWorld (synced_folder false) synced_node []) eq_refl eq_refl).
Defined.

(** C5, as stated, fails in three ways.  In dry-run mode a changed file
    causes no remote call at all, archive mode or not; when the node
    refuses the delete, the delete is not followed by an upload; and when
    the delete succeeds and the upload is refused, the file is no longer
    in the index. *)
Lemma handleFileWrite_without_delete_upload_pair :
  let file := "/home/eddie/sync/a.txt" in
  let sum := checksumFile (H := rewritten_host) file in
  let dry := handleFileWrite (G := flags true true) (H := rewritten_host)
               (C := rewritten_client) file (mkWorld (synced_folder true) synced_node []) in
  let down := handleFileWrite (G := flags false false) (H := rewritten_host)
                (C := rewritten_client) file (mkWorld (synced_folder false) Node.offline []) in
  let lost := handleFileWrite (G := flags false false) (H := rewritten_host)
                (C := blind_client) file (mkWorld (synced_folder false) synced_node []) in
  sum = Ok "20" /\
  SiaFolder.files (synced_folder true) !! file = Some "10" /\
  SiaFolder.files (synced_folder false) !! file = Some "10" /\
  (exists w', dry = Done None w' /\ calls w' = []) /\
  calls (world_of down) = [CDelete (mkSiaPath "fuse/staging/a.txt")] /\
  calls (world_of lost) = [CDelete (mkSiaPath "fuse/staging/a.txt");
                           CUpload file (mkSiaPath "fuse/staging/a.txt") 10 30] /\
  SiaFolder.files (folder (world_of lost)) !! file = None.
Proof.
  cbn zeta. repeat split; try (vm_compute; reflexivity).
  eexists. split; [vm_compute; reflexivity|reflexivity].
Qed.

(** C5, amended, after [a.txt] was rewritten to 20 bytes, in archive mode
    and against a node that cannot be reached: one upload, which fails,
    no delete, and the index holds the new size all the same. *)
Lemma handleFileWrite_reuploads_changed_file_witness :
  let file := "/home/eddie/sync/a.txt" in
  let siaPath := mkSiaPath "fuse/staging/a.txt" in
  let w := mkWorld (synced_folder true) Node.offline [] in
  (checksumFile (H := rewritten_host) file = Ok "20" /\
   SiaFolder.files (folder w) !! file = Some "10" /\
   "10" <> "20" /\
   filepath_Abs (Host := rewritten_host) file = Ok file /\
   filepath_Rel (Host := rewritten_host) (SiaFolder.path (folder w)) file = Ok "a.txt" /\
   NewSiaPath (Host := rewritten_host)
     (filepath_Join (Host := rewritten_host) "fuse/staging" "a.txt") = Ok siaPath) /\
  exists err w',
    handleFileWrite (G := flags true false) (H := rewritten_host) (C := rewritten_client)
      file w = Done err w' /\
    err = Some ("error uploading " ++ file ++ ": " ++ Node.refused) /\
    calls w' = [CUpload file siaPath 10 30] /\
    remote w' = Node.offline /\
    SiaFolder.files (folder w') !! file = Some "20".
Proof.
  cbn zeta. split; [repeat split; try reflexivity; discriminate|].
  exact (handleFileWrite_reuploads_changed_file
           (G := flags true false) (H := rewritten_host) (C := rewritten_client)
           "/home/eddie/sync/a.txt" "/home/eddie/sync/a.txt" "a.txt" "20" "10"
           (mkSiaPath "fuse/staging/a.txt")
           (mkWorld (synced_folder true) Node.offline [])
           eq_refl eq_refl ltac:(discriminate) eq_refl eq_refl eq_refl).
Defined.

(** In dry-run mode with archive mode off: the first [handleCreate] fails
    on a file that is gone, the check reports the file as existing, and no
    delete is issued. *)
Lemma uploadRetry_dry_run_issues_no_delete :
  let file := "/home/eddie/sync/gone.txt" in
  let w := mkWorld (synced_folder false) Node.offline [] in
  (exists e, handleCreate (G := flags false true) (H := sync_host) (C := sync_client) file w
             = Done (Some e) w) /\
  isFile (H := sync_host) (C := sync_client) file w
    = Done (true, None) (mkWorld (folder w) Node.offline [CFileGet (mkSiaPath "gone.txt")]) /\
  archive (Globals := flags false true) = false /\
  List.filter is_delete
    (calls (world_of (uploadRetry (G := flags false true) (H := sync_host)
                        (C := sync_client) file w))) = [].
Proof.
  cbn zeta. split; [eexists; vm_compute; reflexivity|].
  repeat split; vm_compute; reflexivity.
Qed.

(** C8 fails on a file the node already holds.  The first upload is
    refused because [fuse/staging/a.txt] exists; the check then asks the
    node for [a.txt], the path without the staging directory, and reports
    the file as missing; the upload is tried again against the file that
    is still there and fails again.  With archive mode off the check
    reports the same and the delete the claim expects is never issued. *)
Lemma uploadRetry_asks_for_the_unstaged_path :
  let file := "/home/eddie/sync/a.txt" in
  let stagedPath := mkSiaPath "fuse/staging/a.txt" in
  let upload := CUpload file stagedPath 10 30 in
  let w (archive_ : bool) := mkWorld (synced_folder archive_) synced_node [] in
  let w1 (archive_ : bool) := mkWorld (synced_folder archive_) synced_node [upload] in
  Node.has_file stagedPath synced_node = true /\
  (exists e, handleCreate (G := flags true false) (H := sync_host) (C := sync_client)
               file (w true) = Done (Some e) (w1 true)) /\
  isFile (H := sync_host) (C := sync_client) file (w1 true)
    = Done (false, None)
           (mkWorld (synced_folder true) synced_node [upload; CFileGet (mkSiaPath "a.txt")]) /\
  calls (world_of (uploadRetry (G := flags true false) (H := sync_host) (C := sync_client)
                     file (w true)))
    = [upload; CFileGet (mkSiaPath "a.txt"); upload] /\
  calls (world_of (uploadRetry (G := flags false false) (H := sync_host) (C := sync_client)
                     file (w false)))
    = [upload; CFileGet (mkSiaPath "a.txt"); upload].
Proof.
  cbn zeta. split; [reflexivity|]. split; [eexists; vm_compute; reflexivity|].
  repeat split; vm_compute; reflexivity.
Qed.

(** ** Properties of the promotion loop *)

Section Promotion.
Context {G : Globals} {H : Host} {R : Type} {C : Client R}.

(** [SFcompare] is antisymmetric. *)
Lemma SFcompare_antisym (x y : spec_float) (c : comparison) :
  SFcompare x y = Some c -> SFcompare y x = Some (CompOpp c).
Proof.
  destruct x as [sx|sx| |sx mx ex], y as [sy|sy| |sy my ey]; cbn;
    try discriminate; intros [= <-]; try (destruct sx; try destruct sy; reflexivity).
  f_equal. rewrite (Z.compare_antisym ex ey).
  destruct sx, sy; cbn; try reflexivity;
    destruct (ex ?= ey)%Z; cbn; try reflexivity.
  - f_equal. symmetry. exact (Pos.compare_cont_antisym mx my Eq).
  - symmetry. exact (Pos.compare_cont_antisym mx my Eq).
Qed.

(** Away from NaN, "not [<= 1]" is "[> 1]". *)
Lemma not_le_one_iff_gt_one (r : float64) :
  r <> S754_nan -> (SFleb r float64_one = false <-> SFltb float64_one r = true).
Proof.
  intros Hnan. unfold SFleb, SFltb.
  destruct (SFcompare r float64_one) as [c|] eqn:Hc.
  - rewrite (SFcompare_antisym _ _ _ Hc). destruct c; cbn [CompOpp]; split; congruence.
  - destruct r as [s|s| |s m e]; try (exfalso; apply Hnan; reflexivity);
      unfold SFcompare, float64_one in Hc; discriminate.
Qed.

(** [moveToProduction] once the two bases are valid Sia paths. *)
Lemma moveToProduction_run (dir oldBase newBase : SiaPath) (w : World R) :
  NewSiaPath (filepath_Join siaStagingDir siaStagingDir) = Ok oldBase ->
  NewSiaPath (filepath_Join siaStagingDir siaProdDir) = Ok newBase ->
  moveToProduction dir w =
    match Rebase dir oldBase newBase with
    | Err e => Done (Some e) w
    | Ok newSiaPath =>
        let answer := node_RenterRenamePost dir newSiaPath (remote w) in
        Done answer.1 (called w (CRename dir newSiaPath) answer.2)
    end.
Proof.
  intros Hold Hnew. unfold moveToProduction, bind, getSiaPath, newSiaPath.
  rewrite Hold, Hnew. cbn.
  destruct (Rebase dir oldBase newBase) as [newSiaPath|e]; [|reflexivity].
  unfold RenterRenamePost, invoke, called.
  destruct (node_RenterRenamePost dir newSiaPath (remote w)); reflexivity.
Qed.

#[local] Arguments moveToProduction : simpl never.

(** The loop past index 0: every entry is judged by its redundancy. *)
Lemma promoteFrom_succ (target : SiaPath -> SiaPath) (oldBase newBase : SiaPath)
    (directories : list DirectoryInfo) :
  NewSiaPath (filepath_Join siaStagingDir siaStagingDir) = Ok oldBase ->
  NewSiaPath (filepath_Join siaStagingDir siaProdDir) = Ok newBase ->
  Forall (fun dir => AggregateMinRedundancy dir <> S754_nan) directories ->
  Forall (fun dir => Rebase (DirSiaPath dir) oldBase newBase = Ok (target (DirSiaPath dir)))
         directories ->
  forall (i : nat) (w : World R),
    promoteFrom (S i) directories w =
      Done tt (mkWorld (folder w) (after_renames target directories (remote w))
                       (calls w ++ renames target directories)).
Proof.
  intros Hold Hnew Hnan Hbase.
  induction directories as [|dir rest IH]; intros i w.
  - cbn. rewrite app_nil_r. destruct w; reflexivity.
  - inversion Hnan as [|? ? Hdir Hrest]; subst.
    inversion Hbase as [|? ? Hdir' Hrest']; subst.
    cbn [promoteFrom Nat.eqb]. unfold bind at 1. unfold renames, after_renames.
    cbn [List.filter].
    destruct (SFleb (AggregateMinRedundancy dir) float64_one) eqn:Hle.
    + assert (Hgt : SFltb float64_one (AggregateMinRedundancy dir) = false).
      { destruct (SFltb float64_one (AggregateMinRedundancy dir)) eqn:Hgt; [|reflexivity].
        apply not_le_one_iff_gt_one in Hgt; [congruence|exact Hdir]. }
      rewrite Hgt. cbn [ret]. exact (IH Hrest Hrest' (S i) w).
    + apply not_le_one_iff_gt_one in Hle as Hgt; [|exact Hdir]. rewrite Hgt.
      unfold bind at 1. rewrite (moveToProduction_run _ _ _ _ Hold Hnew), Hdir'.
      cbn [ret List.map fold_left].
      rewrite (IH Hrest Hrest' (S i)). unfold renames, after_renames, called.
      cbn [folder remote calls]. rewrite <- app_assoc. reflexivity.
Qed.

(** The loop on a listing: the entry at index 0 causes no call whatever
    its redundancy, and the entries past it are renamed exactly when their
    aggregate minimum redundancy is greater than 1.0, in the order of the
    listing; a failed rename stops nothing. *)
Lemma promoteFrom_run (target : SiaPath -> SiaPath) (oldBase newBase : SiaPath)
    (listing : RenterDirectory) (w : World R) :
  NewSiaPath (filepath_Join siaStagingDir siaStagingDir) = Ok oldBase ->
  NewSiaPath (filepath_Join siaStagingDir siaProdDir) = Ok newBase ->
  promotable target oldBase newBase listing ->
  promoteFrom 0 (Directories listing) w =
    Done tt (mkWorld (folder w)
               (after_renames target (tail (Directories listing)) (remote w))
               (calls w ++ renames target (tail (Directories listing)))).
Proof.
  intros Hold Hnew [Hnan Hbase]. destruct (Directories listing) as [|root children].
  - cbn. rewrite app_nil_r. destruct w; reflexivity.
  - cbn [promoteFrom Nat.eqb tail] in *. unfold bind at 1. cbn [ret].
    eapply promoteFrom_succ; eassumption.
Qed.

(** [getStagingSiaDir] does not depend on its argument. *)
Lemma getStagingSiaDir_ignores_subdir (subdir : string) :
  getStagingSiaDir subdir = getStagingSiaDir movieDir.
Proof. reflexivity. Qed.

(** One tick: the loop runs on the listing of each of the two queries, and
    both queries are the one for [movieDir]. *)
Lemma moveToProductionTick_run (w : World R) :
  moveToProductionTick w =
    match getStagingSiaDir movieDir w with
    | Done (Ok stagingMoviesDir) w1 =>
        match promoteFrom 0 (Directories stagingMoviesDir) w1 with
        | Done _ w2 =>
            match getStagingSiaDir movieDir w2 with
            | Done (Ok stagingTVDir) w3 => promoteFrom 0 (Directories stagingTVDir) w3
            | Done (Err _) w3 => Done tt w3
            | Panic m w3 => Panic m w3
            end
        | Panic m w2 => Panic m w2
        end
    | Done (Err _) w1 => Done tt w1
    | Panic m w1 => Panic m w1
    end.
Proof.
  unfold moveToProductionTick, bind. rewrite (getStagingSiaDir_ignores_subdir tvDir).
  destruct (getStagingSiaDir movieDir w) as [[d|e] w1|m w1]; try reflexivity.
  destruct (promoteFrom 0 (Directories d) w1) as [[] w2|m w2]; try reflexivity.
  destruct (getStagingSiaDir movieDir w2) as [[d'|e] w3|m w3]; reflexivity.
Qed.

(** [getStagingSiaDir] once its path resolves. *)
Lemma getStagingSiaDir_run (subdir : string) (siaPath : SiaPath) (w : World R) :
  NewSiaPath (filepath_Join siaStagingDir
                (filepath_Join (SiaFolder.siaStagingDir (folder w)) movieDir)) = Ok siaPath ->
  getStagingSiaDir subdir w =
    let answer := node_RenterGetDir siaPath (remote w) in
    Done answer.1 (called w (CGetDir siaPath) answer.2).
Proof.
  intros Hsp. unfold getStagingSiaDir, bind, get_folder, getSiaPath, newSiaPath.
  rewrite Hsp. unfold ret, RenterGetDir, invoke, called.
  destruct (node_RenterGetDir siaPath (remote w)); reflexivity.
Qed.

(** X29.  One tick, when the listings the node returns are [promotable].
    The tick queries the staged movies; if that fails it ends there.
    Otherwise every entry of the listing past index 0 is renamed exactly
    when its aggregate minimum redundancy is greater than 1.0, in the
    order of the listing, and the entry at index 0 never; then the same
    directory is queried again and its listing is treated the same way.
    Each rename goes from the path of the entry to what [Rebase] gives for
    the bases [getSiaPath(siaStagingDir)] and [getSiaPath(siaProdDir)].
    The folder is left as it was. *)
Theorem moveToProductionTick_promotes_the_healthy_children
    (target : SiaPath -> SiaPath) (siaPath oldBase newBase : SiaPath) (w : World R) :
  NewSiaPath (filepath_Join siaStagingDir
                (filepath_Join (SiaFolder.siaStagingDir (folder w)) movieDir)) = Ok siaPath ->
  NewSiaPath (filepath_Join siaStagingDir siaStagingDir) = Ok oldBase ->
  NewSiaPath (filepath_Join siaStagingDir siaProdDir) = Ok newBase ->
  (forall stagingMoviesDir,
     (node_RenterGetDir siaPath (remote w)).1 = Ok stagingMoviesDir ->
     promotable target oldBase newBase stagingMoviesDir /\
     forall stagingTVDir,
       (node_RenterGetDir siaPath
          (after_renames target (tail (Directories stagingMoviesDir))
             (node_RenterGetDir siaPath (remote w)).2)).1 = Ok stagingTVDir ->
       promotable target oldBase newBase stagingTVDir) ->
  exists w',
    moveToProductionTick w = Done tt w' /\
    folder w' = folder w /\
    calls w' = (calls w ++ tick_calls target siaPath (remote w))%list.
Proof.
  intros Hsp Hold Hnew Hlistings. rewrite moveToProductionTick_run.
  rewrite (getStagingSiaDir_run movieDir siaPath w Hsp). cbn zeta. unfold tick_calls.
  destruct (node_RenterGetDir siaPath (remote w)) as [[stagingMoviesDir|e] node1];
    cbn [fst snd] in *.
  2:{ eexists. split; [reflexivity|]. split; reflexivity. }
  destruct (Hlistings stagingMoviesDir eq_refl) as [Hmovies Htv].
  rewrite (promoteFrom_run target oldBase newBase stagingMoviesDir _ Hold Hnew Hmovies).
  cbn [called folder remote calls].
  set (children := tail (Directories stagingMoviesDir)) in *.
  set (w2 := mkWorld (folder w) (after_renames target children node1)
               ((calls w ++ [CGetDir siaPath]) ++ renames target children)).
  rewrite (getStagingSiaDir_run movieDir siaPath w2 Hsp). cbn zeta.
  subst w2. cbn [called folder remote calls].
  destruct (node_RenterGetDir siaPath (after_renames target children node1))
    as [[stagingTVDir|e] node3]; cbn [fst snd] in *.
  - rewrite (promoteFrom_run target oldBase newBase stagingTVDir _ Hold Hnew
               (Htv stagingTVDir eq_refl)).
    eexists. split; [reflexivity|]. split; [reflexivity|].
    unfold called. cbn [calls]. rewrite <- !app_assoc. cbn [app]. reflexivity.
  - eexists. split; [reflexivity|]. split; [reflexivity|].
    unfold called. cbn [calls]. rewrite <- !app_assoc. cbn [app]. reflexivity.
Qed.

End Promotion.

(** X29 on the node with both categories: [Alien], at 1.5, is renamed; the
    movies directory itself, at 3.0 and index 0, and [Brazil], at 1.0, are
    not; the second query finds nothing left to rename. *)
Lemma moveToProductionTick_promotes_the_healthy_children_witness :
  let w := mkWorld (synced_folder true) media_node [] in
  let siaPath := staged "movies" in
  (NewSiaPath (Host := sync_host)
     (filepath_Join (Host := sync_host) "fuse/staging"
        (filepath_Join (Host := sync_host) (SiaFolder.siaStagingDir (folder w)) movieDir))
     = Ok siaPath /\
   NewSiaPath (Host := sync_host) (filepath_Join (Host := sync_host) "fuse/staging" "fuse/staging")
     = Ok staging_base /\
   NewSiaPath (Host := sync_host) (filepath_Join (Host := sync_host) "fuse/staging" "fuse/prod")
     = Ok production_base /\
   forall stagingMoviesDir,
     (node_RenterGetDir (Client := sync_client) siaPath (remote w)).1 = Ok stagingMoviesDir ->
     promotable (H := sync_host) rebased staging_base production_base stagingMoviesDir /\
     forall stagingTVDir,
       (node_RenterGetDir (Client := sync_client) siaPath
          (after_renames (C := sync_client) rebased (tail (Directories stagingMoviesDir))
             (node_RenterGetDir (Client := sync_client) siaPath (remote w)).2)).1
       = Ok stagingTVDir ->
       promotable (H := sync_host) rebased staging_base production_base stagingTVDir) /\
  exists w',
    moveToProductionTick (G := flags true false) (H := sync_host) (C := sync_client) w
      = Done tt w' /\
    folder w' = folder w /\
    calls w' = [ CGetDir siaPath;
                 CRename (staged "movies/Alien")
                         (mkSiaPath "fuse/staging/fuse/prod/movies/Alien");
                 CGetDir siaPath ].
Proof.
  cbn zeta.
  assert (Hlistings : forall stagingMoviesDir,
     (node_RenterGetDir (Client := sync_client) (staged "movies") media_node).1
       = Ok stagingMoviesDir ->
     promotable (H := sync_host) rebased staging_base production_base stagingMoviesDir /\
     forall stagingTVDir,
       (node_RenterGetDir (Client := sync_client) (staged "movies")
          (after_renames (C := sync_client) rebased (tail (Directories stagingMoviesDir))
             (node_RenterGetDir (Client := sync_client) (staged "movies") media_node).2)).1
       = Ok stagingTVDir ->
       promotable (H := sync_host) rebased staging_base production_base stagingTVDir).
  { intros stagingMoviesDir Hfirst. vm_compute in Hfirst. injection Hfirst as <-. split.
    - split; repeat constructor; discriminate.
    - intros stagingTVDir Hsecond. vm_compute in Hsecond. injection Hsecond as <-.
      split; repeat constructor; discriminate. }
  split; [split; [reflexivity|split; [reflexivity|split; [reflexivity|exact Hlistings]]]|].
  exact (moveToProductionTick_promotes_the_healthy_children
           (G := flags true false) (H := sync_host) (C := sync_client)
           rebased (staged "movies") staging_base production_base
           (mkWorld (synced_folder true) media_node []) eq_refl eq_refl eq_refl Hlistings).
Defined.

(** C1 fails on every rename.  On the node with both categories the tick
    renames [Alien] to a path that lies below the staging directory and
    not below the production directory: both bases [moveToProduction]
    passes to [Rebase] went through [getSiaPath], which puts the staging
    directory in front of the production directory as well. *)
Lemma tick_renames_into_the_staging_directory :
  let w' := world_of (moveToProductionTick (G := flags true false) (H := sync_host)
                        (C := sync_client) (mkWorld (synced_folder true) media_node [])) in
  let destination := mkSiaPath "fuse/staging/fuse/prod/movies/Alien" in
  List.filter is_rename (calls w') = [CRename (staged "movies/Alien") destination] /\
  HasPrefix (Path destination) (siaProdDir (Globals := flags true false) ++ "/") = false /\
  HasPrefix (Path destination) (siaStagingDir (Globals := flags true false) ++ "/") = true.
Proof. cbn zeta. repeat split; vm_compute; reflexivity. Qed.

(** C2 fails on every tick.  On the node with both categories the tick
    queries the movies directory twice and the tv directory never, so the
    tv child [Lost], at 2.0, is not promoted. *)
Lemma tick_queries_movies_for_tv :
  tvDir <> movieDir /\
  calls (world_of (moveToProductionTick (G := flags true false) (H := sync_host)
                     (C := sync_client) (mkWorld (synced_folder true) media_node [])))
  = [ CGetDir (staged "movies");
      CRename (staged "movies/Alien") (mkSiaPath "fuse/staging/fuse/prod/movies/Alien");
      CGetDir (staged "movies") ].
Proof. split; [discriminate|vm_compute; reflexivity]. Qed.

(** ** Properties of the startup reconciliation *)

Section Reconciliation.
Context {G : Globals} {H : Host} {R : Type} {C : Client R}.

(** A loop that appends the elements passing a test computes a filter. *)
Lemma fold_left_append_filter {A} (keep : A -> bool) (l acc : list A) :
  fold_left (fun rf x => if keep x then (rf ++ [x])%list else rf) l acc
  = (acc ++ List.filter keep l)%list.
Proof.
  revert acc. induction l as [|x l IH]; intros acc; cbn.
  - rewrite app_nil_r. reflexivity.
  - rewrite IH. destruct (keep x); [rewrite <- app_assoc|]; reflexivity.
Qed.

(** [getSiaFiles] returns the files that are outside the staging directory
    or outside the production directory. *)
Lemma getSiaFiles_run (w : World R) :
  getSiaFiles w =
    let answer := node_RenterFilesGet true (remote w) in
    Done (match answer.1 with
          | Err e => Err e
          | Ok renterFiles =>
              Ok (mkRenterFiles (List.filter kept_by_getSiaFiles (Files renterFiles)))
          end)
         (called w (CFilesGet true) answer.2).
Proof.
  unfold getSiaFiles, bind, RenterFilesGet, invoke, called. cbn.
  destruct (node_RenterFilesGet true (remote w)) as [[renterFiles|e] node]; cbn;
    [|reflexivity].
  unfold ret. do 3 f_equal.
  exact (fold_left_append_filter kept_by_getSiaFiles (Files renterFiles) []).
Qed.

(** [getStagingSiaFiles] returns the files outside the staging directory. *)
Lemma getStagingSiaFiles_run (w : World R) :
  getStagingSiaFiles w =
    let answer := node_RenterFilesGet true (remote w) in
    Done (match answer.1 with
          | Err e => Err e
          | Ok renterFiles =>
              Ok (mkRenterFiles (List.filter kept_by_getStagingSiaFiles (Files renterFiles)))
          end)
         (called w (CFilesGet true) answer.2).
Proof.
  unfold getStagingSiaFiles, bind, RenterFilesGet, invoke, called. cbn.
  destruct (node_RenterFilesGet true (remote w)) as [[renterFiles|e] node]; cbn;
    [|reflexivity].
  unfold ret. do 3 f_equal.
  exact (fold_left_append_filter kept_by_getStagingSiaFiles (Files renterFiles) []).
Qed.

(** [adds_no_upload] is a preorder on worlds. *)
Lemma adds_no_upload_refl (w : World R) : adds_no_upload w w.
Proof. exists []. rewrite app_nil_r. auto. Qed.

Lemma adds_no_upload_trans (w1 w2 w3 : World R) :
  adds_no_upload w1 w2 -> adds_no_upload w2 w3 -> adds_no_upload w1 w3.
Proof.
  intros (cs & E & Hcs) (cs' & E' & Hcs'). exists (cs ++ cs')%list. split.
  - rewrite E', E, <- app_assoc. reflexivity.
  - rewrite List.filter_app, Hcs, Hcs'. reflexivity.
Qed.

Lemma adds_no_upload_same_calls (w w' : World R) :
  calls w' = calls w -> adds_no_upload w w'.
Proof. intros E. exists []. rewrite app_nil_r. auto. Qed.

(** Being listed depends on the [Path] only. *)
Lemma listed_same_path (node : R) (sp sp' : SiaPath) :
  Path sp = Path sp' -> listed node sp -> listed node sp'.
Proof.
  intros E (rf & node' & Hget & f & Hin & Hp). exists rf, node'. split; [exact Hget|].
  exists f. split; [exact Hin|congruence].
Qed.

(** [getSiaPath] returns the joined path or panics. *)
Lemma getSiaPath_run (relpath : string) (w : World R) :
  getSiaPath relpath w =
    match NewSiaPath (filepath_Join siaStagingDir relpath) with
    | Ok siaPath => Done siaPath w
    | Err e => Panic e w
    end.
Proof.
  unfold getSiaPath, newSiaPath.
  destruct (NewSiaPath (filepath_Join siaStagingDir relpath)); reflexivity.
Qed.

(** The inner loop of [uploadNonExisting] is a search; it panics on an
    invalid path unless the listing is empty. *)
Lemma existsOnSia_run (relpath : string) (siafiles : list SiaFileInfo) (w : World R) :
  existsOnSia relpath siafiles w =
    match NewSiaPath (filepath_Join siaStagingDir relpath) with
    | Ok siaPath => Done (existsb (fun f => Equals (FileSiaPath f) siaPath) siafiles) w
    | Err e => match siafiles with [] => Done false w | _ => Panic e w end
    end.
Proof.
  induction siafiles as [|f rest IH]; cbn [existsOnSia existsb].
  - destruct (NewSiaPath _); reflexivity.
  - unfold bind. rewrite getSiaPath_run.
    destruct (NewSiaPath (filepath_Join siaStagingDir relpath)) as [sp|e]; [|reflexivity].
    destruct (Equals (FileSiaPath f) sp); [reflexivity|exact IH].
Qed.

(** What [handleCreate] leaves behind. *)
Lemma handleCreate_effect (file : string) (w : World R) :
  let o := handleCreate file w in
  SiaFolder.path (folder (world_of o)) = SiaFolder.path (folder w) /\
  (SiaFolder.files (folder (world_of o)) = SiaFolder.files (folder w) \/
   exists checksum,
     SiaFolder.files (folder (world_of o)) = <[file := checksum]> (SiaFolder.files (folder w))) /\
  (dryRun = true -> calls (world_of o) = calls w) /\
  (dryRun = false -> forall w', o = Done None w' ->
     exists abspath relpath siaPath,
       filepath_Rel (SiaFolder.path (folder w)) file = Ok relpath /\
       NewSiaPath (filepath_Join siaStagingDir relpath) = Ok siaPath /\
       (node_RenterUploadPost abspath siaPath dataPieces parityPieces (remote w)).1 = None /\
       remote w' = (node_RenterUploadPost abspath siaPath dataPieces parityPieces (remote w)).2).
Proof.
  cbn zeta. remember (handleCreate file w) as o eqn:Ho.
  unfold handleCreate, Errorf1, Errorf2, bind, get_folder, getSiaPath, newSiaPath,
    ret, panic, modify_folder, RenterUploadPost, invoke in Ho.
  destruct (filepath_Abs file) as [abspath|e];
    [|subst o; cbn; repeat split; auto; intros; congruence].
  destruct (filepath_Rel (SiaFolder.path (folder w)) file) as [relpath|e] eqn:Hrel;
    [|subst o; cbn; repeat split; auto; intros; congruence].
  destruct (NewSiaPath (filepath_Join siaStagingDir relpath)) as [sp|e] eqn:Hsp;
    [|subst o; cbn; repeat split; auto; intros; congruence].
  destruct dryRun.
  - destruct (checksumFile file); subst o; cbn; repeat split; eauto; intros; congruence.
  - destruct (node_RenterUploadPost abspath sp dataPieces parityPieces (remote w))
      as [[e|] node] eqn:Hup; cbn in Ho.
    + subst o; cbn; repeat split; auto; intros; congruence.
    + destruct (checksumFile file); subst o; cbn;
        repeat split; eauto; try (intros; congruence).
      intros _ w' [= <-]. exists abspath, relpath, sp. rewrite Hup. auto.
Qed.

(** One turn of a loop. *)
Lemma forEach_cons {A} (body : A -> M R error) (x : A) (rest : list A) (w : World R) :
  forEach body (x :: rest) w =
    match body x w with
    | Done (Some e) w' => Done (Some e) w'
    | Done None w' => forEach body rest w'
    | Panic m w' => Panic m w'
    end.
Proof.
  cbn [forEach]. unfold bind. destruct (body x w) as [[e|] w'|m w']; reflexivity.
Qed.

(** A key the loop visits is a key of the map. *)
Lemma range_order_key (n : nat) (m : gmap string string) (file : string) :
  range_visits_keys -> file ∈ range_order n m -> is_Some (m !! file).
Proof.
  intros Hrange Hin. rewrite (Hrange n m) in Hin.
  apply list_elem_of_fmap in Hin as ([k v] & -> & Hkv).
  apply elem_of_map_to_list in Hkv. cbn. eauto.
Qed.

(** The search succeeds exactly on a file with the same [Path]. *)
Lemma existsb_listed (filtered : list SiaFileInfo) (siaPath : SiaPath) :
  existsb (fun f => Equals (FileSiaPath f) siaPath) filtered = true ->
  exists f, f ∈ filtered /\ Path (FileSiaPath f) = Path siaPath.
Proof.
  intros Hex. apply existsb_exists in Hex as (f & Hin & Heq).
  exists f. split; [apply list_elem_of_In; exact Hin|].
  unfold Equals in Heq. apply bool_decide_eq_true in Heq. exact Heq.
Qed.

Lemma listed_existsb (filtered : list SiaFileInfo) (siaPath : SiaPath) (f : SiaFileInfo) :
  f ∈ filtered -> Path (FileSiaPath f) = Path siaPath ->
  existsb (fun f => Equals (FileSiaPath f) siaPath) filtered = true.
Proof.
  intros Hin Heq. apply existsb_exists. exists f. split; [apply list_elem_of_In; exact Hin|].
  unfold Equals. apply bool_decide_eq_true. exact Heq.
Qed.

(** One key of the first run: whatever the body does not find listed, it
    uploads. *)
Lemma uploadNonExistingFile_lists (filtered : list SiaFileInfo) (file : string)
    (w w2 : World R) :
  node_remembers_uploads -> dryRun = false ->
  (forall f, f ∈ filtered -> listed (remote w) (FileSiaPath f)) ->
  uploadNonExistingFile (mkRenterFiles filtered) file w = Done None w2 ->
  SiaFolder.path (folder w2) = SiaFolder.path (folder w) /\
  (forall sp, listed (remote w) sp -> listed (remote w2) sp) /\
  forall relpath sp,
    filepath_Rel (SiaFolder.path (folder w)) file = Ok relpath ->
    NewSiaPath (filepath_Join siaStagingDir relpath) = Ok sp ->
    listed (remote w2) sp.
Proof.
  intros [_ Hupload] Hdry Hlisted Hbody.
  unfold uploadNonExistingFile, bind, get_folder in Hbody. cbn [Files] in Hbody.
  destruct (filepath_Rel (SiaFolder.path (folder w)) file) as [relpath|e] eqn:Hrel;
    [|discriminate].
  rewrite existsOnSia_run in Hbody.
  assert (Hcreate : handleCreate file w = Done None w2 ->
                    SiaFolder.path (folder w2) = SiaFolder.path (folder w) /\
                    (forall sp, listed (remote w) sp -> listed (remote w2) sp) /\
                    forall relpath' sp,
                      Ok relpath = Ok relpath' ->
                      NewSiaPath (filepath_Join siaStagingDir relpath') = Ok sp ->
                      listed (remote w2) sp).
  { intros Hc. pose proof (handleCreate_effect file w) as (Hpath & _ & _ & Hup).
    cbn zeta in Hpath. rewrite Hc in Hpath. split; [exact Hpath|].
    destruct (Hup Hdry w2 Hc) as (abspath & relpath' & sp' & Hrel' & Hsp' & Hok & Hnode).
    rewrite Hnode. destruct (Hupload abspath sp' dataPieces parityPieces (remote w) Hok)
      as [Hnew Hkeep].
    split; [exact Hkeep|]. intros relpath'' sp [= <-] Hsp.
    rewrite Hrel in Hrel'. injection Hrel' as <-. rewrite Hsp in Hsp'.
    injection Hsp' as <-. exact Hnew. }
  destruct (NewSiaPath (filepath_Join siaStagingDir relpath)) as [sp|e] eqn:Hsp.
  - destruct (existsb (fun f => Equals (FileSiaPath f) sp) filtered) eqn:Hex.
    + injection Hbody as <-. split; [reflexivity|]. split; [auto|].
      intros relpath' sp' [= <-] Hsp'. rewrite Hsp in Hsp'. injection Hsp' as <-.
      apply existsb_listed in Hex as (f & Hin & Heq).
      exact (listed_same_path _ _ _ Heq (Hlisted f Hin)).
    + apply Hcreate. exact Hbody.
  - destruct filtered; [|discriminate]. apply Hcreate. exact Hbody.
Qed.

(** The loop of the first run leaves every key listed on the node. *)
Lemma uploadNonExisting_loop_lists (filtered : list SiaFileInfo) (keys : list string) :
  node_remembers_uploads -> dryRun = false ->
  forall w w',
    (forall f, f ∈ filtered -> listed (remote w) (FileSiaPath f)) ->
    forEach (uploadNonExistingFile (mkRenterFiles filtered)) keys w = Done None w' ->
    (forall sp, listed (remote w) sp -> listed (remote w') sp) /\
    forall file relpath sp,
      file ∈ keys ->
      filepath_Rel (SiaFolder.path (folder w)) file = Ok relpath ->
      NewSiaPath (filepath_Join siaStagingDir relpath) = Ok sp ->
      listed (remote w') sp.
Proof.
  intros Hnode Hdry. induction keys as [|file rest IH]; intros w w' Hlisted Hrun.
  - injection Hrun as <-. split; [auto|]. intros ? ? ? Hin. inversion Hin.
  - rewrite forEach_cons in Hrun.
    destruct (uploadNonExistingFile (mkRenterFiles filtered) file w) as [[e|] w2|m w2]
      eqn:Hbody; try discriminate.
    destruct (uploadNonExistingFile_lists _ _ _ _ Hnode Hdry Hlisted Hbody)
      as (Hpath & Hkeep & Hfile).
    destruct (IH w2 w' (fun f Hin => Hkeep _ (Hlisted f Hin)) Hrun) as [Hkeep' Hrest].
    split; [auto|]. intros file' relpath sp Hin Hrel Hsp.
    apply elem_of_cons in Hin as [->|Hin].
    + apply Hkeep'. eapply Hfile; eassumption.
    + eapply Hrest; [exact Hin| |exact Hsp]. rewrite Hpath. exact Hrel.
Qed.


(** A call that is no upload adds no upload. *)
Lemma adds_no_upload_called (w : World R) (c : Call) (node : R) :
  is_upload c = false -> adds_no_upload w (called w c node).
Proof. intros Hc. exists [c]. cbn. rewrite Hc. auto. Qed.

(** [handleCreate] on a path that is no valid Sia path leaves the world
    as it found it. *)
Lemma handleCreate_invalid (file relpath e : string) (w : World R) :
  filepath_Rel (SiaFolder.path (folder w)) file = Ok relpath ->
  NewSiaPath (filepath_Join siaStagingDir relpath) = Err e ->
  world_of (handleCreate file w) = w.
Proof.
  intros Hrel Hsp. unfold handleCreate, bind, get_folder, getSiaPath, newSiaPath.
  destruct (filepath_Abs file); [|reflexivity]. rewrite Hrel, Hsp. reflexivity.
Qed.

(** What the body of the first loop does to the folder. *)
Lemma uploadNonExistingFile_folder (filtered : list SiaFileInfo) (file : string)
    (w : World R) :
  let w2 := world_of (uploadNonExistingFile (mkRenterFiles filtered) file w) in
  SiaFolder.path (folder w2) = SiaFolder.path (folder w) /\
  (SiaFolder.files (folder w2) = SiaFolder.files (folder w) \/
   exists checksum,
     SiaFolder.files (folder w2) = <[file := checksum]> (SiaFolder.files (folder w))).
Proof.
  cbn zeta. unfold uploadNonExistingFile, bind, get_folder. cbn [Files].
  destruct (filepath_Rel (SiaFolder.path (folder w)) file) as [relpath|e]; [|cbn; auto].
  rewrite existsOnSia_run.
  pose proof (handleCreate_effect file w) as (Hpath & Hfiles & _). cbn zeta in Hpath, Hfiles.
  destruct (NewSiaPath (filepath_Join siaStagingDir relpath)) as [sp|e].
  - destruct (existsb _ filtered); [cbn; auto|]. auto.
  - destruct filtered; [auto|cbn; auto].
Qed.

(** The body of the first loop issues no upload for a key that is listed,
    and none at all in dry-run mode. *)
Lemma uploadNonExistingFile_quiet (filtered : list SiaFileInfo) (file : string)
    (w : World R) :
  (dryRun = true \/
   forall relpath sp,
     filepath_Rel (SiaFolder.path (folder w)) file = Ok relpath ->
     NewSiaPath (filepath_Join siaStagingDir relpath) = Ok sp ->
     exists f, f ∈ filtered /\ Path (FileSiaPath f) = Path sp) ->
  adds_no_upload w (world_of (uploadNonExistingFile (mkRenterFiles filtered) file w)).
Proof.
  intros Hcase. unfold uploadNonExistingFile, bind, get_folder. cbn [Files].
  destruct (filepath_Rel (SiaFolder.path (folder w)) file) as [relpath|e] eqn:Hrel;
    [|apply adds_no_upload_refl].
  rewrite existsOnSia_run.
  destruct (NewSiaPath (filepath_Join siaStagingDir relpath)) as [sp|e] eqn:Hsp.
  - destruct (existsb (fun f => Equals (FileSiaPath f) sp) filtered) eqn:Hex;
      [apply adds_no_upload_refl|].
    destruct Hcase as [Hdry|Hlisted].
    + apply adds_no_upload_same_calls.
      pose proof (handleCreate_effect file w) as (_ & _ & Hcalls & _). exact (Hcalls Hdry).
    + destruct (Hlisted relpath sp eq_refl Hsp) as (f & Hin & Heq).
      rewrite (listed_existsb _ _ _ Hin Heq) in Hex. discriminate.
  - destruct filtered; [|apply adds_no_upload_refl].
    rewrite (handleCreate_invalid _ _ _ _ Hrel Hsp). apply adds_no_upload_refl.
Qed.

(** The world a loop leaves is the one its first turn leaves, or the one
    the rest of the loop leaves after it. *)
Lemma world_of_forEach_cons {A} (body : A -> M R error) (x : A) (rest : list A)
    (w : World R) :
  world_of (forEach body (x :: rest) w) = world_of (body x w) \/
  world_of (forEach body (x :: rest) w) = world_of (forEach body rest (world_of (body x w))).
Proof.
  rewrite forEach_cons. destruct (body x w) as [[e|] w'|m w']; cbn; auto.
Qed.

(** The folder after the first loop: the root is the same and no key is new. *)
Lemma uploadNonExisting_loop_folder (filtered : list SiaFileInfo) (keys : list string) :
  forall w,
    let w' := world_of (forEach (uploadNonExistingFile (mkRenterFiles filtered)) keys w) in
    SiaFolder.path (folder w') = SiaFolder.path (folder w) /\
    forall file, is_Some (SiaFolder.files (folder w') !! file) ->
                 is_Some (SiaFolder.files (folder w) !! file) \/ file ∈ keys.
Proof.
  induction keys as [|key rest IH]; intros w; cbn zeta; [cbn; auto|].
  pose proof (uploadNonExistingFile_folder filtered key w) as (Hpath & Hfiles).
  cbn zeta in Hpath, Hfiles.
  assert (Hkeys : forall file,
            is_Some (SiaFolder.files
                       (folder (world_of (uploadNonExistingFile (mkRenterFiles filtered)
                                            key w))) !! file) ->
            is_Some (SiaFolder.files (folder w) !! file) \/ file ∈ key :: rest).
  { intros file Hsome. destruct Hfiles as [E|[c E]]; rewrite E in Hsome; [auto|].
    destruct (decide (key = file)) as [->|Hne]; [right; left|].
    rewrite lookup_insert_ne in Hsome by exact Hne. auto. }
  destruct (world_of_forEach_cons (uploadNonExistingFile (mkRenterFiles filtered)) key rest w)
    as [E|E]; rewrite E.
  - split; [exact Hpath|exact Hkeys].
  - destruct (IH (world_of (uploadNonExistingFile (mkRenterFiles filtered) key w)))
      as [Hpath' Hkeys'].
    split; [congruence|]. intros file Hsome.
    destruct (Hkeys' file Hsome) as [Hold|Hin]; [|right; right; exact Hin].
    exact (Hkeys file Hold).
Qed.

(** The first loop issues no upload when every key is listed, and none
    at all in dry-run mode. *)
Lemma uploadNonExisting_loop_quiet (filtered : list SiaFileInfo) (root : string)
    (keys : list string) :
  (dryRun = true \/
   forall file relpath sp,
     file ∈ keys ->
     filepath_Rel root file = Ok relpath ->
     NewSiaPath (filepath_Join siaStagingDir relpath) = Ok sp ->
     exists f, f ∈ filtered /\ Path (FileSiaPath f) = Path sp) ->
  forall w,
    SiaFolder.path (folder w) = root ->
    adds_no_upload w
      (world_of (forEach (uploadNonExistingFile (mkRenterFiles filtered)) keys w)).
Proof.
  induction keys as [|key rest IH]; intros Hcase w Hroot; [apply adds_no_upload_refl|].
  assert (Hbody : adds_no_upload w
            (world_of (uploadNonExistingFile (mkRenterFiles filtered) key w))).
  { apply uploadNonExistingFile_quiet. destruct Hcase as [Hdry|Hlisted]; [auto|right].
    intros relpath sp Hrel Hsp. rewrite Hroot in Hrel.
    exact (Hlisted key relpath sp (list_elem_of_here _ _) Hrel Hsp). }
  destruct (world_of_forEach_cons (uploadNonExistingFile (mkRenterFiles filtered)) key rest w)
    as [E|E]; rewrite E; [exact Hbody|].
  eapply adds_no_upload_trans; [exact Hbody|]. apply IH.
  - destruct Hcase as [Hdry|Hlisted]; [auto|right].
    intros file relpath sp Hin. apply Hlisted. right. exact Hin.
  - pose proof (uploadNonExistingFile_folder filtered key w) as [Hpath _].
    cbn zeta in Hpath. congruence.
Qed.


(** The inner loop of [uploadChanged] finds no counterpart for a path below
    the staging directory among files that are outside of it. *)
Lemma uploadChangedIn_frame (file relpath : string) (siafiles : list SiaFileInfo)
    (w : World R) :
  (forall sp, NewSiaPath (filepath_Join siaStagingDir relpath) = Ok sp ->
              HasPrefix (Path sp) (siaStagingDir ++ "/") = true) ->
  Forall (fun f => kept_by_getStagingSiaFiles f = true) siafiles ->
  world_of (uploadChangedIn file relpath siafiles w) = w.
Proof.
  intros Hbelow Hkept. induction Hkept as [|f rest Hf Hrest IH]; [reflexivity|].
  cbn [uploadChangedIn]. unfold bind at 1. rewrite getSiaPath_run.
  destruct (NewSiaPath (filepath_Join siaStagingDir relpath)) as [sp|e] eqn:Hsp;
    [|reflexivity].
  destruct (Equals (FileSiaPath f) sp) eqn:Heq; [|exact IH].
  unfold Equals in Heq. apply bool_decide_eq_true in Heq.
  unfold kept_by_getStagingSiaFiles in Hf. rewrite Heq, (Hbelow sp eq_refl) in Hf.
  discriminate.
Qed.

(** A loop whose turns leave the world alone leaves the world alone. *)
Lemma world_of_forEach_same {A} (body : A -> M R error) (l : list A) (w : World R) :
  (forall x, x ∈ l -> world_of (body x w) = w) ->
  world_of (forEach body l w) = w.
Proof.
  induction l as [|x rest IH]; intros Hsame; [reflexivity|].
  pose proof (Hsame x (list_elem_of_here _ _)) as Hx.
  destruct (world_of_forEach_cons body x rest w) as [E|E]; rewrite E; [exact Hx|].
  rewrite Hx. apply IH. intros y Hy. apply Hsame. right. exact Hy.
Qed.

(** [uploadChanged] only lists the files when every key maps below the
    staging directory. *)
Lemma uploadChanged_frame (w : World R) :
  (forall file relpath sp,
     file ∈ range_order 1 (SiaFolder.files (folder w)) ->
     filepath_Rel (SiaFolder.path (folder w)) file = Ok relpath ->
     NewSiaPath (filepath_Join siaStagingDir relpath) = Ok sp ->
     HasPrefix (Path sp) (siaStagingDir ++ "/") = true) ->
  world_of (uploadChanged w)
  = called w (CFilesGet true) (node_RenterFilesGet true (remote w)).2.
Proof.
  intros Hbelow. unfold uploadChanged, bind at 1. rewrite getStagingSiaFiles_run. cbn zeta.
  destruct (node_RenterFilesGet true (remote w)) as [[rf|e] node]; cbn [fst snd];
    [|reflexivity].
  unfold bind, get_folder. cbn [folder called].
  apply world_of_forEach_same. intros file Hin.
  unfold uploadChangedFile, bind, get_folder. cbn [folder called Files].
  destruct (filepath_Rel (SiaFolder.path (folder w)) file) as [relpath|e] eqn:Hrel;
    [|reflexivity].
  apply uploadChangedIn_frame.
  - intros sp Hsp. exact (Hbelow file relpath sp Hin Hrel Hsp).
  - apply List.Forall_forall. intros f Hf. apply List.filter_In in Hf. tauto.
Qed.

(** One callback of the walk touches the folder only, and indexes nothing
    but the regular file it is called on. *)
Lemma walkFn_frame (path : string) (e : WalkEntry) (sf : SiaFolder.t) :
  exists err sf',
    (forall (node : R) cs, walkFn path e (mkWorld sf node cs) = Done err (mkWorld sf' node cs)) /\
    SiaFolder.path sf' = SiaFolder.path sf /\
    forall file, is_Some (SiaFolder.files sf' !! file) ->
                 is_Some (SiaFolder.files sf !! file) \/
                 (walkpath e = file /\ IsDir (walkinfo e) = false).
Proof.
  unfold walkFn. destruct (walkerr e) as [err|]; [exists (Some err), sf; auto|].
  destruct (bool_decide (walkpath e = path)); [exists None, sf; auto|].
  destruct (IsDir (walkinfo e)) eqn:Hdir.
  - destruct (watcher_Add (walkpath e));
      [exists None, (SiaFolder.set_dirs <[walkpath e:=false]> sf)
      |exists None, (SiaFolder.set_dirs <[walkpath e:=false]>
                       (SiaFolder.set_watcher (fun ws => (ws ++ [walkpath e])%list) sf))];
      (split; [intros; reflexivity|]); cbn; auto.
  - destruct (checksumFile (walkpath e)) as [checksum|err].
    + exists None, (SiaFolder.set_files <[walkpath e:=checksum]> sf).
      split; [intros; reflexivity|]. cbn. split; [reflexivity|].
      intros file Hsome. destruct (decide (walkpath e = file)) as [Heq|Hne]; [auto|].
      rewrite lookup_insert_ne in Hsome by exact Hne. auto.
    + exists (Some err), sf. auto.
Qed.

(** The walk touches the folder only, and indexes nothing but regular
    files it visits. *)
Lemma walk_frame (path : string) (entries : list WalkEntry) :
  forall sf,
  exists err sf',
    (forall (node : R) cs,
       forEach (walkFn path) entries (mkWorld sf node cs) = Done err (mkWorld sf' node cs)) /\
    SiaFolder.path sf' = SiaFolder.path sf /\
    forall file, is_Some (SiaFolder.files sf' !! file) ->
                 is_Some (SiaFolder.files sf !! file) \/
                 exists e, e ∈ entries /\ walkpath e = file /\ IsDir (walkinfo e) = false.
Proof.
  induction entries as [|e rest IH]; intros sf.
  - exists None, sf. split; [reflexivity|]. auto.
  - destruct (walkFn_frame path e sf) as (err & sf1 & Hrun & Hpath & Hkeys).
    destruct err as [err|].
    + exists (Some err), sf1. split; [|split; [exact Hpath|]].
      * intros node cs. rewrite forEach_cons, Hrun. reflexivity.
      * intros file Hsome. destruct (Hkeys file Hsome) as [Hold|[Heq Hdir]]; [auto|].
        right. exists e. split; [left|auto].
    + destruct (IH sf1) as (err & sf2 & Hrun' & Hpath' & Hkeys').
      exists err, sf2. split; [|split; [congruence|]].
      * intros node cs. rewrite forEach_cons, Hrun. apply Hrun'.
      * intros file Hsome. destruct (Hkeys' file Hsome) as [Hmid|(e' & Hin & Heq & Hdir)].
        -- destruct (Hkeys file Hmid) as [Hold|[Heq Hdir]]; [auto|].
           right. exists e. split; [left|auto].
        -- right. exists e'. split; [right; exact Hin|auto].
Qed.


(** One callback of the walk: it never panics, it keeps what is registered
    and watched, and it registers and watches the directory it is called
    on unless that directory is [path]. *)
Lemma walkFn_registers (path : string) (e : WalkEntry) (w : World R) :
  exists err w',
    walkFn path e w = Done err w' /\
    (forall k, SiaFolder.dirs (folder w) !! k = Some false ->
               SiaFolder.dirs (folder w') !! k = Some false) /\
    (forall k, k ∈ SiaFolder.watcher (folder w) -> k ∈ SiaFolder.watcher (folder w')) /\
    (err = None -> IsDir (walkinfo e) = true -> walkpath e <> path ->
     SiaFolder.dirs (folder w') !! walkpath e = Some false /\
     (watcher_Add (walkpath e) = None -> walkpath e ∈ SiaFolder.watcher (folder w'))).
Proof.
  unfold walkFn. destruct (walkerr e) as [err|].
  { exists (Some err), w. repeat split; auto; discriminate. }
  destruct (bool_decide (walkpath e = path)) eqn:Hroot.
  { exists None, w. apply bool_decide_eq_true in Hroot. repeat split; auto; contradiction. }
  destruct (IsDir (walkinfo e)).
  - unfold bind, modify_folder, ret.
    destruct (watcher_Add (walkpath e)); do 2 eexists; (split; [reflexivity|]); cbn;
      repeat split; auto; try discriminate; try apply lookup_insert_eq.
    + intros k Hk. destruct (decide (walkpath e = k)) as [<-|Hne];
        [apply lookup_insert_eq|rewrite lookup_insert_ne by exact Hne; exact Hk].
    + intros k Hk. destruct (decide (walkpath e = k)) as [<-|Hne];
        [apply lookup_insert_eq|rewrite lookup_insert_ne by exact Hne; exact Hk].
    + intros k Hk. apply elem_of_app. auto.
    + intros _. apply elem_of_app. right. left.
  - destruct (checksumFile (walkpath e)) as [checksum|err].
    + unfold bind, modify_folder, ret. do 2 eexists. split; [reflexivity|]. cbn.
      repeat split; auto; discriminate.
    + exists (Some err), w. repeat split; auto; discriminate.
Qed.

(** A walk that ends without an error has registered every directory it
    visited, except one whose path is the argument [path], and has put it
    in the watch set if the watcher accepted it. *)
Lemma walk_registers_directories (path : string) (entries : list WalkEntry) :
  forall w w' : World R,
    forEach (walkFn path) entries w = Done None w' ->
    (forall k, SiaFolder.dirs (folder w) !! k = Some false ->
               SiaFolder.dirs (folder w') !! k = Some false) /\
    (forall k, k ∈ SiaFolder.watcher (folder w) -> k ∈ SiaFolder.watcher (folder w')) /\
    forall e, e ∈ entries -> IsDir (walkinfo e) = true -> walkpath e <> path ->
      SiaFolder.dirs (folder w') !! walkpath e = Some false /\
      (watcher_Add (walkpath e) = None -> walkpath e ∈ SiaFolder.watcher (folder w')).
Proof.
  induction entries as [|e rest IH]; intros w w' Hrun.
  - injection Hrun as <-. split; [auto|split; [auto|]]. intros e Hin. inversion Hin.
  - rewrite forEach_cons in Hrun.
    destruct (walkFn_registers path e w) as (err & w1 & Hstep & Hdirs & Hwatch & Hnew).
    rewrite Hstep in Hrun. destruct err as [err|]; [discriminate|].
    destruct (IH w1 w' Hrun) as (Hdirs' & Hwatch' & Hrest).
    split; [auto|]. split; [auto|].
    intros e' Hin Hdir Hne. apply elem_of_cons in Hin as [->|Hin]; [|auto].
    destruct (Hnew eq_refl Hdir Hne) as [Hreg Hadd]. split; [auto|]. auto.
Qed.

(** [NewSiafolder], phase by phase. *)
Lemma NewSiafolder_run (path : string) (w : World R) :
  NewSiafolder path w =
    match filepath_Abs path with
    | Err e => Done (Some e) w
    | Ok abspath =>
        let fresh := SiaFolder.mk abspath archive siaStagingDir siaProdDir [] ∅ ∅ in
        match fsnotify_NewWatcher with
        | Some e => Done (Some e) (mkWorld fresh (remote w) (calls w))
        | None =>
            match watcher_Add abspath with
            | Some e => Done (Some e) (mkWorld fresh (remote w) (calls w))
            | None =>
                match forEach (walkFn path) (filepath_Walk abspath)
                        (mkWorld (SiaFolder.set_watcher (fun ws => (ws ++ [abspath])%list) fresh)
                                 (remote w) (calls w)) with
                | Done (Some e) w' => Done (Some e) w'
                | Done None w' =>
                    match uploadNonExisting w' with
                    | Done (Some e) w'' => Done (Some e) w''
                    | Done None w'' => uploadChanged w''
                    | Panic m w'' => Panic m w''
                    end
                | Panic m w' => Panic m w'
                end
            end
        end
    end.
Proof.
  unfold NewSiafolder. destruct (filepath_Abs path) as [abspath|e]; [|reflexivity].
  unfold bind, modify_folder, ret. cbn [folder remote calls].
  destruct fsnotify_NewWatcher; [reflexivity|].
  destruct (watcher_Add abspath); [reflexivity|].
  destruct (forEach (walkFn path) (filepath_Walk abspath) _) as [[e|] w'|m w'];
    try reflexivity.
  destruct (uploadNonExisting w') as [[e|] w''|m w'']; reflexivity.
Qed.

(** [uploadNonExisting] in two steps. *)
Lemma uploadNonExisting_run (w : World R) :
  uploadNonExisting w =
    let answer := node_RenterFilesGet true (remote w) in
    match answer.1 with
    | Err e => Done (Some e) (called w (CFilesGet true) answer.2)
    | Ok renterFiles =>
        forEach (uploadNonExistingFile
                   (mkRenterFiles (List.filter kept_by_getSiaFiles (Files renterFiles))))
                (range_order 0 (SiaFolder.files (folder w)))
                (called w (CFilesGet true) answer.2)
    end.
Proof.
  unfold uploadNonExisting, bind at 1. rewrite getSiaFiles_run. cbn zeta.
  destruct (node_RenterFilesGet true (remote w)) as [[rf|e] node]; reflexivity.
Qed.

(** X30.  Let the node remember its uploads, let the staging and the
    production directory be two disjoint namespaces, and let every regular
    file of the tree map below the staging directory.  If a startup over a
    tree returned no error, a second startup over the same tree, against the
    node the first one left, issues no upload call, whatever else it does
    and however it ends. *)
Theorem second_startup_issues_no_upload (path : string) (w w1 : World R) :
  range_visits_keys ->
  node_remembers_uploads ->
  namespaces_disjoint ->
  (forall abspath, filepath_Abs path = Ok abspath -> walk_maps_below_staging abspath) ->
  NewSiafolder path w = Done None w1 ->
  adds_no_upload w1 (world_of (NewSiafolder path w1)).
Proof.
  intros Hrange Hnode Hdisj Hbelow Hrun1.
  rewrite NewSiafolder_run in Hrun1. rewrite NewSiafolder_run.
  destruct (filepath_Abs path) as [abspath|e]; [|discriminate].
  specialize (Hbelow abspath eq_refl). cbn zeta in *.
  destruct fsnotify_NewWatcher; [discriminate|].
  destruct (watcher_Add abspath); [discriminate|].
  destruct (walk_frame path (filepath_Walk abspath)
              (SiaFolder.set_watcher (fun ws => (ws ++ [abspath])%list)
                 (SiaFolder.mk abspath archive siaStagingDir siaProdDir [] ∅ ∅)))
    as (err & F & Hwalk & HpathF & HkeysF).
  rewrite Hwalk in Hrun1. rewrite Hwalk. clear Hwalk.
  destruct err as [e|]; [discriminate|].
  cbn [SiaFolder.path SiaFolder.set_watcher] in HpathF.
  (* every key of the walked folder maps below the staging directory *)
  assert (Hkey : forall file relpath sp,
            is_Some (SiaFolder.files F !! file) ->
            filepath_Rel abspath file = Ok relpath ->
            NewSiaPath (filepath_Join siaStagingDir relpath) = Ok sp ->
            HasPrefix (Path sp) (siaStagingDir ++ "/") = true).
  { intros file relpath sp Hsome Hrel Hsp.
    destruct (HkeysF file Hsome) as [Hempty|(e & Hin & <- & Hdir)].
    - cbn in Hempty. rewrite lookup_empty in Hempty. destruct Hempty; discriminate.
    - exact (Hbelow e relpath sp Hin Hdir Hrel Hsp). }
  set (keys := range_order 0 (SiaFolder.files F)).
  assert (Hkeys : forall file, file ∈ keys -> is_Some (SiaFolder.files F !! file))
    by (intros file; apply range_order_key; exact Hrange).
  (* a world over the walked folder keeps mapping its keys below staging *)
  assert (Hchanged : forall (w0 wx : World R) filtered,
            folder w0 = F ->
            wx = world_of (forEach (uploadNonExistingFile (mkRenterFiles filtered)) keys w0) ->
            world_of (uploadChanged wx)
            = called wx (CFilesGet true) (node_RenterFilesGet true (remote wx)).2).
  { intros w0 wx filtered HF ->. apply uploadChanged_frame.
    pose proof (uploadNonExisting_loop_folder filtered keys w0) as [Hp Hk].
    cbn zeta in Hp, Hk. rewrite HF in Hp, Hk.
    intros file relpath sp Hin Hrel Hsp. rewrite Hp, HpathF in Hrel.
    apply (Hkey file relpath sp); [|exact Hrel|exact Hsp].
    apply (range_order_key _ _ _ Hrange) in Hin.
    destruct (Hk file Hin) as [Hold|Hnew]; [exact Hold|exact (Hkeys file Hnew)]. }
  (* the first run *)
  rewrite uploadNonExisting_run in Hrun1. cbn zeta in Hrun1. cbn [folder remote] in Hrun1.
  fold keys in Hrun1.
  destruct (node_RenterFilesGet true (remote w)) as [[rf|e] node] eqn:Hget;
    cbn [fst snd] in Hrun1; [|discriminate].
  set (filtered := List.filter kept_by_getSiaFiles (Files rf)) in Hrun1.
  set (w0 := called _ (CFilesGet true) node) in Hrun1.
  destruct (forEach (uploadNonExistingFile (mkRenterFiles filtered)) keys w0)
    as [[e|] wA|m wA] eqn:Hloop; try discriminate.
  assert (HwA : wA = world_of (forEach (uploadNonExistingFile (mkRenterFiles filtered))
                                 keys w0)) by (rewrite Hloop; reflexivity).
  pose proof (Hchanged w0 wA filtered eq_refl HwA) as Hw1.
  rewrite Hrun1 in Hw1. cbn [world_of] in Hw1.
  (* what the node lists after the first run *)
  assert (Hlisted : dryRun = false ->
            forall file relpath sp,
              file ∈ keys ->
              filepath_Rel abspath file = Ok relpath ->
              NewSiaPath (filepath_Join siaStagingDir relpath) = Ok sp ->
              listed (remote w1) sp).
  { intros Hdry file relpath sp Hin Hrel Hsp. rewrite Hw1. cbn [remote called].
    apply (proj1 Hnode).
    refine (proj2 (uploadNonExisting_loop_lists filtered keys Hnode Hdry w0 wA _ Hloop)
              file relpath sp Hin _ Hsp).
    - intros f Hf. subst w0. cbn [remote called].
      replace node with (node_RenterFilesGet true (remote w)).2 by (rewrite Hget; reflexivity).
      apply (proj1 Hnode). exists rf, node. split; [exact Hget|].
      exists f. split; [|reflexivity].
      apply list_elem_of_In. apply list_elem_of_In in Hf.
      apply List.filter_In in Hf. tauto.
    - subst w0. cbn [folder called]. rewrite HpathF. exact Hrel. }
  (* the second run *)
  rewrite uploadNonExisting_run. cbn zeta. cbn [folder remote calls]. fold keys.
  destruct (node_RenterFilesGet true (remote w1)) as [[rf1|e] node1] eqn:Hget1;
    cbn [fst snd]; [|exists [CFilesGet true]; auto].
  set (filtered1 := List.filter kept_by_getSiaFiles (Files rf1)).
  set (w2 := called (mkWorld F (remote w1) (calls w1)) (CFilesGet true) node1).
  assert (Hstart : adds_no_upload w1 w2) by (exists [CFilesGet true]; auto).
  assert (Hquiet : adds_no_upload w2
            (world_of (forEach (uploadNonExistingFile (mkRenterFiles filtered1)) keys w2))).
  { apply (uploadNonExisting_loop_quiet filtered1 abspath keys); [|exact HpathF].
    destruct dryRun eqn:Hdry; [auto|right].
    intros file relpath sp Hin Hrel Hsp.
    destruct (Hlisted eq_refl file relpath sp Hin Hrel Hsp)
      as (rf' & node' & Hget' & f & Hf & Hpath).
    rewrite Hget1 in Hget'. injection Hget' as <- <-.
    exists f. split; [|exact Hpath].
    apply list_elem_of_In. apply List.filter_In. split; [apply list_elem_of_In; exact Hf|].
    unfold kept_by_getSiaFiles. rewrite Hpath.
    rewrite (Hdisj _ (Hkey file relpath sp (Hkeys file Hin) Hrel Hsp)).
    apply orb_true_r. }
  pose proof (Hchanged w2 _ filtered1 eq_refl eq_refl) as Hlast.
  destruct (forEach (uploadNonExistingFile (mkRenterFiles filtered1)) keys w2)
    as [[e|] wB|m wB]; cbn [world_of] in *.
  - eapply adds_no_upload_trans; eassumption.
  - rewrite Hlast. eapply adds_no_upload_trans; [exact Hstart|].
    eapply adds_no_upload_trans; [exact Hquiet|]. apply adds_no_upload_called. reflexivity.
  - eapply adds_no_upload_trans; eassumption.
Qed.

(** With disjoint directories [getSiaFiles] keeps every file. *)
Lemma getSiaFiles_keeps_everything (siafile : SiaFileInfo) :
  namespaces_disjoint -> kept_by_getSiaFiles siafile = true.
Proof.
  intros Hdisj. unfold kept_by_getSiaFiles.
  destruct (HasPrefix (Path (FileSiaPath siafile)) (siaStagingDir ++ "/")) eqn:Hst;
    [|reflexivity].
  rewrite (Hdisj _ Hst). reflexivity.
Qed.

End Reconciliation.

(** Two prefixes of one string are prefixes of each other, one way or the
    other. *)
Lemma prefix_both (s a b : string) :
  String.prefix a s = true -> String.prefix b s = true ->
  String.prefix a b = true \/ String.prefix b a = true.
Proof.
  revert a b. induction s as [|z s IH]; intros [|x a] [|y b]; cbn; auto; try discriminate.
  destruct (Ascii.ascii_dec x z) as [->|]; [|discriminate].
  destruct (Ascii.ascii_dec y z) as [->|]; [|discriminate].
  destruct (Ascii.ascii_dec z z) as [_|Hne]; [|destruct (Hne eq_refl)].
  apply IH.
Qed.

(** The directories of [flags] are disjoint. *)
Lemma flags_namespaces_disjoint (a d : bool) : namespaces_disjoint (G := flags a d).
Proof.
  intros s Hst.
  change (String.prefix "fuse/staging/" s = true) in Hst.
  change (String.prefix "fuse/prod/" s = false).
  destruct (String.prefix "fuse/prod/" s) eqn:Hpr; [|reflexivity].
  destruct (prefix_both _ _ _ Hst Hpr); discriminate.
Qed.

(** The reference host visits every key once. *)
Lemma Unix_range_visits_keys (tree : list (string * FileInfo)) :
  range_visits_keys (H := Unix.host tree).
Proof. intros n m. reflexivity. Qed.

(** The reference node remembers its uploads. *)
Lemma Node_remembers_uploads (H : Host) : node_remembers_uploads (C := @Node.client H).
Proof.
  assert (Hlist : forall n sp, listed (C := @Node.client H) n sp <->
                    Node.online n = true /\
                    exists f, f ∈ Node.files n /\ Path (FileSiaPath f) = Path sp).
  { intros n sp. unfold listed. cbn. unfold Node.FilesGet. split.
    - intros (rf & n' & Hget & f & Hin & Hp). destruct (Node.online n); [|discriminate].
      cbn in Hget. injection Hget as <- <-. eauto.
    - intros (Hon & f & Hin & Hp). rewrite Hon. cbn. eauto 6. }
  split.
  - intros n sp Hl. cbn. unfold Node.FilesGet. destruct (negb (Node.online n)); exact Hl.
  - intros path sp dp pp n. cbn. unfold Node.UploadPost.
    destruct (Node.online n) eqn:Hon; cbn; [|discriminate].
    destruct (Node.has_file sp n); cbn; [discriminate|].
    destruct (os_Stat path) as [info|e]; cbn; [|discriminate].
    intros _. split.
    + apply Hlist. cbn. split; [reflexivity|].
      exists (mkSiaFileInfo (Size info) sp). split; [|reflexivity].
      apply elem_of_app. right. left.
    + intros sp' Hl. apply Hlist in Hl as (_ & f & Hin & Hp). apply Hlist. cbn.
      split; [reflexivity|]. exists f. split; [|exact Hp]. apply elem_of_app. auto.
Qed.

(** The two files of [sync_tree] map below [fuse/staging]. *)
Lemma sync_tree_maps_below_staging (a d : bool) :
  walk_maps_below_staging (G := flags a d) (H := sync_host) "/home/eddie/sync".
Proof.
  intros e relpath sp Hin Hfile Hrel Hsp.
  change (filepath_Walk (Host := sync_host) "/home/eddie/sync")
    with (Unix.Walk sync_tree "/home/eddie/sync") in Hin.
  vm_compute in Hin.
  repeat (apply elem_of_cons in Hin as [->|Hin]); try discriminate;
    try (vm_compute in Hrel; injection Hrel as <-;
         vm_compute in Hsp; injection Hsp as <-; reflexivity).
  inversion Hin.
Qed.

(** X30 on [sync_tree]: the first startup uploads both files to an empty
    node, the second one only lists the files. *)
Lemma second_startup_issues_no_upload_witness :
  (range_visits_keys (H := sync_host) /\
   node_remembers_uploads (C := sync_client) /\
   namespaces_disjoint (G := flags true false) /\
   (forall abspath,
      filepath_Abs (Host := sync_host) "/home/eddie/sync" = Ok abspath ->
      walk_maps_below_staging (G := flags true false) (H := sync_host) abspath) /\
   NewSiafolder (G := flags true false) (H := sync_host) (C := sync_client)
     "/home/eddie/sync" (boot Node.empty) = Done None first_run_world) /\
  adds_no_upload first_run_world
    (world_of (NewSiafolder (G := flags true false) (H := sync_host) (C := sync_client)
                 "/home/eddie/sync" first_run_world)).
Proof.
  assert (Hbelow : forall abspath,
            filepath_Abs (Host := sync_host) "/home/eddie/sync" = Ok abspath ->
            walk_maps_below_staging (G := flags true false) (H := sync_host) abspath).
  { intros abspath [= <-]. apply sync_tree_maps_below_staging. }
  assert (Hrun : NewSiafolder (G := flags true false) (H := sync_host) (C := sync_client)
                   "/home/eddie/sync" (boot Node.empty) = Done None first_run_world)
    by (vm_compute; reflexivity).
  split.
  - split; [apply Unix_range_visits_keys|].
    split; [apply Node_remembers_uploads|].
    split; [apply flags_namespaces_disjoint|].
    split; [exact Hbelow|exact Hrun].
  - exact (second_startup_issues_no_upload
             (G := flags true false) (H := sync_host) (C := sync_client)
             "/home/eddie/sync" (boot Node.empty) first_run_world
             (Unix_range_visits_keys sync_tree) (Node_remembers_uploads sync_host)
             (flags_namespaces_disjoint true false) Hbelow Hrun).
Defined.

(** C6 fails when the two directories overlap.  When both flags name the
    same directory, or the production directory contains the staging
    directory, [getSiaFiles] drops every file below the staging directory,
    as the negated tests of C3 make it do for every path that lies below
    both directories, and the second startup over the same tree tries to
    upload a file the node holds since the first. *)
Lemma second_startup_uploads_again_when_directories_coincide :
  let upload := CUpload "/home/eddie/sync/sub/b.txt" (mkSiaPath "fuse/staging/sub/b.txt") 10 30 in
  (exists w1 e w2,
     NewSiafolder (G := coinciding) (H := sync_host) (C := sync_client)
       "/home/eddie/sync" (boot Node.empty) = Done None w1 /\
     NewSiafolder (G := coinciding) (H := sync_host) (C := sync_client)
       "/home/eddie/sync" w1 = Done (Some e) w2 /\
     calls w2 = (calls w1 ++ [CFilesGet true; upload])%list) /\
  (exists w1 e w2,
     NewSiafolder (G := nested) (H := sync_host) (C := sync_client)
       "/home/eddie/sync" (boot Node.empty) = Done None w1 /\
     NewSiafolder (G := nested) (H := sync_host) (C := sync_client)
       "/home/eddie/sync" w1 = Done (Some e) w2 /\
     calls w2 = (calls w1 ++ [CFilesGet true; upload])%list).
Proof.
  cbn zeta. split.
  - do 3 eexists. split; [vm_compute; reflexivity|].
    split; [vm_compute; reflexivity|reflexivity].
  - do 3 eexists. split; [vm_compute; reflexivity|].
    split; [vm_compute; reflexivity|reflexivity].
Qed.

(** C3 fails on a node that holds a file outside both directories: the
    listing [uploadNonExisting] works from contains [backups/old.tar]. *)
Lemma getSiaFiles_returns_foreign_file :
  let foreign := mkSiaFileInfo 99 (mkSiaPath "backups/old.tar") in
  HasPrefix (Path (FileSiaPath foreign)) "fuse/staging/" = false /\
  HasPrefix (Path (FileSiaPath foreign)) "fuse/prod/" = false /\
  getSiaFiles (G := flags true false) (C := sync_client)
    (mkWorld (synced_folder true) mixed_node [])
  = Done (Ok (mkRenterFiles (Node.files mixed_node)))
         (mkWorld (synced_folder true) mixed_node [CFilesGet true]).
Proof. repeat split. Qed.

(** C4 fails after [a.txt] was rewritten to 20 bytes while the node holds
    the 10 bytes uploaded before: [getStagingSiaFiles] drops the files of
    the staging directory, [uploadChanged] finds no counterpart, and the
    startup issues no upload. *)
Lemma uploadChanged_misses_staged_file :
  getStagingSiaFiles (G := flags true false) (C := rewritten_client)
    (mkWorld (synced_folder true) mixed_node [])
  = Done (Ok (mkRenterFiles [ mkSiaFileInfo 5 (mkSiaPath "fuse/prod/sub/b.txt");
                              mkSiaFileInfo 99 (mkSiaPath "backups/old.tar") ]))
         (mkWorld (synced_folder true) mixed_node [CFilesGet true]) /\
  checksumFile (H := rewritten_host) "/home/eddie/sync/a.txt" = Ok "20" /\
  exists w',
    NewSiafolder (G := flags true false) (H := rewritten_host) (C := rewritten_client)
      "/home/eddie/sync" (boot synced_node) = Done None w' /\
    calls w' = [CFilesGet true; CFilesGet true] /\
    remote w' = synced_node.
Proof.
  repeat split. eexists. split; [vm_compute; reflexivity|]. split; reflexivity.
Qed.

(** C9 fails when the root is given as a relative path: the walk visits
    the root under its absolute path, the test against [path] does not
    recognise it, and the root is entered in the directory index. *)
Lemma NewSiafolder_registers_relative_root :
  filepath_Abs (Host := sync_host) "sync" = Ok "/home/eddie/sync" /\
  exists w',
    NewSiafolder (G := flags true false) (H := sync_host) (C := sync_client)
      "sync" (boot Node.empty) = Done None w' /\
    SiaFolder.dirs (folder w') !! "/home/eddie/sync" = Some false /\
    SiaFolder.dirs (folder w') !! "/home/eddie/sync/sub" = Some false.
Proof.
  split; [reflexivity|]. eexists. split; [vm_compute; reflexivity|]. split; reflexivity.
Qed.

(** ** Further properties of the handlers *)

Section MoreHandlers.
Context {G : Globals} {H : Host} {R : Type} {C : Client R}.

(** X1.  [contains] decides membership. *)
Theorem contains_iff_elem (a : list string) (x : string) :
  contains a x = true <-> x ∈ a.
Proof.
  induction a as [|n rest IH]; cbn.
  - split; [discriminate|]. intros Hin. inversion Hin.
  - destruct (bool_decide (x = n)) eqn:Hx.
    + apply bool_decide_eq_true in Hx as ->. split; [left|reflexivity].
    + apply bool_decide_eq_false in Hx. rewrite IH. split; [right; assumption|].
      intros Hin. apply elem_of_cons in Hin as [Heq|Hin]; [contradiction|exact Hin].
Qed.

(** X2.  Two files have the same fingerprint exactly when they have the same
    size. *)
Theorem checksumFile_eq_iff_same_size (p q : string) (ip iq : FileInfo) :
  os_Stat p = Ok ip -> os_Stat q = Ok iq ->
  (checksumFile p = checksumFile q <-> Size ip = Size iq).
Proof.
  intros Hp Hq. unfold checksumFile, sizeFile. rewrite Hp, Hq. split.
  - intros [= Heq]. unfold FormatInt in Heq. exact (pretty_Z_inj _ _ Heq).
  - intros ->. reflexivity.
Qed.

Lemma touches_only_refl (file : string) (sf : SiaFolder.t) : touches_only file sf sf.
Proof. repeat split. Qed.

Lemma touches_only_trans (file : string) (sf1 sf2 sf3 : SiaFolder.t) :
  touches_only file sf1 sf2 -> touches_only file sf2 sf3 -> touches_only file sf1 sf3.
Proof.
  intros (? & ? & ? & ? & ? & ? & Hk) (? & ? & ? & ? & ? & ? & Hk').
  repeat split; try congruence. intros k Hne. rewrite (Hk' k Hne). exact (Hk k Hne).
Qed.

Lemma touches_only_insert (file checksum : string) (sf : SiaFolder.t) :
  touches_only file sf (SiaFolder.set_files (insert file checksum) sf).
Proof.
  repeat split. intros k Hne. cbn. apply lookup_insert_ne. congruence.
Qed.

Lemma touches_only_delete (file : string) (sf : SiaFolder.t) :
  touches_only file sf (SiaFolder.set_files (delete file) sf).
Proof.
  repeat split. intros k Hne. cbn. apply lookup_delete_ne. congruence.
Qed.

Lemma issues_only_refl (allowed : Call -> bool) (w : World R) : issues_only allowed w w.
Proof. exists []. rewrite app_nil_r. auto. Qed.

Lemma issues_only_same_calls (allowed : Call -> bool) (w w' : World R) :
  calls w' = calls w -> issues_only allowed w w'.
Proof. intros E. exists []. rewrite app_nil_r. auto. Qed.

Lemma issues_only_trans (allowed : Call -> bool) (w1 w2 w3 : World R) :
  issues_only allowed w1 w2 -> issues_only allowed w2 w3 -> issues_only allowed w1 w3.
Proof.
  intros (cs & E & Hcs) (cs' & E' & Hcs'). exists (cs ++ cs')%list. split.
  - rewrite E', E, <- app_assoc. reflexivity.
  - rewrite forallb_app, Hcs, Hcs'. reflexivity.
Qed.

Lemma issues_only_called (allowed : Call -> bool) (w : World R) (c : Call) (node : R) :
  allowed c = true -> issues_only allowed w (called w c node).
Proof. intros Hc. exists [c]. cbn. rewrite Hc. auto. Qed.

Lemma issues_only_weaken (allowed allowed' : Call -> bool) (w w' : World R) :
  (forall c, allowed c = true -> allowed' c = true) ->
  issues_only allowed w w' -> issues_only allowed' w w'.
Proof.
  intros Himp (cs & E & Hcs). exists cs. split; [exact E|].
  apply forallb_forall. intros c Hin. apply Himp.
  rewrite forallb_forall in Hcs. exact (Hcs c Hin).
Qed.

(** What [handleCreate] does, in every case. *)
Lemma handleCreate_summary (file : string) (w : World R) :
  let o := handleCreate file w in
  issues_only (fun c => standard_upload c && negb dryRun) w (world_of o) /\
  ((exists c w', o = Done None w' /\ checksumFile file = Ok c /\
                 folder w' = SiaFolder.set_files (insert file c) (folder w)) \/
   ((forall w', o <> Done None w') /\ folder (world_of o) = folder w)).
Proof.
  cbn zeta. remember (handleCreate file w) as o eqn:Ho.
  unfold handleCreate, Errorf1, Errorf2, bind, get_folder, getSiaPath, newSiaPath,
    ret, panic, modify_folder, RenterUploadPost, invoke in Ho.
  destruct (filepath_Abs file) as [abspath|e];
    [|subst o; split; [apply issues_only_same_calls; reflexivity|right; split; [congruence|reflexivity]]].
  destruct (filepath_Rel (SiaFolder.path (folder w)) file) as [relpath|e];
    [|subst o; split; [apply issues_only_same_calls; reflexivity|right; split; [congruence|reflexivity]]].
  destruct (NewSiaPath (filepath_Join siaStagingDir relpath)) as [sp|e];
    [|subst o; split; [apply issues_only_same_calls; reflexivity|right; split; [congruence|reflexivity]]].
  destruct dryRun.
  - destruct (checksumFile file) as [c|e]; subst o; cbn;
      (split; [apply issues_only_same_calls; reflexivity|]).
    + left. eauto.
    + right. split; [congruence|reflexivity].
  - destruct (node_RenterUploadPost abspath sp dataPieces parityPieces (remote w))
      as [[e|] node]; cbn in Ho.
    + subst o. split; [exists [CUpload abspath sp dataPieces parityPieces]; auto|].
      right. split; [congruence|reflexivity].
    + destruct (checksumFile file) as [c|e]; subst o; cbn;
        (split; [exists [CUpload abspath sp dataPieces parityPieces]; auto|]).
      * left. eauto.
      * right. split; [congruence|reflexivity].
Qed.

(** What [handleRemove] does, in every case. *)
Lemma handleRemove_summary (file : string) (w : World R) :
  let o := handleRemove file w in
  issues_only (fun c => is_delete c && negb dryRun) w (world_of o) /\
  ((exists w', o = Done None w' /\
               folder w' = SiaFolder.set_files (delete file) (folder w)) \/
   ((forall w', o <> Done None w') /\ folder (world_of o) = folder w)).
Proof.
  cbn zeta. remember (handleRemove file w) as o eqn:Ho.
  unfold handleRemove, Errorf1, Errorf2, bind, get_folder, getSiaPath, newSiaPath,
    ret, panic, modify_folder, RenterDeletePost, invoke in Ho.
  destruct (filepath_Rel (SiaFolder.path (folder w)) file) as [relpath|e];
    [|subst o; split; [apply issues_only_same_calls; reflexivity|right; split; [congruence|reflexivity]]].
  destruct dryRun.
  - subst o. cbn. split; [apply issues_only_same_calls; reflexivity|]. left. eauto.
  - destruct (NewSiaPath (filepath_Join siaStagingDir relpath)) as [sp|e];
      [|subst o; split; [apply issues_only_same_calls; reflexivity|right; split; [congruence|reflexivity]]].
    destruct (node_RenterDeletePost sp (remote w)) as [[e|] node]; cbn in Ho; subst o; cbn;
      (split; [exists [CDelete sp]; auto|]).
    + right. split; [congruence|reflexivity].
    + left. eauto.
Qed.


Lemma mode_allows_upload (a : bool) (c : Call) :
  standard_upload c && negb dryRun = true -> mode_allows a dryRun c = true.
Proof. destruct c; cbn [mode_allows]; try discriminate. rewrite andb_comm. auto. Qed.

Lemma mode_allows_delete (c : Call) :
  is_delete c && negb dryRun = true -> mode_allows false dryRun c = true.
Proof. destruct c; cbn; try (intros; discriminate). rewrite andb_true_r. auto. Qed.

Lemma mode_allows_archive (a a' : bool) (c : Call) :
  (a' = true -> a = true) -> mode_allows a dryRun c = true -> mode_allows a' dryRun c = true.
Proof.
  intros Himp. destruct c; cbn; auto.
  destruct dryRun, a, a'; cbn; auto; intros _; specialize (Himp eq_refl); discriminate.
Qed.

(** What [handleFileWrite] does, in every case. *)
Lemma handleFileWrite_summary (file : string) (w : World R) :
  let o := handleFileWrite file w in
  touches_only file (folder w) (folder (world_of o)) /\
  issues_only (mode_allows (SiaFolder.archive (folder w)) dryRun) w (world_of o) /\
  (world_of o = w \/
   exists old c, SiaFolder.files (folder w) !! file = Some old /\
                 checksumFile file = Ok c /\ old <> c) /\
  (forall w', o = Done None w' ->
     exists c, checksumFile file = Ok c /\
               (SiaFolder.files (folder w') !! file = Some c \/
                (w' = w /\ SiaFolder.files (folder w) !! file = None))).
Proof.
  cbn zeta. remember (handleFileWrite file w) as o eqn:Ho. unfold handleFileWrite in Ho.
  destruct (checksumFile file) as [c|e] eqn:Hsum.
  2:{ subst o. cbn. split; [apply touches_only_refl|]. split; [apply issues_only_refl|].
      split; [auto|]. intros w' [=]. }
  unfold bind at 1, get_folder in Ho. cbn beta iota in Ho.
  destruct (SiaFolder.files (folder w) !! file) as [old|] eqn:Hold.
  2:{ subst o. cbn. split; [apply touches_only_refl|]. split; [apply issues_only_refl|].
      split; [auto|]. intros w' [= <-]. eauto. }
  destruct (bool_decide (old <> c)) eqn:Hne.
  2:{ apply bool_decide_eq_false in Hne. apply dec_stable in Hne. subst old o. cbn.
      split; [apply touches_only_refl|]. split; [apply issues_only_refl|].
      split; [auto|]. intros w' [= <-]. eauto. }
  apply bool_decide_eq_true in Hne.
  unfold bind at 1, modify_folder in Ho. cbn beta iota in Ho.
  set (w0 := mkWorld (SiaFolder.set_files (insert file c) (folder w)) (remote w) (calls w))
    in Ho.
  assert (Hw0 : touches_only file (folder w) (folder w0)) by apply touches_only_insert.
  assert (Hc0 : issues_only (mode_allows (SiaFolder.archive (folder w)) dryRun) w w0)
    by (apply issues_only_same_calls; reflexivity).
  assert (Hstale : exists old c, SiaFolder.files (folder w) !! file = Some old /\
                                 checksumFile file = Ok c /\ old <> c) by eauto.
  assert (Hcreate : forall w1,
            touches_only file (folder w) (folder w1) ->
            issues_only (mode_allows (SiaFolder.archive (folder w)) dryRun) w w1 ->
            touches_only file (folder w) (folder (world_of (handleCreate file w1))) /\
            issues_only (mode_allows (SiaFolder.archive (folder w)) dryRun) w
              (world_of (handleCreate file w1)) /\
            forall w', handleCreate file w1 = Done None w' ->
              exists c, checksumFile file = Ok c /\
                        (SiaFolder.files (folder w') !! file = Some c \/
                         (w' = w /\ SiaFolder.files (folder w) !! file = None))).
  { intros w1 Ht Hi. destruct (handleCreate_summary file w1) as [Hcalls Hcase].
    cbn zeta in Hcalls, Hcase.
    assert (Hcalls' : issues_only (mode_allows (SiaFolder.archive (folder w)) dryRun) w
                        (world_of (handleCreate file w1))).
    { eapply issues_only_trans; [exact Hi|].
      eapply issues_only_weaken; [|exact Hcalls]. apply mode_allows_upload. }
    destruct Hcase as [(c' & w' & Ho' & Hsum' & Hf)|[Hfail Hf]].
    - rewrite Ho'. cbn [world_of]. rewrite Ho' in Hcalls'. split; [|split; [exact Hcalls'|]].
      + rewrite Hf. eapply touches_only_trans; [exact Ht|apply touches_only_insert].
      + intros w'' [= <-]. exists c'. split; [exact Hsum'|left].
        rewrite Hf. cbn. apply lookup_insert_eq.
    - rewrite Hf. split; [exact Ht|]. split; [exact Hcalls'|].
      intros w' Ho'. destruct (Hfail w' Ho'). }
  unfold bind at 1 in Ho. destruct (SiaFolder.archive (folder w)) eqn:Harch.
  - cbn [ret] in Ho. subst o. destruct (Hcreate w0 Hw0 Hc0) as (Ht & Hi & Hs).
    split; [exact Ht|]. split; [exact Hi|]. split; [right; exists old, c; auto|].
    intros w' Hw'. destruct (Hs w' Hw') as (c1 & Hc1 & [Hin|[-> Hnone]]);
      exists c1; (split; [congruence|]); [left; exact Hin|right; split; congruence].
  - destruct (handleRemove_summary file w0) as [Hcalls Hcase]. cbn zeta in Hcalls, Hcase.
    assert (Hcalls' : issues_only (mode_allows false dryRun) w
                        (world_of (handleRemove file w0))).
    { eapply issues_only_trans; [exact Hc0|].
      eapply issues_only_weaken; [|exact Hcalls]. apply mode_allows_delete. }
    destruct (handleRemove file w0) as [[e|] w1|m w1] eqn:Hrm; cbn [world_of] in *; subst o.
    + assert (Hf : folder w1 = folder w0).
      { destruct Hcase as [(w' & [=] & _)|[_ Hf]]. exact Hf. }
      cbn [ret world_of]. split; [rewrite Hf; exact Hw0|]. split; [exact Hcalls'|].
      split; [right; exists old, c; auto|]. intros w' [=].
    + assert (Hf : folder w1 = SiaFolder.set_files (delete file) (folder w0)).
      { destruct Hcase as [(w' & [= <-] & Hf)|[Hfail _]]; [exact Hf|].
        destruct (Hfail w1 eq_refl). }
      assert (Ht1 : touches_only file (folder w) (folder w1)).
      { rewrite Hf. eapply touches_only_trans; [exact Hw0|apply touches_only_delete]. }
      destruct (Hcreate w1 Ht1 Hcalls') as (Ht & Hi & Hs).
      split; [exact Ht|]. split; [exact Hi|]. split; [right; exists old, c; auto|].
    intros w' Hw'. destruct (Hs w' Hw') as (c1 & Hc1 & [Hin|[-> Hnone]]);
      exists c1; (split; [congruence|]); [left; exact Hin|right; split; congruence].
    + assert (Hf : folder w1 = folder w0).
      { destruct Hcase as [(w' & [=] & _)|[_ Hf]]. exact Hf. }
      cbn [world_of]. split; [rewrite Hf; exact Hw0|]. split; [exact Hcalls'|].
      split; [right; exists old, c; auto|]. intros w' [=].
Qed.

(** What [isFile] does, in every case. *)
Lemma isFile_summary (file : string) (w : World R) :
  folder (world_of (isFile file w)) = folder w /\
  issues_only (fun c => match c with CFileGet _ => true | _ => false end)
    w (world_of (isFile file w)).
Proof.
  unfold isFile, bind, get_folder, newSiaPath, RenterFileGet, invoke, ret, panic.
  destruct (filepath_Rel (SiaFolder.path (folder w)) file) as [relpath|e];
    [|split; [reflexivity|apply issues_only_refl]].
  destruct (NewSiaPath relpath) as [sp|e]; [|split; [reflexivity|apply issues_only_refl]].
  destruct (node_RenterFileGet sp (remote w)) as [r node]. cbn.
  split; [reflexivity|]. exists [CFileGet sp]. auto.
Qed.

(** What [uploadRetry] does, in every case. *)
Lemma uploadRetry_summary (filename : string) (w : World R) :
  touches_only filename (folder w) (folder (world_of (uploadRetry filename w))) /\
  issues_only (mode_allows archive dryRun) w (world_of (uploadRetry filename w)).
Proof.
  assert (Hcreate : forall w1,
            touches_only filename (folder w1) (folder (world_of (handleCreate filename w1))) /\
            issues_only (mode_allows archive dryRun) w1
              (world_of (handleCreate filename w1))).
  { intros w1. destruct (handleCreate_summary filename w1) as [Hcalls Hcase].
    cbn zeta in Hcalls, Hcase. split.
    - destruct Hcase as [(c & w' & Ho & _ & Hf)|[_ Hf]].
      + rewrite Ho. cbn. rewrite Hf. apply touches_only_insert.
      + rewrite Hf. apply touches_only_refl.
    - eapply issues_only_weaken; [|exact Hcalls]. apply mode_allows_upload. }
  remember (uploadRetry filename w) as o eqn:Ho.
  unfold uploadRetry, bind at 1 in Ho.
  destruct (Hcreate w) as [Ht1 Hi1].
  destruct (handleCreate filename w) as [[e|] w1|m w1] eqn:Hfirst; cbn [world_of] in *;
    [|subst o; auto|subst o; auto].
  unfold bind at 1 in Ho. destruct (isFile_summary filename w1) as [Hf2 Hi2].
  assert (Hi2' : issues_only (mode_allows archive dryRun) w1 (world_of (isFile filename w1))).
  { eapply issues_only_weaken; [|exact Hi2]. intros []; cbn; auto; discriminate. }
  destruct (isFile filename w1) as [r w2|m w2]; cbn [world_of] in *.
  2:{ subst o. cbn [world_of]. split; [rewrite Hf2; exact Ht1|].
      eapply issues_only_trans; eassumption. }
  assert (Ht2 : touches_only filename (folder w) (folder w2)) by (rewrite Hf2; exact Ht1).
  assert (Hc2 : issues_only (mode_allows archive dryRun) w w2)
    by (eapply issues_only_trans; eassumption).
  unfold bind at 1 in Ho.
  assert (Hrest : forall w3,
            touches_only filename (folder w) (folder w3) ->
            issues_only (mode_allows archive dryRun) w w3 ->
            touches_only filename (folder w)
              (folder (world_of (bind (handleCreate filename) (fun _ => ret tt) w3))) /\
            issues_only (mode_allows archive dryRun) w
              (world_of (bind (handleCreate filename) (fun _ => ret tt) w3))).
  { intros w3 Ht Hi. destruct (Hcreate w3) as [Ht' Hi'].
    unfold bind. destruct (handleCreate filename w3) as [a w4|m w4]; cbn [world_of ret] in *;
      (split; [eapply touches_only_trans|eapply issues_only_trans]; eassumption). }
  destruct (fst r && negb archive) eqn:Hdel.
  - unfold bind at 1 in Ho.
    destruct (handleRemove_summary filename w2) as [Hcalls Hcase]. cbn zeta in Hcalls, Hcase.
    assert (Hcalls' : issues_only (mode_allows archive dryRun) w2
                        (world_of (handleRemove filename w2))).
    { eapply issues_only_weaken; [|exact Hcalls]. intros c Hc.
      apply andb_true_iff in Hdel as [_ Harch]. apply negb_true_iff in Harch.
      rewrite Harch. apply mode_allows_delete. exact Hc. }
    assert (Ht3 : touches_only filename (folder w2)
                    (folder (world_of (handleRemove filename w2)))).
    { destruct Hcase as [(w' & Ho' & Hf)|[_ Hf]].
      - rewrite Ho'. cbn. rewrite Hf. apply touches_only_delete.
      - rewrite Hf. apply touches_only_refl. }
    destruct (handleRemove filename w2) as [a w3|m w3]; cbn [world_of ret] in *; subst o.
    + apply Hrest; [eapply touches_only_trans|eapply issues_only_trans]; eassumption.
    + cbn [world_of].
      split; [eapply touches_only_trans|eapply issues_only_trans]; eassumption.
  - cbn [ret] in Ho. subst o. apply Hrest; assumption.
Qed.

Lemma keeps_settings_refl (sf : SiaFolder.t) : keeps_settings sf sf.
Proof. repeat split. Qed.

Lemma keeps_settings_trans (sf1 sf2 sf3 : SiaFolder.t) :
  keeps_settings sf1 sf2 -> keeps_settings sf2 sf3 -> keeps_settings sf1 sf3.
Proof.
  intros (Ha & Hb & Hc & Hd) (Ha' & Hb' & Hc' & Hd').
  repeat split; congruence.
Qed.

Lemma only_files_refl (sf : SiaFolder.t) : only_files sf sf.
Proof. split; [apply keeps_settings_refl|split; reflexivity]. Qed.

Lemma only_files_trans (sf1 sf2 sf3 : SiaFolder.t) :
  only_files sf1 sf2 -> only_files sf2 sf3 -> only_files sf1 sf3.
Proof.
  intros (Hs & Hw & Hd) (Hs' & Hw' & Hd').
  split; [eapply keeps_settings_trans; eassumption|split; congruence].
Qed.

Lemma touches_only_only_files (file : string) (sf sf' : SiaFolder.t) :
  touches_only file sf sf' -> only_files sf sf'.
Proof.
  intros (Ha & Hb & Hc & Hd & Hw & Hdirs & _). repeat split; assumption.
Qed.

Lemma only_files_set_files (f : gmap string string -> gmap string string)
    (sf : SiaFolder.t) :
  only_files sf (SiaFolder.set_files f sf).
Proof. repeat split. Qed.

Lemma within_mode_refl (w : World R) : within_mode w w.
Proof. split; [apply keeps_settings_refl|apply issues_only_refl]. Qed.

Lemma within_mode_trans (w1 w2 w3 : World R) :
  within_mode w1 w2 -> within_mode w2 w3 -> within_mode w1 w3.
Proof.
  intros [Hs Hi] [Hs' Hi']. split; [eapply keeps_settings_trans; eassumption|].
  destruct Hs as (_ & Harch & _). rewrite Harch in Hi'.
  eapply issues_only_trans; eassumption.
Qed.

Lemma within_mode_same_calls (w w' : World R) :
  keeps_settings (folder w) (folder w') -> calls w' = calls w -> within_mode w w'.
Proof. intros Hs Hc. split; [exact Hs|apply issues_only_same_calls; exact Hc]. Qed.

Lemma world_of_bind {A B} (m : M R A) (k : A -> M R B) (w : World R) :
  world_of (bind m k w) =
    match m w with
    | Done a w' => world_of (k a w')
    | Panic _ w' => w'
    end.
Proof. unfold bind. destruct (m w); reflexivity. Qed.

(** A relation that holds across [m] and across every continuation holds
    across [bind m k], when it is transitive. *)
Lemma bind_related {A B} (P : World R -> World R -> Prop) (m : M R A) (k : A -> M R B)
    (w : World R) :
  (forall w1 w2 w3, P w1 w2 -> P w2 w3 -> P w1 w3) ->
  P w (world_of (m w)) ->
  (forall a w', m w = Done a w' -> P w' (world_of (k a w'))) ->
  P w (world_of (bind m k w)).
Proof.
  intros Htrans Hm Hk. rewrite world_of_bind.
  destruct (m w) as [a w'|msg w'] eqn:Hrun; cbn [world_of] in Hm; [|exact Hm].
  eapply Htrans; [exact Hm|]. apply Hk. reflexivity.
Qed.

Lemma handleFileWrite_within_mode (file : string) (w : World R) :
  within_mode w (world_of (handleFileWrite file w)) /\
  only_files (folder w) (folder (world_of (handleFileWrite file w))).
Proof.
  destruct (handleFileWrite_summary file w) as (Ht & Hi & _). cbn zeta in Ht, Hi.
  apply touches_only_only_files in Ht. split; [|exact Ht].
  split; [exact (proj1 Ht)|].
  eapply issues_only_weaken; [|exact Hi]. intros c.
  apply mode_allows_archive. intros Hboth. apply andb_true_iff in Hboth. tauto.
Qed.

Lemma uploadRetry_within_mode (file : string) (w : World R) :
  within_mode w (world_of (uploadRetry file w)) /\
  only_files (folder w) (folder (world_of (uploadRetry file w))).
Proof.
  destruct (uploadRetry_summary file w) as (Ht & Hi).
  apply touches_only_only_files in Ht. split; [|exact Ht].
  split; [exact (proj1 Ht)|].
  eapply issues_only_weaken; [|exact Hi]. intros c.
  apply mode_allows_archive. intros Hboth. apply andb_true_iff in Hboth. tauto.
Qed.

Lemma within_mode_only_files_trans (w1 w2 w3 : World R) :
  within_mode w1 w2 /\ only_files (folder w1) (folder w2) ->
  within_mode w2 w3 /\ only_files (folder w2) (folder w3) ->
  within_mode w1 w3 /\ only_files (folder w1) (folder w3).
Proof.
  intros [Hm Ho] [Hm' Ho'].
  split; [eapply within_mode_trans|eapply only_files_trans]; eassumption.
Qed.

(** X3.  [handleCreate] issues uploads only, with 10 data and 30 parity
    pieces, and none in dry-run mode.  When it returns no error the index
    holds the current fingerprint of the file; in every other case the
    folder is as it was. *)
Theorem handleCreate_indexes_exactly_on_success (file : string) (w : World R) :
  issues_only (fun c => standard_upload c && negb dryRun) w (world_of (handleCreate file w)) /\
  ((exists c w', handleCreate file w = Done None w' /\ checksumFile file = Ok c /\
                 folder w' = SiaFolder.set_files (insert file c) (folder w)) \/
   ((forall w', handleCreate file w <> Done None w') /\
    folder (world_of (handleCreate file w)) = folder w)).
Proof. exact (handleCreate_summary file w). Qed.

Lemma handleFileWrite_idle (file : string) (w : World R) :
  (forall old c, SiaFolder.files (folder w) !! file = Some old ->
                 checksumFile file = Ok c -> old = c) ->
  handleFileWrite file w =
    Done (match checksumFile file with Err e => Some e | Ok _ => None end) w.
Proof.
  intros Hfresh. unfold handleFileWrite.
  destruct (checksumFile file) as [c|e]; [|reflexivity].
  unfold bind, get_folder.
  destruct (SiaFolder.files (folder w) !! file) as [old|]; [|reflexivity].
  rewrite (Hfresh old c eq_refl eq_refl).
  rewrite bool_decide_eq_false_2; [reflexivity|]. intros Hne. apply Hne. reflexivity.
Qed.

(** X4.  [handleFileWrite] on a file that is not in the index, or whose indexed
    fingerprint is the current one, leaves the world as it is and returns
    the error of [checksumFile], if any. *)
Theorem handleFileWrite_acts_on_stale_entries_only (file : string) (w : World R) :
  (forall old c, SiaFolder.files (folder w) !! file = Some old ->
                 checksumFile file = Ok c -> old = c) ->
  handleFileWrite file w =
    Done (match checksumFile file with Err e => Some e | Ok _ => None end) w.
Proof. exact (handleFileWrite_idle file w). Qed.

(** X5.  When [handleFileWrite] returns no error, the file is either still
    absent from the index, with the world untouched, or indexed under its
    current fingerprint. *)
Theorem handleFileWrite_success_leaves_current_fingerprint
    (file : string) (w w' : World R) :
  handleFileWrite file w = Done None w' ->
  exists c, checksumFile file = Ok c /\
            (SiaFolder.files (folder w') !! file = Some c \/
             (w' = w /\ SiaFolder.files (folder w) !! file = None)).
Proof.
  intros Hrun. destruct (handleFileWrite_summary file w) as (_ & _ & _ & Hs).
  exact (Hs w' Hrun).
Qed.

(** X6.  A second [handleFileWrite] after one that returned no error does
    nothing. *)
Theorem handleFileWrite_twice (file : string) (w w' : World R) :
  handleFileWrite file w = Done None w' ->
  handleFileWrite file w' = Done None w'.
Proof.
  intros Hrun. destruct (handleFileWrite_summary file w) as (_ & _ & _ & Hs).
  destruct (Hs w' Hrun) as (c & Hsum & [Hin|[-> Hnone]]).
  - unfold handleFileWrite. rewrite Hsum. unfold bind, get_folder. rewrite Hin.
    rewrite bool_decide_eq_false_2; [reflexivity|]. intros Hne. apply Hne. reflexivity.
  - exact Hrun.
Qed.

(** X7.  A write event for a file [handleCreate] has just uploaded does
    nothing. *)
Theorem handleFileWrite_after_handleCreate (file : string) (w w' : World R) :
  handleCreate file w = Done None w' ->
  handleFileWrite file w' = Done None w'.
Proof.
  intros Hrun. destruct (handleCreate_summary file w) as [_ Hcase]. cbn zeta in Hcase.
  destruct Hcase as [(c & w1 & Ho & Hsum & Hf)|[Hfail _]]; [|destruct (Hfail w' Hrun)].
  rewrite Hrun in Ho. injection Ho as <-.
  unfold handleFileWrite. rewrite Hsum. unfold bind, get_folder. rewrite Hf. cbn.
  rewrite lookup_insert_eq.
  rewrite bool_decide_eq_false_2; [reflexivity|]. intros Hne. apply Hne. reflexivity.
Qed.

(** X8.  [handleFileWrite] changes no entry of the index but the one of its
    file, and nothing else of the folder; it issues uploads outside
    dry-run mode only, deletes outside dry-run and archive mode only, and
    no directory query or rename. *)
Theorem handleFileWrite_frame (file : string) (w : World R) :
  touches_only file (folder w) (folder (world_of (handleFileWrite file w))) /\
  issues_only (mode_allows (SiaFolder.archive (folder w)) dryRun)
    w (world_of (handleFileWrite file w)).
Proof.
  destruct (handleFileWrite_summary file w) as (Ht & Hi & _). split; assumption.
Qed.

(** X9.  [uploadRetry] changes no entry of the index but the one of its file,
    and nothing else of the folder; whatever the node answers, it issues
    no upload in dry-run mode and no delete in dry-run or archive mode. *)
Theorem uploadRetry_frame (filename : string) (w : World R) :
  touches_only filename (folder w) (folder (world_of (uploadRetry filename w))) /\
  issues_only (mode_allows archive dryRun) w (world_of (uploadRetry filename w)).
Proof. exact (uploadRetry_summary filename w). Qed.

(** X10.  [isFile] leaves the folder as it is and issues at most file queries. *)
Theorem isFile_frame (file : string) (w : World R) :
  folder (world_of (isFile file w)) = folder w /\
  issues_only (fun c => match c with CFileGet _ => true | _ => false end)
    w (world_of (isFile file w)).
Proof. exact (isFile_summary file w). Qed.

End MoreHandlers.

(** ** The event loop *)

Section Events.
Context {G : Globals} {H : Host} {R : Type} {C : Client R}.
Variable filepath_Clean : string -> string.

(** The part of [eventWatcher] that handles an event on a path that is
    not a directory. *)
Lemma onFile_within_mode (op : Z) (filename : string) (w : World R) :
  let o := bind (if has_op op fsnotify.Write
                 then bind (handleFileWrite filename) (fun _ => ret tt)
                 else ret tt)
                (fun _ => if has_op op fsnotify.Create
                          then uploadRetry filename else ret tt) w in
  within_mode w (world_of o) /\ only_files (folder w) (folder (world_of o)).
Proof.
  cbn zeta.
  apply (bind_related (fun w w' => within_mode w w' /\ only_files (folder w) (folder w'))).
  - exact within_mode_only_files_trans.
  - destruct (has_op op fsnotify.Write).
    + rewrite world_of_bind. pose proof (handleFileWrite_within_mode filename w) as Hw.
      destruct (handleFileWrite filename w); exact Hw.
    + split; [apply within_mode_refl|apply only_files_refl].
  - intros _ w' _. destruct (has_op op fsnotify.Create).
    + apply uploadRetry_within_mode.
    + split; [apply within_mode_refl|apply only_files_refl].
Qed.

(** The part of [eventWatcher] that handles an event on a directory. *)
Lemma onDirectory_run (filename : string) (w : World R) :
  bind (match watcher_Add filename with
        | None => modify_folder (SiaFolder.set_watcher (fun ws => (ws ++ [filename])%list))
        | Some _ => ret tt
        end)
       (fun _ => bind get_folder (fun sf =>
          match SiaFolder.dirs sf !! filename with
          | Some _ => ret tt
          | None => modify_folder (SiaFolder.set_dirs (insert filename false))
          end)) w =
  Done tt (mkWorld
    (SiaFolder.set_dirs
       (fun dirs => match dirs !! filename with
                    | Some _ => dirs
                    | None => <[filename := false]> dirs
                    end)
       (SiaFolder.set_watcher
          (fun ws => match watcher_Add filename with
                     | None => (ws ++ [filename])%list
                     | Some _ => ws
                     end) (folder w)))
    (remote w) (calls w)).
Proof.
  unfold bind, get_folder, modify_folder, ret.
  destruct w as [sf node cs]. destruct sf as [p a st pr ws fs ds].
  unfold SiaFolder.set_dirs, SiaFolder.set_watcher.
  destruct (watcher_Add filename); cbn; destruct (ds !! filename) eqn:Hd; cbn;
    rewrite ?Hd; reflexivity.
Qed.

Lemma handleEvent_run (event : fsnotify.Event) (w : World R) :
  handleEvent filepath_Clean event w =
    let filename := filepath_Clean (fsnotify.Name event) in
    if is_directory filename
    then bind (match watcher_Add filename with
               | None => modify_folder (SiaFolder.set_watcher (fun ws => (ws ++ [filename])%list))
               | Some _ => ret tt
               end)
              (fun _ => bind get_folder (fun sf =>
                 match SiaFolder.dirs sf !! filename with
                 | Some _ => ret tt
                 | None => modify_folder (SiaFolder.set_dirs (insert filename false))
                 end)) w
    else bind (if has_op (fsnotify.Op event) fsnotify.Write
               then bind (handleFileWrite filename) (fun _ => ret tt)
               else ret tt)
              (fun _ => if has_op (fsnotify.Op event) fsnotify.Create
                        then uploadRetry filename else ret tt) w.
Proof.
  unfold handleEvent, is_directory. cbn zeta.
  destruct (os_Stat (filepath_Clean (fsnotify.Name event))) as [f|e]; [|reflexivity].
  destruct (IsDir f); reflexivity.
Qed.

(** X11.  An event on a directory never reaches the node or the index, whatever
    its bits: the directory is registered in [sf.dirs] unless it is there
    already, in which case its entry keeps its value. *)
Theorem handleEvent_registers_directory (event : fsnotify.Event) (w : World R) :
  is_directory (filepath_Clean (fsnotify.Name event)) = true ->
  exists w',
    handleEvent filepath_Clean event w = Done tt w' /\
    calls w' = calls w /\ remote w' = remote w /\
    SiaFolder.files (folder w') = SiaFolder.files (folder w) /\
    keeps_settings (folder w) (folder w') /\
    SiaFolder.dirs (folder w') !! filepath_Clean (fsnotify.Name event) =
      Some (default false (SiaFolder.dirs (folder w) !! filepath_Clean (fsnotify.Name event))) /\
    forall dir, dir <> filepath_Clean (fsnotify.Name event) ->
                SiaFolder.dirs (folder w') !! dir = SiaFolder.dirs (folder w) !! dir.
Proof.
  intros Hdir. rewrite handleEvent_run. cbn zeta. rewrite Hdir, onDirectory_run.
  eexists. split; [reflexivity|]. unfold SiaFolder.set_dirs, SiaFolder.set_watcher. cbn.
  split; [reflexivity|]. split; [reflexivity|]. split; [reflexivity|].
  split; [repeat split|].
  destruct (SiaFolder.dirs (folder w) !! filepath_Clean (fsnotify.Name event)) eqn:Hd.
  - split; [exact Hd|]. reflexivity.
  - split; [apply lookup_insert_eq|]. intros dir Hne. apply lookup_insert_ne. congruence.
Qed.

Lemma has_op_outside (op flag mask : Z) :
  Z.land mask flag = flag -> flag <> 0 -> Z.land op mask = 0 -> has_op op flag = false.
Proof.
  intros Hmask Hflag Hop. unfold has_op. apply Z.eqb_neq.
  rewrite <- Hmask at 1. rewrite Z.land_assoc, Hop, Z.land_0_l.
  intros Heq. apply Hflag. symmetry. exact Heq.
Qed.

(** X12.  Events that carry neither the write nor the create bit, on paths that
    are not directories, change nothing: a removal, a rename or a mode
    change on disk never reaches the node or the index. *)
Theorem eventWatcher_ignores_other_events (events : list fsnotify.Event) (w : World R) :
  Forall (fun event =>
            is_directory (filepath_Clean (fsnotify.Name event)) = false /\
            Z.land (fsnotify.Op event) (Z.lor fsnotify.Create fsnotify.Write) = 0) events ->
  eventWatcher filepath_Clean events w = Done tt w.
Proof.
  intros Hall. induction Hall as [|event rest [Hfile Hop] _ IH]; [reflexivity|].
  cbn [eventWatcher]. unfold bind at 1. rewrite handleEvent_run. cbn zeta. rewrite Hfile.
  rewrite (has_op_outside (fsnotify.Op event) fsnotify.Write
             (Z.lor fsnotify.Create fsnotify.Write) eq_refl ltac:(discriminate) Hop).
  rewrite (has_op_outside (fsnotify.Op event) fsnotify.Create
             (Z.lor fsnotify.Create fsnotify.Write) eq_refl ltac:(discriminate) Hop).
  exact IH.
Qed.

Lemma handleEvent_within_mode (event : fsnotify.Event) (w : World R) :
  within_mode w (world_of (handleEvent filepath_Clean event w)).
Proof.
  rewrite handleEvent_run. cbn zeta.
  destruct (is_directory (filepath_Clean (fsnotify.Name event))).
  - rewrite onDirectory_run. cbn [world_of].
    apply within_mode_same_calls; [|reflexivity].
    unfold SiaFolder.set_dirs, SiaFolder.set_watcher. repeat split.
  - apply onFile_within_mode.
Qed.

Lemma eventWatcher_within_mode (events : list fsnotify.Event) (w : World R) :
  within_mode w (world_of (eventWatcher filepath_Clean events w)).
Proof.
  revert w. induction events as [|event rest IH]; intros w; [apply within_mode_refl|].
  cbn [eventWatcher]. apply (bind_related within_mode).
  - exact within_mode_trans.
  - apply handleEvent_within_mode.
  - intros _ w' _. apply IH.
Qed.

(** X13.  Whatever events arrive and whatever the node answers, [eventWatcher]
    keeps the settings of the folder and issues only calls the mode
    allows: no upload in dry-run mode, no delete in dry-run mode or when
    [sf.archive] and the flag [archive] are both set, and never a
    directory query or a rename. *)
Theorem eventWatcher_stays_within_mode (events : list fsnotify.Event) (w : World R) :
  within_mode w (world_of (eventWatcher filepath_Clean events w)).
Proof. exact (eventWatcher_within_mode events w). Qed.

Lemma handleEvent_dirs (event : fsnotify.Event) (w : World R) :
  dirs_all_false (folder w) ->
  dirs_all_false (folder (world_of (handleEvent filepath_Clean event w))).
Proof.
  intros Hfalse. rewrite handleEvent_run. cbn zeta.
  destruct (is_directory (filepath_Clean (fsnotify.Name event))).
  - rewrite onDirectory_run. unfold SiaFolder.set_dirs, SiaFolder.set_watcher.
    intros dir onSia. cbn [world_of folder SiaFolder.dirs].
    destruct (SiaFolder.dirs (folder w) !! filepath_Clean (fsnotify.Name event)) eqn:Hd.
    + apply Hfalse.
    + destruct (decide (dir = filepath_Clean (fsnotify.Name event))) as [->|Hne].
      * rewrite lookup_insert_eq. congruence.
      * rewrite lookup_insert_ne by congruence. apply Hfalse.
  - destruct (onFile_within_mode (fsnotify.Op event)
                (filepath_Clean (fsnotify.Name event)) w) as [_ (_ & _ & Hd)].
    cbn zeta in Hd. intros dir onSia. rewrite Hd. apply Hfalse.
Qed.

(** X14.  [eventWatcher] never marks a directory as being on Sia. *)
Theorem eventWatcher_never_marks_a_directory (events : list fsnotify.Event)
    (w : World R) :
  dirs_all_false (folder w) ->
  dirs_all_false (folder (world_of (eventWatcher filepath_Clean events w))).
Proof.
  revert w. induction events as [|event rest IH]; intros w Hfalse; [exact Hfalse|].
  cbn [eventWatcher]. rewrite world_of_bind.
  pose proof (handleEvent_dirs event w Hfalse) as Hstep.
  destruct (handleEvent filepath_Clean event w) as [[] w'|m w']; cbn [world_of] in *.
  - apply IH. exact Hstep.
  - exact Hstep.
Qed.

(** X15.  A create event for a regular file that is not in the index, with or
    without the write bit, ends with the first [handleCreate] when that
    one returns no error; the file is then indexed under its current
    fingerprint. *)
Theorem handleEvent_create_uploads_new_file (event : fsnotify.Event) (w w' : World R) :
  is_directory (filepath_Clean (fsnotify.Name event)) = false ->
  has_op (fsnotify.Op event) fsnotify.Create = true ->
  SiaFolder.files (folder w) !! filepath_Clean (fsnotify.Name event) = None ->
  handleCreate (filepath_Clean (fsnotify.Name event)) w = Done None w' ->
  handleEvent filepath_Clean event w = Done tt w' /\
  exists c, checksumFile (filepath_Clean (fsnotify.Name event)) = Ok c /\
            SiaFolder.files (folder w') !! filepath_Clean (fsnotify.Name event) = Some c.
Proof.
  intros Hfile Hcreate Hnew Hrun. split.
  - rewrite handleEvent_run. cbn zeta. rewrite Hfile, Hcreate.
    assert (Hwrite : (if has_op (fsnotify.Op event) fsnotify.Write
                      then bind (handleFileWrite (filepath_Clean (fsnotify.Name event)))
                                (fun _ => ret tt)
                      else ret tt) w = Done tt w).
    { destruct (has_op (fsnotify.Op event) fsnotify.Write); [|reflexivity].
      unfold bind. rewrite handleFileWrite_idle; [reflexivity|].
      intros old c Hold. rewrite Hnew in Hold. discriminate. }
    unfold bind at 1. rewrite Hwrite. unfold uploadRetry, bind. rewrite Hrun. reflexivity.
  - destruct (handleCreate_summary (filepath_Clean (fsnotify.Name event)) w) as [_ Hcase].
    cbn zeta in Hcase.
    destruct Hcase as [(c & w1 & Ho & Hsum & Hf)|[Hfail _]]; [|destruct (Hfail w' Hrun)].
    rewrite Hrun in Ho. injection Ho as <-. exists c. split; [exact Hsum|].
    rewrite Hf. cbn. apply lookup_insert_eq.
Qed.

End Events.

(** ** The promotion loop *)

Section MorePromotion.
Context {G : Globals} {H : Host} {R : Type} {C : Client R}.

Lemma only_promotes_refl (w : World R) : only_promotes w w.
Proof. split; [reflexivity|apply issues_only_refl]. Qed.

Lemma only_promotes_trans (w1 w2 w3 : World R) :
  only_promotes w1 w2 -> only_promotes w2 w3 -> only_promotes w1 w3.
Proof.
  intros [Hf Hi] [Hf' Hi']. split; [congruence|eapply issues_only_trans; eassumption].
Qed.

Lemma world_of_getSiaPath (relpath : string) (w : World R) :
  world_of (getSiaPath relpath w) = w.
Proof.
  rewrite getSiaPath_run. destruct (NewSiaPath _); reflexivity.
Qed.

Lemma moveToProduction_only_promotes (dir : SiaPath) (w : World R) :
  only_promotes w (world_of (moveToProduction dir w)).
Proof.
  unfold moveToProduction. rewrite world_of_bind, getSiaPath_run.
  destruct (NewSiaPath (filepath_Join siaStagingDir siaStagingDir)) as [oldBase|e];
    [|apply only_promotes_refl].
  rewrite world_of_bind, getSiaPath_run.
  destruct (NewSiaPath (filepath_Join siaStagingDir siaProdDir)) as [newBase|e];
    [|apply only_promotes_refl].
  destruct (Rebase dir oldBase newBase) as [newSiaPath|e]; [|apply only_promotes_refl].
  unfold RenterRenamePost, invoke.
  destruct (node_RenterRenamePost dir newSiaPath (remote w)) as [err node].
  split; [reflexivity|]. exact (issues_only_called _ w _ node eq_refl).
Qed.

Lemma promoteFrom_only_promotes (directories : list DirectoryInfo) :
  forall i (w : World R), only_promotes w (world_of (promoteFrom i directories w)).
Proof.
  induction directories as [|dir rest IH]; intros i w; [apply only_promotes_refl|].
  cbn [promoteFrom]. apply (bind_related only_promotes).
  - exact only_promotes_trans.
  - destruct (Nat.eqb i 0); [apply only_promotes_refl|].
    destruct (SFleb (AggregateMinRedundancy dir) float64_one); [apply only_promotes_refl|].
    rewrite world_of_bind. pose proof (moveToProduction_only_promotes (DirSiaPath dir) w) as Hm.
    destruct (moveToProduction (DirSiaPath dir) w); exact Hm.
  - intros _ w' _. apply IH.
Qed.

Lemma getStagingSiaDir_only_promotes (subdir : string) (w : World R) :
  only_promotes w (world_of (getStagingSiaDir subdir w)).
Proof.
  unfold getStagingSiaDir. unfold bind at 1, get_folder.
  rewrite world_of_bind, getSiaPath_run.
  destruct (NewSiaPath _) as [sp|e]; [|apply only_promotes_refl].
  unfold RenterGetDir, invoke. destruct (node_RenterGetDir sp (remote w)) as [r node].
  split; [reflexivity|]. exact (issues_only_called _ w _ node eq_refl).
Qed.

Lemma moveToProductionTick_only_promotes (w : World R) :
  only_promotes w (world_of (moveToProductionTick w)).
Proof.
  unfold moveToProductionTick. apply (bind_related only_promotes).
  - exact only_promotes_trans.
  - apply getStagingSiaDir_only_promotes.
  - intros [stagingMoviesDir|e] w1 _; [|apply only_promotes_refl].
    apply (bind_related only_promotes).
    + exact only_promotes_trans.
    + apply promoteFrom_only_promotes.
    + intros _ w2 _. apply (bind_related only_promotes).
      * exact only_promotes_trans.
      * apply getStagingSiaDir_only_promotes.
      * intros [stagingTVDir|e] w3 _; [|apply only_promotes_refl].
        apply promoteFrom_only_promotes.
Qed.

(** X16.  However often the timer fires and whatever the node answers,
    [moveToProductionLoop] leaves the folder as it is and issues only
    directory queries and renames: it never uploads, deletes or lists
    files. *)
Theorem moveToProductionLoop_only_promotes (ticks : nat) (w : World R) :
  only_promotes w (world_of (moveToProductionLoop ticks w)).
Proof.
  revert w. induction ticks as [|n IH]; intros w; [apply only_promotes_refl|].
  cbn [moveToProductionLoop]. apply (bind_related only_promotes).
  - exact only_promotes_trans.
  - apply moveToProductionTick_only_promotes.
  - intros _ w' _. apply IH.
Qed.

(** X17.  When the query for the staged movies fails, the tick ends there: the
    tv directories are not looked at before the timer fires again. *)
Theorem moveToProductionTick_stops_at_failed_query (sp : SiaPath) (e : string)
    (w : World R) :
  NewSiaPath (filepath_Join siaStagingDir
                (filepath_Join (SiaFolder.siaStagingDir (folder w)) movieDir)) = Ok sp ->
  (node_RenterGetDir sp (remote w)).1 = Err e ->
  moveToProductionTick w =
    Done tt (called w (CGetDir sp) (node_RenterGetDir sp (remote w)).2).
Proof.
  intros Hsp Herr. unfold moveToProductionTick, getStagingSiaDir.
  unfold bind at 1. unfold bind at 1, get_folder. unfold bind at 1.
  rewrite getSiaPath_run, Hsp. unfold RenterGetDir, invoke, called.
  destruct (node_RenterGetDir sp (remote w)) as [r node]. cbn in Herr. subst r.
  reflexivity.
Qed.

End MorePromotion.

(** ** The startup *)

Section Startup.
Context {G : Globals} {H : Host} {R : Type} {C : Client R}.

(** A relation that is a preorder and holds across the body holds across
    the loop. *)
Lemma forEach_related {A} (P : World R -> World R -> Prop) (body : A -> M R error)
    (l : list A) :
  (forall w, P w w) ->
  (forall w1 w2 w3, P w1 w2 -> P w2 w3 -> P w1 w3) ->
  (forall x w, P w (world_of (body x w))) ->
  forall w, P w (world_of (forEach body l w)).
Proof.
  intros Hrefl Htrans Hbody. induction l as [|x rest IH]; intros w; [apply Hrefl|].
  cbn [forEach]. apply (bind_related P); [exact Htrans|apply Hbody|].
  intros [e|] w' _; [apply Hrefl|apply IH].
Qed.

(** A property every successful turn of the body keeps holds after a loop
    that returned no error. *)
Lemma forEach_success_invariant {A} (I : World R -> Prop) (body : A -> M R error)
    (l : list A) :
  (forall x w w', I w -> body x w = Done None w' -> I w') ->
  forall w w', I w -> forEach body l w = Done None w' -> I w'.
Proof.
  intros Hbody. induction l as [|x rest IH]; intros w w' Hw Hrun.
  - injection Hrun as <-. exact Hw.
  - cbn [forEach] in Hrun. unfold bind in Hrun.
    destruct (body x w) as [[e|] w1|m w1] eqn:Hx; try discriminate.
    exact (IH w1 w' (Hbody x w w1 Hw Hx) Hrun).
Qed.

(** *** The walk *)

(** One call of the callback: no call is issued, the settings are kept,
    and the index only gains the current fingerprint of a regular file. *)
Lemma walkFn_step (path : string) (e : WalkEntry) (w : World R) :
  exists err w',
    walkFn path e w = Done err w' /\
    calls w' = calls w /\ remote w' = remote w /\
    keeps_settings (folder w) (folder w') /\
    (dirs_all_false (folder w) -> dirs_all_false (folder w')) /\
    (forall k c, SiaFolder.files (folder w) !! k = Some c -> checksumFile k = Ok c ->
                 SiaFolder.files (folder w') !! k = Some c) /\
    (index_is_fresh (folder w) -> index_is_fresh (folder w')) /\
    (err = None ->
       walkerr e = None /\
       (IsDir (walkinfo e) = false -> walkpath e <> path ->
        exists c, checksumFile (walkpath e) = Ok c /\
                  SiaFolder.files (folder w') !! walkpath e = Some c)).
Proof.
  unfold walkFn. destruct (walkerr e) as [err|].
  { exists (Some err), w. split; [reflexivity|]. split; [reflexivity|].
    split; [reflexivity|]. split; [apply keeps_settings_refl|].
    split; [auto|]. split; [auto|]. split; [auto|]. discriminate. }
  destruct (bool_decide (walkpath e = path)) eqn:Hroot.
  { apply bool_decide_eq_true in Hroot.
    exists None, w. split; [reflexivity|]. split; [reflexivity|].
    split; [reflexivity|]. split; [apply keeps_settings_refl|].
    split; [auto|]. split; [auto|]. split; [auto|]. intros _. split; [reflexivity|].
    intros _ Hne. contradiction. }
  destruct (IsDir (walkinfo e)) eqn:Hdir.
  - unfold bind, modify_folder, ret, SiaFolder.set_watcher, SiaFolder.set_dirs.
    destruct (watcher_Add (walkpath e)); cbn [folder remote calls];
      (eexists None, _; split; [reflexivity|]; cbn [folder remote calls];
       split; [reflexivity|]; split; [reflexivity|]; split; [repeat split|];
       split; [|split; [auto|split; [auto|intros _; split; [reflexivity|discriminate]]]]);
      intros Hfalse dir onSia; cbn [SiaFolder.dirs];
      (destruct (decide (dir = walkpath e)) as [->|Hne];
       [rewrite lookup_insert_eq; congruence
       |rewrite lookup_insert_ne by congruence; apply Hfalse]).
  - destruct (checksumFile (walkpath e)) as [checksum|err] eqn:Hsum.
    + unfold bind, modify_folder, ret, SiaFolder.set_files.
      eexists None, _. split; [reflexivity|]. cbn [folder remote calls].
      split; [reflexivity|]. split; [reflexivity|]. split; [repeat split|].
      split; [auto|]. cbn [SiaFolder.files].
      assert (Hkeep : forall k c, SiaFolder.files (folder w) !! k = Some c ->
                                  checksumFile k = Ok c ->
                                  <[walkpath e := checksum]> (SiaFolder.files (folder w)) !! k
                                  = Some c).
      { intros k c Hk Hc. destruct (decide (k = walkpath e)) as [->|Hne].
        - rewrite lookup_insert_eq. congruence.
        - rewrite lookup_insert_ne by congruence. exact Hk. }
      split; [exact Hkeep|]. split.
      * intros Hfresh k c. cbn [SiaFolder.files].
        destruct (decide (k = walkpath e)) as [->|Hne].
        -- rewrite lookup_insert_eq. congruence.
        -- rewrite lookup_insert_ne by congruence. apply Hfresh.
      * intros _. split; [reflexivity|]. intros _ _. exists checksum.
        split; [reflexivity|apply lookup_insert_eq].
    + exists (Some err), w. split; [reflexivity|]. split; [reflexivity|].
      split; [reflexivity|]. split; [apply keeps_settings_refl|].
      split; [auto|]. split; [auto|]. split; [auto|]. discriminate.
Qed.

Lemma walk_step (path : string) (entries : list WalkEntry) :
  forall w : World R,
  exists err w',
    forEach (walkFn path) entries w = Done err w' /\
    calls w' = calls w /\ remote w' = remote w /\
    keeps_settings (folder w) (folder w') /\
    (dirs_all_false (folder w) -> dirs_all_false (folder w')) /\
    (forall k c, SiaFolder.files (folder w) !! k = Some c -> checksumFile k = Ok c ->
                 SiaFolder.files (folder w') !! k = Some c) /\
    (index_is_fresh (folder w) -> index_is_fresh (folder w')) /\
    (err = None ->
       forall e, e ∈ entries ->
         walkerr e = None /\
         (IsDir (walkinfo e) = false -> walkpath e <> path ->
          exists c, checksumFile (walkpath e) = Ok c /\
                    SiaFolder.files (folder w') !! walkpath e = Some c)).
Proof.
  induction entries as [|e rest IH]; intros w.
  - exists None, w. split; [reflexivity|]. split; [reflexivity|]. split; [reflexivity|].
    split; [apply keeps_settings_refl|]. split; [auto|]. split; [auto|]. split; [auto|].
    intros _ e Hin. inversion Hin.
  - destruct (walkFn_step path e w)
      as (err & w1 & Hrun & Hc & Hr & Hs & Hd & Hk & Hf & Hok).
    cbn [forEach]. unfold bind. rewrite Hrun. destruct err as [err|].
    + exists (Some err), w1. split; [reflexivity|]. split; [exact Hc|]. split; [exact Hr|].
      split; [exact Hs|]. split; [exact Hd|]. split; [exact Hk|]. split; [exact Hf|].
      discriminate.
    + destruct (IH w1) as (err' & w2 & Hrun' & Hc' & Hr' & Hs' & Hd' & Hk' & Hf' & Hok').
      exists err', w2. split; [exact Hrun'|]. split; [congruence|]. split; [congruence|].
      split; [eapply keeps_settings_trans; eassumption|]. split; [auto|].
      split; [auto|]. split; [auto|].
      intros -> e0 Hin. destruct (Hok eq_refl) as [Hwalkerr Hindexed].
      apply elem_of_cons in Hin as [->|Hin]; [|exact (Hok' eq_refl e0 Hin)].
      split; [exact Hwalkerr|]. intros Hfile Hne.
      destruct (Hindexed Hfile Hne) as (c & Hsum & Hin1). exists c. split; [exact Hsum|].
      apply Hk'; assumption.
Qed.

(** X18.  After a walk that returned no error, every regular file the walk
    visited, the path given to [NewSiafolder] apart, is in the index under
    its current fingerprint, and the index holds nothing else that was not
    there before. *)
Theorem walk_indexes_the_regular_files (path : string) (entries : list WalkEntry)
    (w w' : World R) :
  forEach (walkFn path) entries w = Done None w' ->
  (forall e, e ∈ entries -> IsDir (walkinfo e) = false -> walkpath e <> path ->
     exists c, checksumFile (walkpath e) = Ok c /\
               SiaFolder.files (folder w') !! walkpath e = Some c) /\
  (forall file, is_Some (SiaFolder.files (folder w') !! file) ->
     is_Some (SiaFolder.files (folder w) !! file) \/
     exists e, e ∈ entries /\ walkpath e = file /\ IsDir (walkinfo e) = false).
Proof.
  intros Hrun. split.
  - destruct (walk_step path entries w) as (err & w1 & Hrun' & _ & _ & _ & _ & _ & _ & Hok).
    rewrite Hrun in Hrun'. injection Hrun' as <- <-.
    intros e Hin. exact (proj2 (Hok eq_refl e Hin)).
  - destruct (walk_frame (R := R) path entries (folder w))
      as (err & sf' & Hrun' & _ & Hkeys).
    specialize (Hrun' (remote w) (calls w)). destruct w as [sf node cs]. cbn in Hrun'.
    rewrite Hrun in Hrun'. injection Hrun' as <- ->. exact Hkeys.
Qed.

(** *** Reconciliation *)

Lemma called_within_mode (w : World R) (c : Call) (node : R) :
  mode_allows (SiaFolder.archive (folder w) && archive) dryRun c = true ->
  within_mode w (called w c node) /\ only_files (folder w) (folder (called w c node)).
Proof.
  intros Hc. split; [split; [apply keeps_settings_refl|]|apply only_files_refl].
  exact (issues_only_called _ w c node Hc).
Qed.

Lemma handleCreate_within_mode (file : string) (w : World R) :
  within_mode w (world_of (handleCreate file w)) /\
  only_files (folder w) (folder (world_of (handleCreate file w))).
Proof.
  destruct (handleCreate_summary file w) as [Hcalls Hcase]. cbn zeta in Hcalls, Hcase.
  assert (Ho : only_files (folder w) (folder (world_of (handleCreate file w)))).
  { destruct Hcase as [(c & w' & Hrun & _ & Hf)|[_ Hf]].
    - rewrite Hrun. cbn [world_of]. rewrite Hf. apply only_files_set_files.
    - rewrite Hf. apply only_files_refl. }
  split; [|exact Ho]. split; [exact (proj1 Ho)|].
  eapply issues_only_weaken; [|exact Hcalls]. apply mode_allows_upload.
Qed.

Lemma handleCreate_fresh (file : string) (w : World R) :
  index_is_fresh (folder w) -> index_is_fresh (folder (world_of (handleCreate file w))).
Proof.
  intros Hfresh. destruct (handleCreate_summary file w) as [_ Hcase]. cbn zeta in Hcase.
  destruct Hcase as [(c & w' & Hrun & Hsum & Hf)|[_ Hf]].
  - rewrite Hrun. cbn [world_of]. rewrite Hf. intros k c'. cbn.
    destruct (decide (k = file)) as [->|Hne].
    + rewrite lookup_insert_eq. congruence.
    + rewrite lookup_insert_ne by congruence. apply Hfresh.
  - rewrite Hf. exact Hfresh.
Qed.

Lemma world_of_existsOnSia (relpath : string) (siafiles : list SiaFileInfo) (w : World R) :
  world_of (existsOnSia relpath siafiles w) = w.
Proof.
  rewrite existsOnSia_run. destruct (NewSiaPath _); [reflexivity|].
  destruct siafiles; reflexivity.
Qed.

Lemma uploadNonExistingFile_step (renterFiles : RenterFiles) (file : string) (w : World R) :
  (within_mode w (world_of (uploadNonExistingFile renterFiles file w)) /\
   only_files (folder w) (folder (world_of (uploadNonExistingFile renterFiles file w)))) /\
  (index_is_fresh (folder w) ->
   index_is_fresh (folder (world_of (uploadNonExistingFile renterFiles file w)))).
Proof.
  unfold uploadNonExistingFile. unfold bind at 1 3 5, get_folder.
  destruct (filepath_Rel (SiaFolder.path (folder w)) file) as [relpath|e].
  2:{ cbn. split; [split; [apply within_mode_refl|apply only_files_refl]|auto]. }
  rewrite !world_of_bind. pose proof (world_of_existsOnSia relpath (Files renterFiles) w) as Hw.
  destruct (existsOnSia relpath (Files renterFiles) w) as [[|] w1|m w1];
    cbn [world_of] in *; subst w1.
  - split; [split; [apply within_mode_refl|apply only_files_refl]|auto].
  - split; [apply handleCreate_within_mode|apply handleCreate_fresh].
  - split; [split; [apply within_mode_refl|apply only_files_refl]|auto].
Qed.

Lemma handleFileWrite_refreshes (file stale : string) (w w' : World R) :
  index_is_fresh (folder w) ->
  handleFileWrite file
    (mkWorld (SiaFolder.set_files (insert file stale) (folder w)) (remote w) (calls w))
  = Done None w' ->
  index_is_fresh (folder w').
Proof.
  intros Hfresh Hrun.
  set (w0 := mkWorld (SiaFolder.set_files (insert file stale) (folder w)) (remote w) (calls w))
    in *.
  destruct (handleFileWrite_summary file w0) as (Ht & _ & _ & Hs). cbn zeta in Ht.
  rewrite Hrun in Ht. cbn [world_of] in Ht.
  destruct (Hs w' Hrun) as (c & Hsum & [Hin|[_ Hnone]]).
  - intros k c'. destruct (decide (k = file)) as [->|Hne]; [congruence|].
    destruct Ht as (_ & _ & _ & _ & _ & _ & Hother). rewrite (Hother k Hne).
    subst w0. cbn. rewrite lookup_insert_ne by congruence. apply Hfresh.
  - subst w0. cbn in Hnone. rewrite lookup_insert_eq in Hnone. discriminate.
Qed.

Lemma uploadChangedIn_step (file relpath : string) (siafiles : list SiaFileInfo)
    (w : World R) :
  (within_mode w (world_of (uploadChangedIn file relpath siafiles w)) /\
   only_files (folder w) (folder (world_of (uploadChangedIn file relpath siafiles w)))) /\
  (index_is_fresh (folder w) ->
   forall w', uploadChangedIn file relpath siafiles w = Done None w' ->
              index_is_fresh (folder w')).
Proof.
  induction siafiles as [|siafile rest IH].
  { cbn. split; [split; [apply within_mode_refl|apply only_files_refl]|].
    intros Hfresh w' [= <-]. exact Hfresh. }
  cbn [uploadChangedIn]. unfold bind at 1 3 5. rewrite getSiaPath_run.
  destruct (NewSiaPath (filepath_Join siaStagingDir relpath)) as [sp|e].
  2:{ cbn. split; [split; [apply within_mode_refl|apply only_files_refl]|].
      intros _ w' [=]. }
  destruct (Equals (FileSiaPath siafile) sp); [|exact IH].
  unfold bind, modify_folder.
  set (stale := FormatInt (int64_of_uint64 (Filesize siafile))).
  set (w0 := mkWorld (SiaFolder.set_files (insert file stale) (folder w)) (remote w) (calls w)).
  split.
  - apply (within_mode_only_files_trans w w0).
    + split; [apply within_mode_same_calls; [repeat split|reflexivity]|].
      apply only_files_set_files.
    + exact (handleFileWrite_within_mode file w0).
  - intros Hfresh w' Hrun. exact (handleFileWrite_refreshes file stale w w' Hfresh Hrun).
Qed.

Lemma uploadChangedFile_step (renterFiles : RenterFiles) (file : string) (w : World R) :
  (within_mode w (world_of (uploadChangedFile renterFiles file w)) /\
   only_files (folder w) (folder (world_of (uploadChangedFile renterFiles file w)))) /\
  (index_is_fresh (folder w) ->
   forall w', uploadChangedFile renterFiles file w = Done None w' ->
              index_is_fresh (folder w')).
Proof.
  unfold uploadChangedFile, bind, get_folder.
  destruct (filepath_Rel (SiaFolder.path (folder w)) file) as [relpath|e].
  - apply uploadChangedIn_step.
  - cbn. split; [split; [apply within_mode_refl|apply only_files_refl]|].
    intros _ w' [=].
Qed.

Lemma uploadNonExisting_step (w : World R) :
  (within_mode w (world_of (uploadNonExisting w)) /\
   only_files (folder w) (folder (world_of (uploadNonExisting w)))) /\
  (index_is_fresh (folder w) -> index_is_fresh (folder (world_of (uploadNonExisting w)))).
Proof.
  rewrite uploadNonExisting_run. cbn zeta.
  destruct (node_RenterFilesGet true (remote w)) as [[renterFiles|e] node]; cbn [fst snd].
  2:{ cbn [world_of]. split; [apply called_within_mode; reflexivity|auto]. }
  set (w0 := called w (CFilesGet true) node).
  set (body := uploadNonExistingFile _).
  split.
  - apply (within_mode_only_files_trans w w0); [apply called_within_mode; reflexivity|].
    apply (forEach_related
             (fun w w' => within_mode w w' /\ only_files (folder w) (folder w'))).
    + intros w1. split; [apply within_mode_refl|apply only_files_refl].
    + exact within_mode_only_files_trans.
    + intros x w1. apply uploadNonExistingFile_step.
  - intros Hfresh.
    apply (forEach_related
             (fun w w' => index_is_fresh (folder w) -> index_is_fresh (folder w'))
             body _ (fun _ Hw => Hw) (fun _ _ _ H1 H2 Hw => H2 (H1 Hw))).
    + intros x w1. apply uploadNonExistingFile_step.
    + exact Hfresh.
Qed.

Lemma uploadChanged_step (w : World R) :
  (within_mode w (world_of (uploadChanged w)) /\
   only_files (folder w) (folder (world_of (uploadChanged w)))) /\
  (index_is_fresh (folder w) ->
   forall w', uploadChanged w = Done None w' -> index_is_fresh (folder w')).
Proof.
  unfold uploadChanged. unfold bind at 1 3 5. rewrite getStagingSiaFiles_run. cbn zeta.
  destruct (node_RenterFilesGet true (remote w)) as [[renterFiles|e] node]; cbn [fst snd].
  2:{ cbn [world_of ret]. split; [apply called_within_mode; reflexivity|].
      intros _ w' [=]. }
  set (w0 := called w (CFilesGet true) node).
  unfold bind, get_folder. cbn [folder].
  set (body := uploadChangedFile _).
  split.
  - apply (within_mode_only_files_trans w w0); [apply called_within_mode; reflexivity|].
    apply (forEach_related
             (fun w w' => within_mode w w' /\ only_files (folder w) (folder w'))).
    + intros w1. split; [apply within_mode_refl|apply only_files_refl].
    + exact within_mode_only_files_trans.
    + intros x w1. apply uploadChangedFile_step.
  - intros Hfresh w'.
    apply (forEach_success_invariant (fun w => index_is_fresh (folder w))).
    + intros x w1 w2 Hw1 Hrun. exact (proj2 (uploadChangedFile_step _ x w1) Hw1 w2 Hrun).
    + exact Hfresh.
Qed.

(** *** [NewSiafolder] as a whole *)

Lemma NewSiafolder_summary (path abspath : string) (w : World R) :
  filepath_Abs path = Ok abspath ->
  let fresh := SiaFolder.mk abspath archive siaStagingDir siaProdDir [] ∅ ∅ in
  let o := NewSiafolder path w in
  issues_only (mode_allows archive dryRun) w (world_of o) /\
  keeps_settings fresh (folder (world_of o)) /\
  dirs_all_false (folder (world_of o)) /\
  (forall w', o = Done None w' -> index_is_fresh (folder w')).
Proof.
  intros Habs. cbn zeta. rewrite NewSiafolder_run, Habs. cbn zeta.
  set (fresh := SiaFolder.mk abspath archive siaStagingDir siaProdDir [] ∅ ∅).
  assert (Hempty : dirs_all_false fresh /\ index_is_fresh fresh).
  { split; intros k v Hk; cbn in Hk; rewrite lookup_empty in Hk; discriminate. }
  destruct Hempty as [Hdirs0 Hfresh0].
  destruct fsnotify_NewWatcher.
  { cbn [world_of folder]. split; [apply issues_only_same_calls; reflexivity|].
    split; [apply keeps_settings_refl|]. split; [exact Hdirs0|]. intros w' [=]. }
  destruct (watcher_Add abspath).
  { cbn [world_of folder]. split; [apply issues_only_same_calls; reflexivity|].
    split; [apply keeps_settings_refl|]. split; [exact Hdirs0|]. intros w' [=]. }
  set (w0 := mkWorld (SiaFolder.set_watcher (fun ws => (ws ++ [abspath])%list) fresh)
               (remote w) (calls w)).
  destruct (walk_step path (filepath_Walk abspath) w0)
    as (err & w1 & Hrun & Hc & _ & Hs & Hd & _ & Hf & _).
  rewrite Hrun.
  assert (Hs1 : keeps_settings fresh (folder w1)) by exact Hs.
  assert (Hd1 : dirs_all_false (folder w1)) by (apply Hd; exact Hdirs0).
  assert (Hf1 : index_is_fresh (folder w1)) by (apply Hf; exact Hfresh0).
  assert (Hi1 : issues_only (mode_allows archive dryRun) w w1)
    by (apply issues_only_same_calls; exact Hc).
  destruct err as [err|].
  { cbn [world_of]. split; [exact Hi1|]. split; [exact Hs1|]. split; [exact Hd1|].
    intros w' [=]. }
  assert (Hleave : forall w2, within_mode w1 w2 /\ only_files (folder w1) (folder w2) ->
            issues_only (mode_allows archive dryRun) w w2 /\
            keeps_settings fresh (folder w2) /\ dirs_all_false (folder w2)).
  { intros w2 [[Hs2 Hi2] (_ & _ & Hd2)].
    split; [|split; [eapply keeps_settings_trans; eassumption|]].
    - eapply issues_only_trans; [exact Hi1|].
      destruct Hs1 as (_ & Harch & _). rewrite Harch in Hi2. cbn in Hi2.
      rewrite andb_diag in Hi2. exact Hi2.
    - intros dir onSia. rewrite Hd2. apply Hd1. }
  destruct (uploadNonExisting_step w1) as [Hstep2 Hfresh2].
  specialize (Hfresh2 Hf1).
  destruct (uploadNonExisting w1) as [[e|] w2|m w2]; cbn [world_of] in *.
  - destruct (Hleave w2 Hstep2) as (Hi & Hs' & Hd'). split; [exact Hi|].
    split; [exact Hs'|]. split; [exact Hd'|]. intros w' [=].
  - destruct (uploadChanged_step w2) as [Hstep3 Hfresh3].
    destruct (Hleave _ (within_mode_only_files_trans _ _ _ Hstep2 Hstep3)) as (Hi & Hs' & Hd').
    split; [exact Hi|]. split; [exact Hs'|]. split; [exact Hd'|].
    exact (Hfresh3 Hfresh2).
  - destruct (Hleave w2 Hstep2) as (Hi & Hs' & Hd'). split; [exact Hi|].
    split; [exact Hs'|]. split; [exact Hd'|]. intros w' [=].
Qed.

(** X19.  Whatever the tree and the node, [NewSiafolder] issues no upload in
    dry-run mode, no delete in dry-run or archive mode, and never a
    directory query or a rename. *)
Theorem NewSiafolder_stays_within_mode (path : string) (w : World R) :
  issues_only (mode_allows archive dryRun) w (world_of (NewSiafolder path w)).
Proof.
  destruct (filepath_Abs path) as [abspath|e] eqn:Habs.
  - exact (proj1 (NewSiafolder_summary path abspath w Habs)).
  - rewrite NewSiafolder_run, Habs. apply issues_only_refl.
Qed.

(** X20.  After a startup that returned no error, every fingerprint of the
    index is the current one of its file. *)
Theorem NewSiafolder_leaves_a_fresh_index (path : string) (w w' : World R) :
  NewSiafolder path w = Done None w' -> index_is_fresh (folder w').
Proof.
  intros Hrun. destruct (filepath_Abs path) as [abspath|e] eqn:Habs.
  - destruct (NewSiafolder_summary path abspath w Habs) as (_ & _ & _ & Hfresh).
    exact (Hfresh w' Hrun).
  - rewrite NewSiafolder_run, Habs in Hrun. discriminate.
Qed.

(** X21.  [NewSiafolder] marks no directory as being on Sia. *)
Theorem NewSiafolder_never_marks_a_directory (path : string) (w : World R) :
  dirs_all_false (folder w) -> dirs_all_false (folder (world_of (NewSiafolder path w))).
Proof.
  intros Hfalse. destruct (filepath_Abs path) as [abspath|e] eqn:Habs.
  - destruct (NewSiafolder_summary path abspath w Habs) as (_ & _ & Hdirs & _).
    exact Hdirs.
  - rewrite NewSiafolder_run, Habs. exact Hfalse.
Qed.

(** X22.  Once [filepath.Abs] has succeeded, the folder [NewSiafolder] leaves
    has the absolute path and the three flags as its settings, however the
    startup ends. *)
Theorem NewSiafolder_settings (path abspath : string) (w : World R) :
  filepath_Abs path = Ok abspath ->
  SiaFolder.path (folder (world_of (NewSiafolder path w))) = abspath /\
  SiaFolder.archive (folder (world_of (NewSiafolder path w))) = archive /\
  SiaFolder.siaStagingDir (folder (world_of (NewSiafolder path w))) = siaStagingDir /\
  SiaFolder.siaProdDir (folder (world_of (NewSiafolder path w))) = siaProdDir.
Proof.
  intros Habs. destruct (NewSiafolder_summary path abspath w Habs) as (_ & Hs & _).
  exact Hs.
Qed.

Lemma walk_fails (path : string) (entries : list WalkEntry) :
  (exists e, e ∈ entries /\ walkerr e <> None) ->
  forall w : World R,
  exists err w', forEach (walkFn path) entries w = Done (Some err) w' /\
                 calls w' = calls w /\ remote w' = remote w.
Proof.
  intros (e & Hin & Herr) w.
  destruct (walk_step path entries w) as (err & w' & Hrun & Hc & Hr & _ & _ & _ & _ & Hok).
  destruct err as [err|]; [exists err, w'; auto|].
  destruct (Hok eq_refl e Hin) as [Hnone _]. contradiction.
Qed.

(** X23.  When the walk reports an error for some path, the startup fails with
    an error before any call is issued: nothing is uploaded from a tree
    that could not be walked to its end. *)
Theorem NewSiafolder_failed_walk_issues_no_call (path abspath : string) (w : World R) :
  filepath_Abs path = Ok abspath ->
  (exists e, e ∈ filepath_Walk abspath /\ walkerr e <> None) ->
  exists err w', NewSiafolder path w = Done (Some err) w' /\
                 calls w' = calls w /\ remote w' = remote w.
Proof.
  intros Habs Hbad. rewrite NewSiafolder_run, Habs. cbn zeta.
  destruct fsnotify_NewWatcher as [e|]; [eexists _, _; split; [reflexivity|auto]|].
  destruct (watcher_Add abspath) as [e|]; [eexists _, _; split; [reflexivity|auto]|].
  destruct (walk_fails path (filepath_Walk abspath) Hbad
              (mkWorld (SiaFolder.set_watcher (fun ws => (ws ++ [abspath])%list)
                          (SiaFolder.mk abspath archive siaStagingDir siaProdDir [] ∅ ∅))
                       (remote w) (calls w)))
    as (err & w' & Hrun & Hc & Hr).
  rewrite Hrun. exists err, w'. auto.
Qed.

(** X24.  A run of the program, the startup and then the events the watcher
    receives, issues only calls the flags allow: no upload in dry-run
    mode, no delete in dry-run or archive mode, uploads with 10 data and
    30 parity pieces only, and never a directory query or a rename. *)
Theorem run_stays_within_mode (filepath_Clean : string -> string) (path : string)
    (events : list fsnotify.Event) (w w1 : World R) :
  NewSiafolder path w = Done None w1 ->
  issues_only (mode_allows archive dryRun) w
    (world_of (eventWatcher filepath_Clean events w1)).
Proof.
  intros Hrun. destruct (filepath_Abs path) as [abspath|e] eqn:Habs.
  2:{ rewrite NewSiafolder_run, Habs in Hrun. discriminate. }
  destruct (NewSiafolder_summary path abspath w Habs) as (Hi & (_ & Harch & _) & _).
  cbn zeta in Hi, Harch. rewrite Hrun in Hi, Harch. cbn [world_of] in Hi, Harch.
  eapply issues_only_trans; [exact Hi|].
  pose proof (eventWatcher_within_mode filepath_Clean events w1) as [_ Hev].
  rewrite Harch in Hev. cbn in Hev. rewrite andb_diag in Hev. exact Hev.
Qed.

(** X25.  After [uploadNonExisting] has returned no error outside dry-run mode,
    the node lists every file of the index under its staging path. *)
Theorem uploadNonExisting_leaves_every_file_listed (w w' : World R) :
  range_visits_keys -> node_remembers_uploads -> dryRun = false ->
  uploadNonExisting w = Done None w' ->
  forall file relpath sp,
    is_Some (SiaFolder.files (folder w) !! file) ->
    filepath_Rel (SiaFolder.path (folder w)) file = Ok relpath ->
    NewSiaPath (filepath_Join siaStagingDir relpath) = Ok sp ->
    listed (remote w') sp.
Proof.
  intros Hrange Hnode Hdry Hrun file relpath sp Hsome Hrel Hsp.
  rewrite uploadNonExisting_run in Hrun. cbn zeta in Hrun.
  destruct (node_RenterFilesGet true (remote w)) as [[rf|e] node] eqn:Hget;
    cbn [fst snd] in Hrun; [|discriminate].
  refine (proj2 (uploadNonExisting_loop_lists _ _ Hnode Hdry _ w' _ Hrun)
            file relpath sp _ Hrel Hsp).
  - intros f Hf. cbn [remote called].
    replace node with (node_RenterFilesGet true (remote w)).2 by (rewrite Hget; reflexivity).
    apply (proj1 Hnode). exists rf, node. split; [exact Hget|].
    exists f. split; [|reflexivity].
    apply list_elem_of_In. apply list_elem_of_In in Hf.
    apply List.filter_In in Hf. tauto.
  - rewrite (Hrange 0%nat (SiaFolder.files (folder w))).
    destruct Hsome as [c Hc]. apply list_elem_of_fmap. exists (file, c).
    split; [reflexivity|]. apply elem_of_map_to_list. exact Hc.
Qed.

(** X26.  When every file of the index maps below the staging directory,
    [uploadChanged] lists the files of the node and does nothing else:
    the listing it compares with holds no file of the staging directory. *)
Theorem uploadChanged_compares_nothing_below_staging (w : World R) :
  range_visits_keys ->
  (forall file relpath sp,
     is_Some (SiaFolder.files (folder w) !! file) ->
     filepath_Rel (SiaFolder.path (folder w)) file = Ok relpath ->
     NewSiaPath (filepath_Join siaStagingDir relpath) = Ok sp ->
     HasPrefix (Path sp) (siaStagingDir ++ "/") = true) ->
  world_of (uploadChanged w)
  = called w (CFilesGet true) (node_RenterFilesGet true (remote w)).2.
Proof.
  intros Hrange Hbelow. apply uploadChanged_frame.
  intros file relpath sp Hin. apply Hbelow.
  exact (range_order_key _ _ _ Hrange Hin).
Qed.

Lemma filter_filter_or {A} (p q : A -> bool) (l : list A) :
  List.filter p (List.filter (fun x => p x || q x) l) = List.filter p l.
Proof.
  induction l as [|x rest IH]; [reflexivity|]. cbn [List.filter].
  destruct (p x) eqn:Hp; cbn [orb List.filter].
  - rewrite Hp. f_equal. exact IH.
  - destruct (q x); cbn [List.filter]; [rewrite Hp|]; exact IH.
Qed.

(** X27.  The listing of [getStagingSiaFiles] is the listing of [getSiaFiles]
    filtered once more; both leave the same world. *)
Theorem getStagingSiaFiles_refines_getSiaFiles (w w1 w2 : World R)
    (staging all : RenterFiles) :
  getStagingSiaFiles w = Done (Ok staging) w1 ->
  getSiaFiles w = Done (Ok all) w2 ->
  w1 = w2 /\
  Files staging = List.filter kept_by_getStagingSiaFiles (Files all).
Proof.
  rewrite getStagingSiaFiles_run, getSiaFiles_run. cbn zeta.
  destruct (node_RenterFilesGet true (remote w)) as [[rf|e] node]; cbn [fst snd];
    [|discriminate].
  intros [= <- <-] [= <- <-]. split; [reflexivity|]. cbn [Files]. symmetry.
  exact (filter_filter_or kept_by_getStagingSiaFiles
           (fun f => negb (HasPrefix (Path (FileSiaPath f)) (siaProdDir ++ "/")))
           (Files rf)).
Qed.

(** X28.  The inner loop of [uploadNonExisting] is a search for a listed file
    with the staging path of the local file; it changes nothing. *)
Theorem existsOnSia_finds_the_staging_path (relpath : string) (sp : SiaPath)
    (siafiles : list SiaFileInfo) (w : World R) :
  NewSiaPath (filepath_Join siaStagingDir relpath) = Ok sp ->
  exists found,
    existsOnSia relpath siafiles w = Done found w /\
    (found = true <-> exists f, f ∈ siafiles /\ Path (FileSiaPath f) = Path sp).
Proof.
  intros Hsp. rewrite existsOnSia_run, Hsp. eexists. split; [reflexivity|]. split.
  - apply existsb_listed.
  - intros (f & Hin & Hpath). exact (listed_existsb siafiles sp f Hin Hpath).
Qed.

End Startup.

(** ** The theorems above on [sync_tree] *)

(** X2 on [a.txt] and [sub/b.txt]: 10 and 5 bytes, two fingerprints. *)
Lemma checksumFile_eq_iff_same_size_witness :
  (os_Stat (Host := sync_host) "/home/eddie/sync/a.txt" = Ok (mkFileInfo 10 false) /\
   os_Stat (Host := sync_host) "/home/eddie/sync/sub/b.txt" = Ok (mkFileInfo 5 false)) /\
  (checksumFile (H := sync_host) "/home/eddie/sync/a.txt"
   = checksumFile (H := sync_host) "/home/eddie/sync/sub/b.txt" <-> 10 = 5).
Proof.
  split; [split; reflexivity|].
  exact (checksumFile_eq_iff_same_size (H := sync_host)
           "/home/eddie/sync/a.txt" "/home/eddie/sync/sub/b.txt"
           (mkFileInfo 10 false) (mkFileInfo 5 false) eq_refl eq_refl).
Defined.

(** X4 on [a.txt], indexed under its current size: nothing happens. *)
Lemma handleFileWrite_acts_on_stale_entries_only_witness :
  let file := "/home/eddie/sync/a.txt" in
  let w := mkWorld (synced_folder false) synced_node [] in
  (forall old c, SiaFolder.files (folder w) !! file = Some old ->
                 checksumFile (H := sync_host) file = Ok c -> old = c) /\
  handleFileWrite (G := flags false false) (H := sync_host) (C := sync_client) file w
  = Done None w.
Proof.
  cbn zeta.
  assert (Hsame : forall old c,
            SiaFolder.files (folder (mkWorld (synced_folder false) synced_node []))
              !! "/home/eddie/sync/a.txt" = Some old ->
            checksumFile (H := sync_host) "/home/eddie/sync/a.txt" = Ok c -> old = c).
  { intros old c Hold Hc. vm_compute in Hold. vm_compute in Hc. congruence. }
  split; [exact Hsame|].
  exact (handleFileWrite_acts_on_stale_entries_only
           (G := flags false false) (H := sync_host) (C := sync_client)
           "/home/eddie/sync/a.txt" (mkWorld (synced_folder false) synced_node []) Hsame).
Defined.

(** X5 on [a.txt] after it was rewritten. *)
Lemma handleFileWrite_success_leaves_current_fingerprint_witness :
  let file := "/home/eddie/sync/a.txt" in
  let w := mkWorld (synced_folder false) synced_node [] in
  let w' := world_of (handleFileWrite (G := flags false false) (H := rewritten_host)
                        (C := rewritten_client) file w) in
  handleFileWrite (G := flags false false) (H := rewritten_host) (C := rewritten_client)
    file w = Done None w' /\
  exists c, checksumFile (H := rewritten_host) file = Ok c /\
            (SiaFolder.files (folder w') !! file = Some c \/
             (w' = w /\ SiaFolder.files (folder w) !! file = None)).
Proof.
  cbn zeta.
  assert (Hrun : handleFileWrite (G := flags false false) (H := rewritten_host)
                   (C := rewritten_client) "/home/eddie/sync/a.txt"
                   (mkWorld (synced_folder false) synced_node [])
                 = Done None
                     (world_of (handleFileWrite (G := flags false false) (H := rewritten_host)
                                  (C := rewritten_client) "/home/eddie/sync/a.txt"
                                  (mkWorld (synced_folder false) synced_node []))))
    by (vm_compute; reflexivity).
  split; [exact Hrun|].
  exact (handleFileWrite_success_leaves_current_fingerprint
           (G := flags false false) (H := rewritten_host) (C := rewritten_client)
           "/home/eddie/sync/a.txt" (mkWorld (synced_folder false) synced_node []) _ Hrun).
Defined.

(** X6 on [a.txt] after it was rewritten. *)
Lemma handleFileWrite_twice_witness :
  let file := "/home/eddie/sync/a.txt" in
  let w := mkWorld (synced_folder false) synced_node [] in
  let w' := world_of (handleFileWrite (G := flags false false) (H := rewritten_host)
                        (C := rewritten_client) file w) in
  handleFileWrite (G := flags false false) (H := rewritten_host) (C := rewritten_client)
    file w = Done None w' /\
  handleFileWrite (G := flags false false) (H := rewritten_host) (C := rewritten_client)
    file w' = Done None w'.
Proof.
  cbn zeta.
  assert (Hrun : handleFileWrite (G := flags false false) (H := rewritten_host)
                   (C := rewritten_client) "/home/eddie/sync/a.txt"
                   (mkWorld (synced_folder false) synced_node [])
                 = Done None
                     (world_of (handleFileWrite (G := flags false false) (H := rewritten_host)
                                  (C := rewritten_client) "/home/eddie/sync/a.txt"
                                  (mkWorld (synced_folder false) synced_node []))))
    by (vm_compute; reflexivity).
  split; [exact Hrun|].
  exact (handleFileWrite_twice
           (G := flags false false) (H := rewritten_host) (C := rewritten_client)
           "/home/eddie/sync/a.txt" (mkWorld (synced_folder false) synced_node []) _ Hrun).
Defined.

(** X7 on [a.txt], uploaded to an empty node. *)
Lemma handleFileWrite_after_handleCreate_witness :
  let file := "/home/eddie/sync/a.txt" in
  let w := mkWorld fresh_folder Node.empty [] in
  let w' := world_of (handleCreate (G := flags true false) (H := sync_host)
                        (C := sync_client) file w) in
  handleCreate (G := flags true false) (H := sync_host) (C := sync_client) file w
  = Done None w' /\
  handleFileWrite (G := flags true false) (H := sync_host) (C := sync_client) file w'
  = Done None w'.
Proof.
  cbn zeta.
  assert (Hrun : handleCreate (G := flags true false) (H := sync_host) (C := sync_client)
                   "/home/eddie/sync/a.txt" (mkWorld fresh_folder Node.empty [])
                 = Done None
                     (world_of (handleCreate (G := flags true false) (H := sync_host)
                                  (C := sync_client) "/home/eddie/sync/a.txt"
                                  (mkWorld fresh_folder Node.empty []))))
    by (vm_compute; reflexivity).
  split; [exact Hrun|].
  exact (handleFileWrite_after_handleCreate
           (G := flags true false) (H := sync_host) (C := sync_client)
           "/home/eddie/sync/a.txt" (mkWorld fresh_folder Node.empty []) _ Hrun).
Defined.

(** X11 on an event for the directory [sub]. *)
Lemma handleEvent_registers_directory_witness :
  let event := fsnotify.mkEvent "/home/eddie/sync/sub" fsnotify.Create in
  let w := mkWorld fresh_folder Node.empty [] in
  is_directory (H := sync_host) (clean_path (fsnotify.Name event)) = true /\
  exists w',
    handleEvent (G := flags true false) (H := sync_host) (C := sync_client)
      clean_path event w = Done tt w' /\
    calls w' = calls w /\ remote w' = remote w /\
    SiaFolder.files (folder w') = SiaFolder.files (folder w) /\
    keeps_settings (folder w) (folder w') /\
    SiaFolder.dirs (folder w') !! clean_path (fsnotify.Name event) =
      Some (default false (SiaFolder.dirs (folder w) !! clean_path (fsnotify.Name event))) /\
    forall dir, dir <> clean_path (fsnotify.Name event) ->
                SiaFolder.dirs (folder w') !! dir = SiaFolder.dirs (folder w) !! dir.
Proof.
  cbn zeta. split; [reflexivity|].
  exact (handleEvent_registers_directory
           (G := flags true false) (H := sync_host) (C := sync_client) clean_path
           (fsnotify.mkEvent "/home/eddie/sync/sub" fsnotify.Create)
           (mkWorld fresh_folder Node.empty []) eq_refl).
Defined.

(** X12 on a removal and a mode change. *)
Lemma eventWatcher_ignores_other_events_witness :
  let w := mkWorld (synced_folder true) synced_node [] in
  Forall (fun event =>
            is_directory (H := sync_host) (clean_path (fsnotify.Name event)) = false /\
            Z.land (fsnotify.Op event) (Z.lor fsnotify.Create fsnotify.Write) = 0)
         other_events /\
  eventWatcher (G := flags true false) (H := sync_host) (C := sync_client)
    clean_path other_events w = Done tt w.
Proof.
  cbn zeta.
  assert (Hall : Forall (fun event =>
            is_directory (H := sync_host) (clean_path (fsnotify.Name event)) = false /\
            Z.land (fsnotify.Op event) (Z.lor fsnotify.Create fsnotify.Write) = 0)
            other_events).
  { repeat constructor. }
  split; [exact Hall|].
  exact (eventWatcher_ignores_other_events
           (G := flags true false) (H := sync_host) (C := sync_client) clean_path
           other_events (mkWorld (synced_folder true) synced_node []) Hall).
Defined.

(** X14 on an event for [sub] and one for [a.txt]. *)
Lemma eventWatcher_never_marks_a_directory_witness :
  let events := [ fsnotify.mkEvent "/home/eddie/sync/sub" fsnotify.Create;
                  fsnotify.mkEvent "/home/eddie/sync/a.txt" fsnotify.Create ] in
  let w := mkWorld fresh_folder Node.empty [] in
  dirs_all_false (folder w) /\
  dirs_all_false
    (folder (world_of (eventWatcher (G := flags true false) (H := sync_host)
                         (C := sync_client) clean_path events w))).
Proof.
  cbn zeta.
  assert (Hfalse : dirs_all_false (folder (mkWorld fresh_folder Node.empty []))).
  { intros dir onSia Hd. vm_compute in Hd. discriminate. }
  split; [exact Hfalse|].
  exact (eventWatcher_never_marks_a_directory
           (G := flags true false) (H := sync_host) (C := sync_client) clean_path
           [ fsnotify.mkEvent "/home/eddie/sync/sub" fsnotify.Create;
             fsnotify.mkEvent "/home/eddie/sync/a.txt" fsnotify.Create ]
           (mkWorld fresh_folder Node.empty []) Hfalse).
Defined.

(** X15 on an event for [a.txt] that carries both bits. *)
Lemma handleEvent_create_uploads_new_file_witness :
  let event := fsnotify.mkEvent "/home/eddie/sync/a.txt"
                 (Z.lor fsnotify.Create fsnotify.Write) in
  let file := clean_path (fsnotify.Name event) in
  let w := mkWorld fresh_folder Node.empty [] in
  let w' := world_of (handleCreate (G := flags true false) (H := sync_host)
                        (C := sync_client) file w) in
  (is_directory (H := sync_host) file = false /\
   has_op (fsnotify.Op event) fsnotify.Create = true /\
   SiaFolder.files (folder w) !! file = None /\
   handleCreate (G := flags true false) (H := sync_host) (C := sync_client) file w
   = Done None w') /\
  handleEvent (G := flags true false) (H := sync_host) (C := sync_client)
    clean_path event w = Done tt w' /\
  exists c, checksumFile (H := sync_host) file = Ok c /\
            SiaFolder.files (folder w') !! file = Some c.
Proof.
  cbn zeta.
  assert (Hrun : handleCreate (G := flags true false) (H := sync_host) (C := sync_client)
                   "/home/eddie/sync/a.txt" (mkWorld fresh_folder Node.empty [])
                 = Done None
                     (world_of (handleCreate (G := flags true false) (H := sync_host)
                                  (C := sync_client) "/home/eddie/sync/a.txt"
                                  (mkWorld fresh_folder Node.empty []))))
    by (vm_compute; reflexivity).
  split; [split; [reflexivity|split; [reflexivity|split; [reflexivity|exact Hrun]]]|].
  exact (handleEvent_create_uploads_new_file
           (G := flags true false) (H := sync_host) (C := sync_client) clean_path
           (fsnotify.mkEvent "/home/eddie/sync/a.txt" (Z.lor fsnotify.Create fsnotify.Write))
           (mkWorld fresh_folder Node.empty []) _ eq_refl eq_refl eq_refl Hrun).
Defined.

(** X17 on a node that refuses every call. *)
Lemma moveToProductionTick_stops_at_failed_query_witness :
  let sp := mkSiaPath "fuse/staging/fuse/staging/movies" in
  let w := mkWorld (synced_folder true) Node.offline [] in
  (NewSiaPath (Host := sync_host)
     (filepath_Join (Host := sync_host) "fuse/staging"
        (filepath_Join (Host := sync_host) (SiaFolder.siaStagingDir (folder w)) movieDir))
   = Ok sp /\
   (node_RenterGetDir (Client := sync_client) sp (remote w)).1 = Err Node.refused) /\
  moveToProductionTick (G := flags true false) (H := sync_host) (C := sync_client) w
  = Done tt (called w (CGetDir sp) (node_RenterGetDir (Client := sync_client) sp (remote w)).2).
Proof.
  cbn zeta. split; [split; reflexivity|].
  exact (moveToProductionTick_stops_at_failed_query
           (G := flags true false) (H := sync_host) (C := sync_client)
           (mkSiaPath "fuse/staging/fuse/staging/movies") Node.refused
           (mkWorld (synced_folder true) Node.offline []) eq_refl eq_refl).
Defined.

(** X18 on the walk of [sync_tree]. *)
Lemma walk_indexes_the_regular_files_witness :
  let path := "/home/eddie/sync" in
  let entries := filepath_Walk (Host := sync_host) path in
  let w := mkWorld fresh_folder Node.empty [] in
  let w' := world_of (forEach (walkFn (H := sync_host) path) entries w) in
  forEach (walkFn (H := sync_host) path) entries w = Done None w' /\
  (forall e, e ∈ entries -> IsDir (walkinfo e) = false -> walkpath e <> path ->
     exists c, checksumFile (H := sync_host) (walkpath e) = Ok c /\
               SiaFolder.files (folder w') !! walkpath e = Some c) /\
  (forall file, is_Some (SiaFolder.files (folder w') !! file) ->
     is_Some (SiaFolder.files (folder w) !! file) \/
     exists e, e ∈ entries /\ walkpath e = file /\ IsDir (walkinfo e) = false).
Proof.
  cbn zeta.
  assert (Hrun : forEach (walkFn (H := sync_host) "/home/eddie/sync")
                   (filepath_Walk (Host := sync_host) "/home/eddie/sync")
                   (mkWorld fresh_folder Node.empty [])
                 = Done None
                     (world_of (forEach (walkFn (H := sync_host) "/home/eddie/sync")
                                  (filepath_Walk (Host := sync_host) "/home/eddie/sync")
                                  (mkWorld fresh_folder Node.empty []))))
    by (vm_compute; reflexivity).
  split; [exact Hrun|].
  exact (walk_indexes_the_regular_files (H := sync_host) "/home/eddie/sync"
           (filepath_Walk (Host := sync_host) "/home/eddie/sync")
           (mkWorld fresh_folder Node.empty []) _ Hrun).
Defined.

(** X20 on the first startup over [sync_tree]. *)
Lemma NewSiafolder_leaves_a_fresh_index_witness :
  NewSiafolder (G := flags true false) (H := sync_host) (C := sync_client)
    "/home/eddie/sync" (boot Node.empty) = Done None first_run_world /\
  index_is_fresh (H := sync_host) (folder first_run_world).
Proof.
  assert (Hrun : NewSiafolder (G := flags true false) (H := sync_host) (C := sync_client)
                   "/home/eddie/sync" (boot Node.empty) = Done None first_run_world)
    by (vm_compute; reflexivity).
  split; [exact Hrun|].
  exact (NewSiafolder_leaves_a_fresh_index
           (G := flags true false) (H := sync_host) (C := sync_client)
           "/home/eddie/sync" (boot Node.empty) first_run_world Hrun).
Defined.

(** X21 on the first startup over [sync_tree]. *)
Lemma NewSiafolder_never_marks_a_directory_witness :
  dirs_all_false (folder (boot Node.empty)) /\
  dirs_all_false
    (folder (world_of (NewSiafolder (G := flags true false) (H := sync_host)
                         (C := sync_client) "/home/eddie/sync" (boot Node.empty)))).
Proof.
  assert (Hfalse : dirs_all_false (folder (boot Node.empty))).
  { intros dir onSia Hd. vm_compute in Hd. discriminate. }
  split; [exact Hfalse|].
  exact (NewSiafolder_never_marks_a_directory
           (G := flags true false) (H := sync_host) (C := sync_client)
           "/home/eddie/sync" (boot Node.empty) Hfalse).
Defined.

(** X22 on the relative path [sync], in dry-run mode, against a node that
    refuses every call. *)
Lemma NewSiafolder_settings_witness :
  let sf := folder (world_of (NewSiafolder (G := flags true true) (H := sync_host)
                                (C := sync_client) "sync" (boot Node.offline))) in
  filepath_Abs (Host := sync_host) "sync" = Ok "/home/eddie/sync" /\
  SiaFolder.path sf = "/home/eddie/sync" /\
  SiaFolder.archive sf = true /\
  SiaFolder.siaStagingDir sf = "fuse/staging" /\
  SiaFolder.siaProdDir sf = "fuse/prod".
Proof.
  cbn zeta. split; [reflexivity|].
  exact (NewSiafolder_settings
           (G := flags true true) (H := sync_host) (C := sync_client)
           "sync" "/home/eddie/sync" (boot Node.offline) eq_refl).
Defined.

(** X23 on [locked_host]. *)
Lemma NewSiafolder_failed_walk_issues_no_call_witness :
  let w := boot Node.empty in
  (filepath_Abs (Host := locked_host) "/home/eddie/sync" = Ok "/home/eddie/sync" /\
   exists e, e ∈ filepath_Walk (Host := locked_host) "/home/eddie/sync" /\
             walkerr e <> None) /\
  exists err w',
    NewSiafolder (G := flags true false) (H := locked_host)
      (C := @Node.client locked_host) "/home/eddie/sync" w = Done (Some err) w' /\
    calls w' = calls w /\ remote w' = remote w.
Proof.
  cbn zeta.
  assert (Hbad : exists e, e ∈ filepath_Walk (Host := locked_host) "/home/eddie/sync" /\
                           walkerr e <> None).
  { exists (mkWalkEntry "/home/eddie/sync/sub" (mkFileInfo 4096 true)
              (Some "open /home/eddie/sync/sub: permission denied")).
    split; [|discriminate]. do 2 apply list_elem_of_further. apply list_elem_of_here. }
  split; [split; [reflexivity|exact Hbad]|].
  exact (NewSiafolder_failed_walk_issues_no_call
           (G := flags true false) (H := locked_host) (C := @Node.client locked_host)
           "/home/eddie/sync" "/home/eddie/sync" (boot Node.empty) eq_refl Hbad).
Defined.

(** X24 on the first startup over [sync_tree] and three events. *)
Lemma run_stays_within_mode_witness :
  let events := [ fsnotify.mkEvent "/home/eddie/sync/sub" fsnotify.Create;
                  fsnotify.mkEvent "/home/eddie/sync/a.txt" fsnotify.Write;
                  fsnotify.mkEvent "/home/eddie/sync/old.txt" fsnotify.Create ] in
  NewSiafolder (G := flags true false) (H := sync_host) (C := sync_client)
    "/home/eddie/sync" (boot Node.empty) = Done None first_run_world /\
  issues_only (mode_allows true false) (boot Node.empty)
    (world_of (eventWatcher (G := flags true false) (H := sync_host) (C := sync_client)
                 clean_path events first_run_world)).
Proof.
  cbn zeta.
  assert (Hrun : NewSiafolder (G := flags true false) (H := sync_host) (C := sync_client)
                   "/home/eddie/sync" (boot Node.empty) = Done None first_run_world)
    by (vm_compute; reflexivity).
  split; [exact Hrun|].
  exact (run_stays_within_mode
           (G := flags true false) (H := sync_host) (C := sync_client) clean_path
           "/home/eddie/sync"
           [ fsnotify.mkEvent "/home/eddie/sync/sub" fsnotify.Create;
             fsnotify.mkEvent "/home/eddie/sync/a.txt" fsnotify.Write;
             fsnotify.mkEvent "/home/eddie/sync/old.txt" fsnotify.Create ]
           (boot Node.empty) first_run_world Hrun).
Defined.

(** X25 on the two files of [sync_tree] and an empty node. *)
Lemma uploadNonExisting_leaves_every_file_listed_witness :
  let w := mkWorld (synced_folder true) Node.empty [] in
  let w' := world_of (uploadNonExisting (G := flags true false) (H := sync_host)
                        (C := sync_client) w) in
  (range_visits_keys (H := sync_host) /\
   node_remembers_uploads (C := sync_client) /\
   dryRun (Globals := flags true false) = false /\
   uploadNonExisting (G := flags true false) (H := sync_host) (C := sync_client) w
   = Done None w') /\
  forall file relpath sp,
    is_Some (SiaFolder.files (folder w) !! file) ->
    filepath_Rel (Host := sync_host) (SiaFolder.path (folder w)) file = Ok relpath ->
    NewSiaPath (Host := sync_host)
      (filepath_Join (Host := sync_host) "fuse/staging" relpath) = Ok sp ->
    listed (C := sync_client) (remote w') sp.
Proof.
  cbn zeta.
  assert (Hrun : uploadNonExisting (G := flags true false) (H := sync_host)
                   (C := sync_client) (mkWorld (synced_folder true) Node.empty [])
                 = Done None
                     (world_of (uploadNonExisting (G := flags true false) (H := sync_host)
                                  (C := sync_client)
                                  (mkWorld (synced_folder true) Node.empty []))))
    by (vm_compute; reflexivity).
  split.
  - split; [apply Unix_range_visits_keys|].
    split; [apply Node_remembers_uploads|].
    split; [reflexivity|exact Hrun].
  - exact (uploadNonExisting_leaves_every_file_listed
             (G := flags true false) (H := sync_host) (C := sync_client)
             (mkWorld (synced_folder true) Node.empty []) _
             (Unix_range_visits_keys sync_tree) (Node_remembers_uploads sync_host)
             eq_refl Hrun).
Defined.

Lemma synced_folder_maps_below_staging (a d : bool) (file relpath : string)
    (sp : SiaPath) :
  is_Some (SiaFolder.files (synced_folder a) !! file) ->
  filepath_Rel (Host := sync_host) "/home/eddie/sync" file = Ok relpath ->
  NewSiaPath (Host := sync_host)
    (filepath_Join (Host := sync_host) "fuse/staging" relpath) = Ok sp ->
  HasPrefix (Path sp) "fuse/staging/" = true.
Proof.
  intros [c Hc] Hrel Hsp. unfold synced_folder in Hc. cbn [SiaFolder.files] in Hc.
  apply lookup_insert_Some in Hc as [[<- _]|[_ Hc]];
    [|apply lookup_singleton_Some in Hc as [<- _]];
    vm_compute in Hrel; injection Hrel as <-;
    vm_compute in Hsp; injection Hsp as <-; reflexivity.
Qed.

(** X26 on the synced folder and the synced node. *)
Lemma uploadChanged_compares_nothing_below_staging_witness :
  let w := mkWorld (synced_folder true) synced_node [] in
  (range_visits_keys (H := sync_host) /\
   forall file relpath sp,
     is_Some (SiaFolder.files (folder w) !! file) ->
     filepath_Rel (Host := sync_host) (SiaFolder.path (folder w)) file = Ok relpath ->
     NewSiaPath (Host := sync_host)
       (filepath_Join (Host := sync_host) "fuse/staging" relpath) = Ok sp ->
     HasPrefix (Path sp) "fuse/staging/" = true) /\
  world_of (uploadChanged (G := flags true false) (H := sync_host) (C := sync_client) w)
  = called w (CFilesGet true) (node_RenterFilesGet (Client := sync_client) true (remote w)).2.
Proof.
  cbn zeta. split.
  - split; [apply Unix_range_visits_keys|].
    exact (synced_folder_maps_below_staging true false).
  - exact (uploadChanged_compares_nothing_below_staging
             (G := flags true false) (H := sync_host) (C := sync_client)
             (mkWorld (synced_folder true) synced_node [])
             (Unix_range_visits_keys sync_tree)
             (synced_folder_maps_below_staging true false)).
Defined.

(** X27 on [mixed_node]. *)
Lemma getStagingSiaFiles_refines_getSiaFiles_witness :
  let w := mkWorld (synced_folder true) mixed_node [] in
  let w' := mkWorld (synced_folder true) mixed_node [CFilesGet true] in
  let staging := mkRenterFiles
                   [ mkSiaFileInfo 5 (mkSiaPath "fuse/prod/sub/b.txt");
                     mkSiaFileInfo 99 (mkSiaPath "backups/old.tar") ] in
  let all := mkRenterFiles (Node.files mixed_node) in
  (getStagingSiaFiles (G := flags true false) (C := sync_client) w = Done (Ok staging) w' /\
   getSiaFiles (G := flags true false) (C := sync_client) w = Done (Ok all) w') /\
  w' = w' /\
  Files staging = List.filter (kept_by_getStagingSiaFiles (G := flags true false)) (Files all).
Proof.
  cbn zeta. split; [split; reflexivity|].
  exact (getStagingSiaFiles_refines_getSiaFiles
           (G := flags true false) (C := sync_client)
           (mkWorld (synced_folder true) mixed_node []) _ _ _ _ eq_refl eq_refl).
Defined.

(** X28 on [a.txt] and the listing of the synced node. *)
Lemma existsOnSia_finds_the_staging_path_witness :
  let sp := mkSiaPath "fuse/staging/a.txt" in
  let w := mkWorld (synced_folder true) synced_node [] in
  NewSiaPath (Host := sync_host)
    (filepath_Join (Host := sync_host) "fuse/staging" "a.txt") = Ok sp /\
  exists found,
    existsOnSia (G := flags true false) (H := sync_host) (R := Node.t)
      "a.txt" (Node.files synced_node) w = Done found w /\
    (found = true <->
     exists f, f ∈ Node.files synced_node /\ Path (FileSiaPath f) = Path sp).
Proof.
  cbn zeta. split; [reflexivity|].
  exact (existsOnSia_finds_the_staging_path
           (G := flags true false) (H := sync_host) (R := Node.t)
           "a.txt" (mkSiaPath "fuse/staging/a.txt") (Node.files synced_node)
           (mkWorld (synced_folder true) synced_node []) eq_refl).
Defined.
